(** * Message relay and device-state engine of the gas-station monitor

    A shallow embedding of [backend/app/services/mqtt_service.py] together
    with the parts of [backend/config.py] and [backend/app/models.py] that it
    reads and writes, and the properties of the relay proved over it.

    Definitions:
    - [Py]      the Python string and exception primitives the service uses;
    - [Json]    decoded JSON values, the operators applied to them, and a
                reference decoder used to run the model on concrete payloads;
    - [Config]  the topic prefixes of [config.py];
    - [Device], [CommLog], [AlarmLog]  the rows of [models.py];
    - [Store]   the database session, its commits and the broker outbox;
    - [Relay]   [auto_register_device], [handle_indoor_message],
                [handle_outdoor_message] and [on_message];
    - [Fixture] a small installation to run the relay on;
    - [Routing] the message loop and the targets of a message;
    - [Admin]   the binding requests of [api/devices.py] and
                [api/stations.py];
    - [Legacy]  the script [Data_Forwarding.py] that the service replaces.

    Properties:
    - [Facts]         lists, strings and rows;
    - [Codec]         topics built and parsed back;
    - [Registry]      [auto_register_device];
    - [Engine]        the two handlers and [on_message];
    - [Relaying]      what every handled message does and does not do;
    - [FirstContact]  two first contacts of one IMEI;
    - [Binding]       bindings under administration and traffic;
    - [Migration]     the service against the script. *)

From Stdlib Require Import String Ascii List ZArith QArith Bool Lia.
Import ListNotations.

Set Warnings "-register-all,-notation-for-abbreviation".

Local Open Scope string_scope.
Local Open Scope Z_scope.
Local Open Scope list_scope.

(** ** Python primitives *)

Module Py.

(** The exceptions that the relay code can meet. *)
Inductive exn : Type :=
| TypeError
| ValueError
| KeyError
| IntegrityError
| StatementError
| UnicodeDecodeError.

(** A computation that returns a value or raises. *)
Inductive result (A : Type) : Type :=
| Ok (a : A)
| Raise (e : exn).
Arguments Ok {A} a.
Arguments Raise {A} e.

Definition bind {A B : Type} (m : result A) (k : A -> result B) : result B :=
  match m with
  | Ok a => k a
  | Raise e => Raise e
  end.

(** [s.startswith(p)]. *)
Definition startswith (s p : string) : bool := String.prefix p s.

(** [s.split(sep)] for a one-character separator: never empty, the pieces
    between the separators in order. *)
Fixpoint split (sep : ascii) (s : string) : list string :=
  match s with
  | EmptyString => [EmptyString]
  | String c r =>
      if Ascii.eqb c sep then EmptyString :: split sep r
      else match split sep r with
           | [] => [String c EmptyString]
           | h :: t => String c h :: t
           end
  end.

(** [l[-1]] on a list known to be non-empty. *)
Definition last_item (l : list string) : string := List.last l EmptyString.

(** [needle in hay] for two strings: substring test. *)
Fixpoint str_contains (needle hay : string) : bool :=
  if String.prefix needle hay then true
  else match hay with
       | EmptyString => false
       | String _ r => str_contains needle r
       end.

(** Truth value of an optional integer column: [None] and [0] are false. *)
Definition truthy (x : option Z) : bool :=
  match x with
  | None => false
  | Some z => negb (z =? 0)
  end.

End Py.

Notation "x <- m ;; k" := (Py.bind m (fun x => k))
(at level 61, m at next level, right associativity).

(** ** JSON values as [json.loads] returns them *)

Module Json.

(** A Python [float]: a finite value, an infinity or a NaN.  A finite double
    is a rational; which rational a literal rounds to is the decoder's
    business. *)
Inductive pyfloat : Type :=
| Finite (q : Q)
| Inf (negative : bool)
| NaN.

(** The Python object a JSON document decodes to.  [JNull] is [None]; an
    object is a [dict], kept as an association list in insertion order with
    one entry per key. *)
Inductive JValue : Type :=
| JNull
| JBool (b : bool)
| JInt (z : Z)
| JFloat (f : pyfloat)
| JStr (s : string)
| JArr (items : list JValue)
| JObj (members : list (string * JValue)).

Fixpoint lookup (k : string) (kvs : list (string * JValue)) : option JValue :=
  match kvs with
  | [] => None
  | (k', v) :: rest => if String.eqb k k' then Some v else lookup k rest
  end.

(** [d[k] = v] on a dict: overwrite in place or append. *)
Fixpoint dict_set (k : string) (v : JValue) (kvs : list (string * JValue))
  : list (string * JValue) :=
  match kvs with
  | [] => [(k, v)]
  | (k', v') :: rest =>
      if String.eqb k k' then (k, v) :: rest else (k', v') :: dict_set k v rest
  end.

Definition is_str (k : string) (v : JValue) : bool :=
  match v with
  | JStr s => String.eqb s k
  | _ => false
  end.

(** [k in data] for a string constant [k]: key membership on a dict,
    element membership on a list, substring on a string, [TypeError] on the
    objects that are not containers. *)
Definition contains (k : string) (data : JValue) : Py.result bool :=
  match data with
  | JObj kvs => Py.Ok (match lookup k kvs with Some _ => true | None => false end)
  | JArr items => Py.Ok (existsb (is_str k) items)
  | JStr s => Py.Ok (Py.str_contains k s)
  | JNull | JBool _ | JInt _ | JFloat _ => Py.Raise Py.TypeError
  end.

(** [data[k]] for a string constant [k], reached only after [k in data]
    held: the value on a dict, [TypeError] on a list or a string (their
    indices must be integers). *)
Definition getitem (k : string) (data : JValue) : Py.result JValue :=
  match data with
  | JObj kvs =>
      match lookup k kvs with
      | Some v => Py.Ok v
      | None => Py.Raise Py.KeyError
      end
  | _ => Py.Raise Py.TypeError
  end.

(** [v == 1]: numbers compare by value ([True] is [1]), everything else is
    different from [1]. *)
Definition eq_one (v : JValue) : bool :=
  match v with
  | JInt z => z =? 1
  | JBool b => b
  | JFloat (Finite q) => Qeq_bool q 1
  | _ => false
  end.

(** *** Reference decoder

    [json.loads] and [int] belong to the Python library, so the relay below
    takes them as parameters.  [loads] and [py_int] are executable reference
    versions for the ASCII part of their domain, used to run the relay on
    concrete payloads.  [loads] follows the JSON grammar (objects, arrays,
    strings with the one-letter escapes, numbers, [true], [false], [null]);
    a later duplicate key overwrites the earlier one.  A number with a
    fraction or an exponent becomes the rational its literal denotes. *)

Definition code (c : ascii) : Z := Z.of_nat (nat_of_ascii c).

(** The double quote. *)
Definition dquote : ascii := ascii_of_nat 34.

(** A string literal of JSON for a text without quotes and backslashes. *)
Definition quote (s : string) : string :=
  String dquote (String.append s (String dquote EmptyString)).

Definition is_ws (c : ascii) : bool :=
  (code c =? 32) || (code c =? 9) || (code c =? 10) || (code c =? 13).

Fixpoint skip_ws (s : string) : string :=
  match s with
  | String c r => if is_ws c then skip_ws r else s
  | EmptyString => s
  end.

Definition digit_of (c : ascii) : option Z :=
  if (48 <=? code c) && (code c <=? 57) then Some (code c - 48) else None.

(** Reads a run of digits: the number read so far, how many digits, the rest. *)
Fixpoint read_digits (s : string) (acc : Z) (n : nat) : Z * nat * string :=
  match s with
  | String c r =>
      match digit_of c with
      | Some d => read_digits r (acc * 10 + d) (S n)
      | None => (acc, n, s)
      end
  | EmptyString => (acc, n, s)
  end.

(** [c] at the head of [s], after white space. *)
Definition expect (c : ascii) (s : string) : option string :=
  match skip_ws s with
  | String c' r => if Ascii.eqb c c' then Some r else None
  | EmptyString => None
  end.

Definition read_frac (s : string) : option (option (Z * nat) * string) :=
  match s with
  | String c r =>
      if Ascii.eqb c "." then
        let '(v, n, rest) := read_digits r 0 O in
        match n with
        | O => None
        | S _ => Some (Some (v, n), rest)
        end
      else Some (None, s)
  | EmptyString => Some (None, s)
  end.

Definition read_sign (s : string) : Z * string :=
  match s with
  | String c r =>
      if Ascii.eqb c "+" then (1, r)
      else if Ascii.eqb c "-" then (-1, r)
      else (1, s)
  | EmptyString => (1, s)
  end.

Definition read_exp (s : string) : option (option Z * string) :=
  match s with
  | String c r =>
      if Ascii.eqb c "e" || Ascii.eqb c "E" then
        let '(sg, r1) := read_sign r in
        let '(v, n, rest) := read_digits r1 0 O in
        match n with
        | O => None
        | S _ => Some (Some (sg * v), rest)
        end
      else Some (None, s)
  | EmptyString => Some (None, s)
  end.

(** [m * 10 ^ e] as a rational. *)
Definition decimal (m e : Z) : Q :=
  if 0 <=? e then Qmake (m * 10 ^ e) 1
  else Qmake m (Z.to_pos (10 ^ (- e))).

Definition read_number (s : string) : option (JValue * string) :=
  let '(sg, s1) :=
    match s with
    | String c r => if Ascii.eqb c "-" then (-1, r) else (1, s)
    | EmptyString => (1, s)
    end in
  match s1 with
  | EmptyString => None
  | String c r =>
      match digit_of c with
      | None => None
      | Some d =>
          let '(ip, rest) :=
            if d =? 0 then (0, r)
            else let '(v, _, rest) := read_digits r d 1%nat in (v, rest) in
          match read_frac rest with
          | None => None
          | Some (fr, rest1) =>
              match read_exp rest1 with
              | None => None
              | Some (ex, rest2) =>
                  match fr, ex with
                  | None, None => Some (JInt (sg * ip), rest2)
                  | Some (fv, fn), None =>
                      Some (JFloat (Finite
                        (decimal (sg * (ip * 10 ^ Z.of_nat fn + fv)) (- Z.of_nat fn))),
                        rest2)
                  | None, Some e =>
                      Some (JFloat (Finite (decimal (sg * ip) e)), rest2)
                  | Some (fv, fn), Some e =>
                      Some (JFloat (Finite
                        (decimal (sg * (ip * 10 ^ Z.of_nat fn + fv)) (e - Z.of_nat fn))),
                        rest2)
                  end
              end
          end
      end
  end.

Definition unescape (c : ascii) : option ascii :=
  if Ascii.eqb c dquote then Some c
  else if Ascii.eqb c "\" then Some c
  else if Ascii.eqb c "/" then Some c
  else if Ascii.eqb c "b" then Some (ascii_of_nat 8)
  else if Ascii.eqb c "f" then Some (ascii_of_nat 12)
  else if Ascii.eqb c "n" then Some (ascii_of_nat 10)
  else if Ascii.eqb c "r" then Some (ascii_of_nat 13)
  else if Ascii.eqb c "t" then Some (ascii_of_nat 9)
  else None.

(** The body of a string literal after its opening quote, and what follows
    the closing quote. *)
Fixpoint read_string (s : string) : option (string * string) :=
  match s with
  | EmptyString => None
  | String c r =>
      if Ascii.eqb c dquote then Some (EmptyString, r)
      else if Ascii.eqb c "\" then
        match r with
        | EmptyString => None
        | String e r' =>
            match unescape e, read_string r' with
            | Some ch, Some (t, rest) => Some (String ch t, rest)
            | _, _ => None
            end
        end
      else if code c <? 32 then None
      else match read_string r with
           | Some (t, rest) => Some (String c t, rest)
           | None => None
           end
  end.

Definition read_word (w : string) (v : JValue) (s : string)
  : option (JValue * string) :=
  if String.prefix w s
  then Some (v, String.substring (String.length w) (String.length s - String.length w) s)
  else None.

Fixpoint read_value (fuel : nat) (s : string) : option (JValue * string) :=
  match fuel with
  | O => None
  | S f =>
      match skip_ws s with
      | EmptyString => None
      | String c r =>
          if Ascii.eqb c "{" then
            match expect "}" r with
            | Some r' => Some (JObj [], r')
            | None => read_members f r []
            end
          else if Ascii.eqb c "[" then
            match expect "]" r with
            | Some r' => Some (JArr [], r')
            | None => read_items f r []
            end
          else if Ascii.eqb c dquote then
            match read_string r with
            | Some (t, rest) => Some (JStr t, rest)
            | None => None
            end
          else if Ascii.eqb c "t" then read_word "true" (JBool true) (String c r)
          else if Ascii.eqb c "f" then read_word "false" (JBool false) (String c r)
          else if Ascii.eqb c "n" then read_word "null" JNull (String c r)
          else read_number (String c r)
      end
  end
with read_members (fuel : nat) (s : string) (acc : list (string * JValue))
  : option (JValue * string) :=
  match fuel with
  | O => None
  | S f =>
      match expect dquote s with
      | None => None
      | Some r =>
          match read_string r with
          | None => None
          | Some (k, r1) =>
              match expect ":" r1 with
              | None => None
              | Some r2 =>
                  match read_value f r2 with
                  | None => None
                  | Some (v, r3) =>
                      match expect "," r3, expect "}" r3 with
                      | Some r4, _ => read_members f r4 (dict_set k v acc)
                      | None, Some r4 => Some (JObj (dict_set k v acc), r4)
                      | None, None => None
                      end
                  end
              end
          end
      end
  end
with read_items (fuel : nat) (s : string) (acc : list JValue)
  : option (JValue * string) :=
  match fuel with
  | O => None
  | S f =>
      match read_value f s with
      | None => None
      | Some (v, r1) =>
          match expect "," r1, expect "]" r1 with
          | Some r2, _ => read_items f r2 (acc ++ [v])
          | None, Some r2 => Some (JArr (acc ++ [v]), r2)
          | None, None => None
          end
      end
  end.

(** [json.loads(s)]: one value, white space around it, nothing else. *)
Definition loads (s : string) : option JValue :=
  match read_value (2 * String.length s + 2) s with
  | Some (v, rest) =>
      match skip_ws rest with
      | EmptyString => Some v
      | String _ _ => None
      end
  | None => None
  end.

Definition is_py_space (c : ascii) : bool :=
  (code c =? 32) || ((9 <=? code c) && (code c <=? 13))
  || ((28 <=? code c) && (code c <=? 31)).

Fixpoint lstrip (s : string) : string :=
  match s with
  | String c r => if is_py_space c then lstrip r else s
  | EmptyString => s
  end.

(** Decimal digits with single underscores between them. *)
Fixpoint read_int_digits (s : string) (acc : Z) (after_digit : bool)
  : option (Z * string) :=
  match s with
  | String c r =>
      match digit_of c with
      | Some d => read_int_digits r (acc * 10 + d) true
      | None =>
          if Ascii.eqb c "_" then
            if after_digit then read_int_digits r acc false else None
          else if after_digit then Some (acc, s) else None
      end
  | EmptyString => if after_digit then Some (acc, s) else None
  end.

(** [int(s)] for a string: optional white space, an optional sign, decimal
    digits; [None] stands for [ValueError]. *)
Definition py_int (s : string) : option Z :=
  let '(sg, s1) := read_sign (lstrip s) in
  match read_int_digits s1 0 false with
  | Some (v, rest) =>
      match lstrip rest with
      | EmptyString => Some (sg * v)
      | String _ _ => None
      end
  | None => None
  end.

End Json.

(** ** Topic prefixes ([config.py]) *)

Module Config.

Record t : Type := {
  INDOOR_PUB_PREFIX : string;
  INDOOR_SUB_PREFIX : string;
  OUTDOOR_PUB_PREFIX : string;
  OUTDOOR_SUB_PREFIX : string
}.

(** The values of class [Config]. *)
Definition default : t := {|
  INDOOR_PUB_PREFIX := "/AIR8000/PUB/";
  INDOOR_SUB_PREFIX := "/AIR8000/SUB/";
  OUTDOOR_PUB_PREFIX := "/780EHV/PUB/";
  OUTDOOR_SUB_PREFIX := "/780EHV/SUB/"
|}.

End Config.

(** ** Rows ([models.py])

    Each record keeps the columns that the relay reads or writes.  The
    columns that the storage fills in by itself ([id], [created_at],
    [updated_at]) are never read by the relay and are left out.  Time stamps
    are integers.  [Device.vbat] holds the Python value that the relay
    assigns to the attribute, [JNull] standing for [None]; what the storage
    makes of a value that is no number is not modelled. *)

Inductive DeviceType : Type := indoor | outdoor.
Inductive Direction : Type := receive | forward.
Inductive AlarmType : Type := alarm | cancel.

Definition DeviceType_eqb (a b : DeviceType) : bool :=
  match a, b with
  | indoor, indoor | outdoor, outdoor => true
  | _, _ => false
  end.

Module Device.

Record t : Type := {
  imei : string;
  type : DeviceType;
  name : string;
  station_id : option Z;
  last_seen : option Z;
  vbat : Json.JValue
}.

Definition set_last_seen (ts : Z) (d : t) : t :=
  {| imei := imei d; type := type d; name := name d;
     station_id := station_id d; last_seen := Some ts; vbat := vbat d |}.

Definition set_vbat (v : Json.JValue) (d : t) : t :=
  {| imei := imei d; type := type d; name := name d;
     station_id := station_id d; last_seen := last_seen d; vbat := v |}.

End Device.

Module CommLog.

Record t : Type := {
  direction : Direction;
  source_type : DeviceType;
  source_imei : string;
  target_type : option DeviceType;
  target_imei : option string;
  topic : string;
  payload : string;
  station_id : option Z
}.

End CommLog.

Module AlarmLog.

(** [outdoor_imeis] is stored as the JSON text of this list. *)
Record t : Type := {
  station_id : option Z;
  indoor_imei : string;
  alarm_type : AlarmType;
  outdoor_imeis : list string;
  forward_status : Z
}.

End AlarmLog.

(** ** The database session and the broker *)

Module Store.

(** The three tables, rows in insertion order. *)
Record DB : Type := {
  devices : list Device.t;
  comm_logs : list CommLog.t;
  alarm_logs : list AlarmLog.t
}.

(** What a message handler acts on: the session's view of the tables, the
    snapshots written by every [db.session.commit()] so far (newest first),
    the messages handed to [mqtt_client.publish] (oldest first), and how many
    times [datetime.now()] has been read. *)
Record World : Type := {
  session : DB;
  commits : list DB;
  outbox : list (string * string);
  ticks : nat
}.

Definition with_session (db : DB) (w : World) : World :=
  {| session := db; commits := commits w; outbox := outbox w; ticks := ticks w |}.

(** [db.session.commit()] when every pending value binds to its column:
    the tables of the session become the newest committed state.  That is
    the case of the rows that the code builds from strings, integers and
    time stamps. *)
Definition commit (w : World) : World :=
  {| session := session w; commits := session w :: commits w;
     outbox := outbox w; ticks := ticks w |}.

(** [db.session.commit()] in general.  The flush binds each pending value
    to its column and raises [StatementError] when one does not bind;
    [binds] tells whether they all do.  When it raises the transaction is
    rolled back: nothing of what was pending is written. *)
Definition commit_checked (binds : bool) (w : World) : Py.result World :=
  if binds then Py.Ok (commit w) else Py.Raise Py.StatementError.

(** [mqtt_client.publish(topic, payload)]: the message is handed to the
    broker client and nothing is awaited.  The client is taken to accept
    every topic and payload it is given. *)
Definition publish (topic payload : string) (w : World) : World :=
  {| session := session w; commits := commits w;
     outbox := outbox w ++ [(topic, payload)]; ticks := ticks w |}.

Definition has_imei (imei : string) (d : Device.t) : bool :=
  String.eqb (Device.imei d) imei.

(** [Device.query.filter_by(imei=imei).first()]. *)
Definition first_by_imei (imei : string) (db : DB) : option Device.t :=
  List.find (has_imei imei) (devices db).

Definition option_Z_eqb (a b : option Z) : bool :=
  match a, b with
  | Some x, Some y => x =? y
  | None, None => true
  | _, _ => false
  end.

Definition in_station (sid : option Z) (ty : DeviceType) (d : Device.t) : bool :=
  option_Z_eqb (Device.station_id d) sid && DeviceType_eqb (Device.type d) ty.

(** [Device.query.filter_by(station_id=sid, type=ty).all()]. *)
Definition all_by_station (sid : option Z) (ty : DeviceType) (db : DB)
  : list Device.t :=
  List.filter (in_station sid ty) (devices db).

(** [Device.query.filter_by(station_id=sid, type=ty).first()]. *)
Definition first_by_station (sid : option Z) (ty : DeviceType) (db : DB)
  : option Device.t :=
  List.find (in_station sid ty) (devices db).

(** The [unique=True] of column [imei]: a second row with an IMEI already in
    the table is refused. *)
Definition insert_unique (d : Device.t) (rows : list Device.t)
  : Py.result (list Device.t) :=
  if existsb (has_imei (Device.imei d)) rows
  then Py.Raise Py.IntegrityError
  else Py.Ok (rows ++ [d]).

Definition with_devices (rows : list Device.t) (db : DB) : DB :=
  {| devices := rows; comm_logs := comm_logs db; alarm_logs := alarm_logs db |}.

(** Writes a changed device object back to its row (the first one with its
    IMEI). *)
Fixpoint replace_row (d : Device.t) (rows : list Device.t) : list Device.t :=
  match rows with
  | [] => []
  | r :: rest =>
      if has_imei (Device.imei d) r then d :: rest else r :: replace_row d rest
  end.

Definition save_device (d : Device.t) (w : World) : World :=
  with_session (with_devices (replace_row d (devices (session w))) (session w)) w.

(** [db.session.add(log)] for a [CommLog]. *)
Definition add_comm_log (l : CommLog.t) (w : World) : World :=
  with_session
    {| devices := devices (session w);
       comm_logs := comm_logs (session w) ++ [l];
       alarm_logs := alarm_logs (session w) |} w.

(** [db.session.add(log)] for an [AlarmLog]. *)
Definition add_alarm_log (l : AlarmLog.t) (w : World) : World :=
  with_session
    {| devices := devices (session w);
       comm_logs := comm_logs (session w);
       alarm_logs := alarm_logs (session w) ++ [l] |} w.

End Store.

(** ** The relay ([mqtt_service.py]) *)

Module Relay.

Import Store.

Section Service.

(** [flask_app.config]. *)
Variable cfg : Config.t.

(** [json.loads]: [None] when it raises. *)
Variable json_loads : string -> option Json.JValue.

(** [int] on a string: [None] when it raises [ValueError]. *)
Variable int_of_str : string -> option Z.

(** The successive readings of [datetime.now()]. *)
Variable clock : nat -> Z.

(** [bytes.decode('utf-8')]: [None] when it raises. *)
Variable decode_utf8 : string -> option string.

(** Whether the storage binds a Python value to a [Float] column. *)
Variable float_binds : Json.JValue -> bool.

Definition datetime_now (w : World) : Z * World :=
  (clock (ticks w),
   {| session := session w; commits := commits w; outbox := outbox w;
      ticks := S (ticks w) |}).

(** The placeholder name [f"自动注册-{imei}"]. *)
Definition auto_name (imei : string) : string :=
  String.append "自动注册-" imei.

(** The row that [auto_register_device] creates. *)
Definition new_device (imei : string) (device_type : DeviceType) (ts : Z)
  : Device.t :=
  {| Device.imei := imei;
     Device.type := device_type;
     Device.name := auto_name imei;
     Device.station_id := None;
     Device.last_seen := Some ts;
     Device.vbat := Json.JNull |}.

(** Lines 257-276. *)
Definition auto_register_device (imei : string) (device_type : DeviceType)
  (w : World) : World * Py.result Device.t :=
  match first_by_imei imei (session w) with
  | Some device => (w, Py.Ok device)
  | None =>
      let '(ts, w) := datetime_now w in
      let device := new_device imei device_type ts in
      match insert_unique device (devices (session w)) with
      | Py.Raise e => (w, Py.Raise e)
      | Py.Ok rows =>
          (commit (with_session (with_devices rows (session w)) w), Py.Ok device)
      end
  end.

(** The topic a device of a class publishes on, as the receive log spells it. *)
Definition pub_prefix (ty : DeviceType) : string :=
  match ty with
  | indoor => Config.INDOOR_PUB_PREFIX cfg
  | outdoor => Config.OUTDOOR_PUB_PREFIX cfg
  end.

(** The topic a device of a class listens on. *)
Definition sub_prefix (ty : DeviceType) : string :=
  match ty with
  | indoor => Config.INDOOR_SUB_PREFIX cfg
  | outdoor => Config.OUTDOOR_SUB_PREFIX cfg
  end.

Definition build_topic (ty : DeviceType) (imei : string) : string :=
  String.append (pub_prefix ty) imei.

(** One turn of the loop over [outdoor_devices]: publish, remember the IMEI,
    add the forward log. *)
Definition forward_to_outdoor (imei payload : string) (sid : option Z)
  (acc : World * list string) (outdoor_device : Device.t) : World * list string :=
  let '(w, outdoor_imeis) := acc in
  let target_topic :=
    String.append (Config.OUTDOOR_SUB_PREFIX cfg) (Device.imei outdoor_device) in
  let w := publish target_topic payload w in
  let outdoor_imeis := outdoor_imeis ++ [Device.imei outdoor_device] in
  let forward_log :=
    {| CommLog.direction := forward;
       CommLog.source_type := indoor;
       CommLog.source_imei := imei;
       CommLog.target_type := Some outdoor;
       CommLog.target_imei := Some (Device.imei outdoor_device);
       CommLog.topic := target_topic;
       CommLog.payload := payload;
       CommLog.station_id := sid |} in
  (add_comm_log forward_log w, outdoor_imeis).

(** Lines 169-173: the value of [bj] when the key is present, strings turned
    into integers. *)
Definition read_bj (data : Json.JValue) : Py.result (option Json.JValue) :=
  present <- Json.contains "bj" data ;;
  if present then
    bj_value <- Json.getitem "bj" data ;;
    match bj_value with
    | Json.JStr s =>
        match int_of_str s with
        | Some z => Py.Ok (Some (Json.JInt z))
        | None => Py.Raise Py.ValueError
        end
    | _ => Py.Ok (Some bj_value)
    end
  else Py.Ok None.

(** Lines 97-184.  The test [if not device] of line 104 never fires, a
    model object being true; what reaches the handler from registration is
    an object or the exception of the insert. *)
Definition handle_indoor_message (imei payload : string) (w : World)
  : World * Py.result unit :=
  match auto_register_device imei indoor w with
  | (w, Py.Raise e) => (w, Py.Raise e)
  | (w, Py.Ok device) =>
      let '(ts, w) := datetime_now w in
      let device := Device.set_last_seen ts device in
      let w := commit (save_device device w) in
      let receive_log :=
        {| CommLog.direction := receive;
           CommLog.source_type := indoor;
           CommLog.source_imei := imei;
           CommLog.target_type := None;
           CommLog.target_imei := None;
           CommLog.topic := String.append (Config.INDOOR_PUB_PREFIX cfg) imei;
           CommLog.payload := payload;
           CommLog.station_id := Device.station_id device |} in
      let w := commit (add_comm_log receive_log w) in
      match json_loads payload with
      | None => (w, Py.Ok tt)
      | Some data =>
          if negb (Py.truthy (Device.station_id device)) then (w, Py.Ok tt)
          else
            let outdoor_devices :=
              all_by_station (Device.station_id device) outdoor (session w) in
            match outdoor_devices with
            | [] => (w, Py.Ok tt)
            | _ :: _ =>
                let '(w, outdoor_imeis) :=
                  fold_left
                    (forward_to_outdoor imei payload (Device.station_id device))
                    outdoor_devices (w, []) in
                let w := commit w in
                match read_bj data with
                | Py.Raise e => (w, Py.Raise e)
                | Py.Ok None => (w, Py.Ok tt)
                | Py.Ok (Some bj_value) =>
                    let alarm_type :=
                      if Json.eq_one bj_value then alarm else cancel in
                    let alarm_log :=
                      {| AlarmLog.station_id := Device.station_id device;
                         AlarmLog.indoor_imei := imei;
                         AlarmLog.alarm_type := alarm_type;
                         AlarmLog.outdoor_imeis := outdoor_imeis;
                         AlarmLog.forward_status := 1 |} in
                    (commit (add_alarm_log alarm_log w), Py.Ok tt)
                end
            end
      end
  end.

(** Lines 201-206: the battery voltage is taken over when the payload decodes
    and carries [vbat]; whatever is raised on the way is swallowed. *)
Definition update_vbat (payload : string) (device : Device.t) : Device.t :=
  match json_loads payload with
  | None => device
  | Some data =>
      match Json.contains "vbat" data with
      | Py.Ok true =>
          match Json.getitem "vbat" data with
          | Py.Ok v => Device.set_vbat v device
          | Py.Raise _ => device
          end
      | _ => device
      end
  end.

(** The value that lines 201-206 assign to [device.vbat], if they assign
    one. *)
Definition assigned_vbat (payload : string) : option Json.JValue :=
  match json_loads payload with
  | None => None
  | Some data =>
      match Json.contains "vbat" data with
      | Py.Ok true =>
          match Json.getitem "vbat" data with
          | Py.Ok v => Some v
          | Py.Raise _ => None
          end
      | _ => None
      end
  end.

(** Whether the commit of line 208 passes: its flush writes the new
    last-seen time, which binds, and the voltage when one was assigned. *)
Definition vbat_binds (payload : string) : bool :=
  match assigned_vbat payload with
  | Some v => float_binds v
  | None => true
  end.

(** Lines 187-254.  The commit of line 208 stands after the [try] of lines
    201-206, so that what it raises leaves the handler: the time stamp and
    the voltage, which were pending, are not written, and the tables stay
    as registration left them. *)
Definition handle_outdoor_message (imei payload : string) (w : World)
  : World * Py.result unit :=
  match auto_register_device imei outdoor w with
  | (w, Py.Raise e) => (w, Py.Raise e)
  | (w, Py.Ok device) =>
      let '(ts, w) := datetime_now w in
      let device := Device.set_last_seen ts device in
      let device := update_vbat payload device in
      match commit_checked (vbat_binds payload) (save_device device w) with
      | Py.Raise e => (w, Py.Raise e)
      | Py.Ok w =>
          let receive_log :=
            {| CommLog.direction := receive;
               CommLog.source_type := outdoor;
               CommLog.source_imei := imei;
               CommLog.target_type := None;
               CommLog.target_imei := None;
               CommLog.topic :=
                 String.append (Config.OUTDOOR_PUB_PREFIX cfg) imei;
               CommLog.payload := payload;
               CommLog.station_id := Device.station_id device |} in
          let w := commit (add_comm_log receive_log w) in
          if negb (Py.truthy (Device.station_id device)) then (w, Py.Ok tt)
          else
            match first_by_station (Device.station_id device) indoor
                    (session w) with
            | None => (w, Py.Ok tt)
            | Some indoor_device =>
                let target_topic :=
                  String.append (Config.INDOOR_SUB_PREFIX cfg)
                                (Device.imei indoor_device) in
                let w := publish target_topic payload w in
                let forward_log :=
                  {| CommLog.direction := forward;
                     CommLog.source_type := outdoor;
                     CommLog.source_imei := imei;
                     CommLog.target_type := Some indoor;
                     CommLog.target_imei := Some (Device.imei indoor_device);
                     CommLog.topic := target_topic;
                     CommLog.payload := payload;
                     CommLog.station_id := Device.station_id device |} in
                (commit (add_comm_log forward_log w), Py.Ok tt)
            end
      end
  end.

(** Lines 85-92: which class a topic belongs to and the IMEI read off it,
    [topic.split('/')[-1]]. *)
Definition parse_topic (topic : string) : option (DeviceType * string) :=
  if Py.startswith topic (Config.INDOOR_PUB_PREFIX cfg)
  then Some (indoor, Py.last_item (Py.split "/" topic))
  else if Py.startswith topic (Config.OUTDOOR_PUB_PREFIX cfg)
  then Some (outdoor, Py.last_item (Py.split "/" topic))
  else None.

(** A message as the broker client delivers it. *)
Record Message : Type := {
  topic : string;
  payload : string
}.

(** The callback.  An exception of a handler is caught and printed.  The
    session ends with the application context; every path of a handler
    ends on a commit or on a flush that failed and was rolled back, so
    nothing is pending then and the tables stay as the handler left
    them. *)
Definition on_message (msg : Message) (w : World) : World :=
  match decode_utf8 (payload msg) with
  | None => w
  | Some text =>
      match parse_topic (topic msg) with
      | Some (indoor, imei) => fst (handle_indoor_message imei text w)
      | Some (outdoor, imei) => fst (handle_outdoor_message imei text w)
      | None => w
      end
  end.

(** *** Names for what the handlers build

    The statements about the handlers speak of their rows and publishes
    through these. *)

(** The class a message of a class is forwarded to. *)
Definition opposite (ty : DeviceType) : DeviceType :=
  match ty with
  | indoor => outdoor
  | outdoor => indoor
  end.

(** The receive row of lines 112-119 and 211-218. *)
Definition receive_log (ty : DeviceType) (imei payload : string)
  (sid : option Z) : CommLog.t :=
  {| CommLog.direction := receive;
     CommLog.source_type := ty;
     CommLog.source_imei := imei;
     CommLog.target_type := None;
     CommLog.target_imei := None;
     CommLog.topic := String.append (pub_prefix ty) imei;
     CommLog.payload := payload;
     CommLog.station_id := sid |}.

(** The forward row of lines 154-163 and 243-252, for a message of class
    [ty] and one target. *)
Definition forward_log (ty : DeviceType) (imei payload : string)
  (sid : option Z) (target : string) : CommLog.t :=
  {| CommLog.direction := forward;
     CommLog.source_type := ty;
     CommLog.source_imei := imei;
     CommLog.target_type := Some (opposite ty);
     CommLog.target_imei := Some target;
     CommLog.topic := String.append (sub_prefix (opposite ty)) target;
     CommLog.payload := payload;
     CommLog.station_id := sid |}.

(** The publish of lines 148-149 and 238-239. *)
Definition forward_pub (ty : DeviceType) (payload target : string)
  : string * string :=
  (String.append (sub_prefix (opposite ty)) target, payload).

(** The alarm row of lines 174-181. *)
Definition alarm_log (sid : option Z) (imei : string) (bj_value : Json.JValue)
  (targets : list string) : AlarmLog.t :=
  {| AlarmLog.station_id := sid;
     AlarmLog.indoor_imei := imei;
     AlarmLog.alarm_type := if Json.eq_one bj_value then alarm else cancel;
     AlarmLog.outdoor_imeis := targets;
     AlarmLog.forward_status := 1 |}.

(** The value that lines 171-173 leave in [bj_value]: a string goes
    through [int], anything else stays. *)
Definition coerced (v : Json.JValue) : option Json.JValue :=
  match v with
  | Json.JStr s => option_map Json.JInt (int_of_str s)
  | _ => Some v
  end.

(** The handler that [on_message] calls for a class. *)
Definition handle (ty : DeviceType) (imei payload : string) (w : World)
  : World * Py.result unit :=
  match ty with
  | indoor => handle_indoor_message imei payload w
  | outdoor => handle_outdoor_message imei payload w
  end.

End Service.

End Relay.

(** ** A small installation to run the relay on *)

Module Fixture.

Import Store.

Definition device (imei : string) (ty : DeviceType) (sid : option Z)
  : Device.t :=
  {| Device.imei := imei; Device.type := ty; Device.name := "";
     Device.station_id := sid; Device.last_seen := None;
     Device.vbat := Json.JNull |}.

(** Station 7 with its indoor unit and two outdoor units, and an indoor and
    an outdoor unit that are not bound. *)
Definition db0 : DB :=
  {| devices :=
       [ device "864793080106318" indoor (Some 7);
         device "866965083776697" outdoor (Some 7);
         device "866965083776698" outdoor (Some 7);
         device "860000000000001" indoor None;
         device "860000000000002" outdoor None ];
     comm_logs := [];
     alarm_logs := [] |}.

Definition world0 : World :=
  {| session := db0; commits := [db0]; outbox := []; ticks := 0 |}.

Definition clock (n : nat) : Z := 1700000000 + Z.of_nat n.

(** Payloads here are ASCII, which decodes to itself. *)
Definition decode_utf8 (b : string) : option string := Some b.

(** The document with one member, [{"key": value}]. *)
Definition object (key value : string) : string :=
  String.append "{"
    (String.append (Json.quote key)
       (String.append ": " (String.append value "}"))).

(** [{"bj": 1}], [{"bj": "1"}] and [{"vbat": 3.1}]. *)
Definition bj_int_1 : string := object "bj" "1".
Definition bj_str_1 : string := object "bj" (Json.quote "1").
Definition vbat_3_1 : string := object "vbat" "3.1".

(** What binds to a [Float] column, where the value goes through [float]
    as with the SQLite storage of [TestingConfig]: [None], floats and truth
    values, the integers that [float] does not overflow on, and of the
    strings those that spell a JSON number; lists and dicts do not. *)
Definition float_binds (v : Json.JValue) : bool :=
  match v with
  | Json.JNull | Json.JBool _ | Json.JFloat _ => true
  | Json.JInt z => Z.abs z <? 2 ^ 1024 - 2 ^ 970
  | Json.JStr s =>
      match Json.loads s with
      | Some (Json.JInt _) | Some (Json.JFloat _) => true
      | _ => false
      end
  | Json.JArr _ | Json.JObj _ => false
  end.

(** [{"vbat": {}}]. *)
Definition vbat_dict : string := object "vbat" "{}".

Definition handle_indoor_message :=
  Relay.handle_indoor_message Config.default Json.loads Json.py_int clock.

Definition handle_outdoor_message :=
  Relay.handle_outdoor_message Config.default Json.loads clock float_binds.

Definition on_message :=
  Relay.on_message Config.default Json.loads Json.py_int clock decode_utf8
    float_binds.

End Fixture.

(** ** The message loop and the targets of a message *)

Module Routing.

Import Store.

Section Routing.

Variable cfg : Config.t.
Variable json_loads : string -> option Json.JValue.
Variable int_of_str : string -> option Z.
Variable clock : nat -> Z.
Variable decode_utf8 : string -> option string.
Variable float_binds : Json.JValue -> bool.

(** Whether a handler gets past the commit of the source row: the one of
    line 109 writes a time stamp, the one of line 208 the voltage as
    well. *)
Definition flushes (ty : DeviceType) (payload : string) : bool :=
  match ty with
  | indoor => true
  | outdoor => Relay.vbat_binds json_loads float_binds payload
  end.

(** The rows a handler forwards to, for the device object [d] of the
    source and the table it queries: the binding test of lines 131 and 223,
    the queries of lines 136-143 and 228-235, and what comes before them,
    the parse of lines 124-128 on the indoor side and the commit of line
    208 on the outdoor side. *)
Definition targets (ty : DeviceType) (payload : string) (d : Device.t)
  (db : DB) : list Device.t :=
  if Py.truthy (Device.station_id d) then
    match ty with
    | indoor =>
        match json_loads payload with
        | Some _ => all_by_station (Device.station_id d) outdoor db
        | None => []
        end
    | outdoor =>
        if Relay.vbat_binds json_loads float_binds payload then
          match first_by_station (Device.station_id d) indoor db with
          | Some t => [t]
          | None => []
          end
        else []
    end
  else [].

(** [loop_forever] of line 48 hands the received messages to [on_message]
    one after another. *)
Definition deliver (msgs : list Relay.Message) (w : World) : World :=
  fold_left
    (fun w msg =>
       Relay.on_message cfg json_loads int_of_str clock decode_utf8
         float_binds msg w)
    msgs w.

End Routing.

(** The routing columns of a row. *)
Definition route (d : Device.t)
  : string * DeviceType * string * option Z :=
  (Device.imei d, Device.type d, Device.name d, Device.station_id d).

(** The publish that a row of the communication log stands for: a forward
    row carries the topic and the payload of its publish, a receive row
    stands for none. *)
Definition published (l : CommLog.t) : list (string * string) :=
  match CommLog.direction l with
  | forward => [(CommLog.topic l, CommLog.payload l)]
  | receive => []
  end.

End Routing.

(** ** Administration of bindings ([api/devices.py], [api/stations.py])

    The bodies of [bind_device], [unbind_device] and [delete_station], as
    they run once [admin_required] has let the request through.  A response
    is the code and the message of its JSON body, and the row that
    [to_dict] renders as its data. *)

Module Admin.

Import Store.

(** A station row: the columns these functions read. *)
Record Station : Type := {
  id : Z;
  name : string
}.

(** The store with the [stations] table beside it. *)
Record State : Type := {
  world : World;
  stations : list Station
}.

Record Response : Type := {
  code : Z;
  message : string;
  data : option Device.t
}.

(** How a request ends: with a response, with an exception that Flask turns
    into an error page ([NoAttribute] is the [AttributeError] of a method
    that the value has not), or outside of what is modelled here. *)
Inductive outcome : Type :=
| Served (r : Response)
| Failed (e : Py.exn)
| NoAttribute
| NotAnInteger
| NotAString.

(** [Station.query.get(station_id)] for an integer. *)
Definition station_get (station_id : Z) (st : State) : option Station :=
  List.find (fun s => id s =? station_id) (stations st).

(** The truth value of what [request.get_json()] returned. *)
Definition truth (v : Json.JValue) : bool :=
  match v with
  | Json.JNull => false
  | Json.JBool b => b
  | Json.JInt z => negb (z =? 0)
  | Json.JFloat (Json.Finite q) => negb (Qeq_bool q 0)
  | Json.JFloat _ => true
  | Json.JStr s => negb (String.eqb s EmptyString)
  | Json.JArr items => match items with [] => false | _ :: _ => true end
  | Json.JObj members => match members with [] => false | _ :: _ => true end
  end.

Definition set_station_id (sid : option Z) (d : Device.t) : Device.t :=
  {| Device.imei := Device.imei d; Device.type := Device.type d;
     Device.name := Device.name d; Device.station_id := sid;
     Device.last_seen := Device.last_seen d; Device.vbat := Device.vbat d |}.

Definition with_world (w : World) (st : State) : State :=
  {| world := w; stations := stations st |}.

Definition refuse (c : Z) (m : string) : Response :=
  {| code := c; message := m; data := None |}.

(** Lines 202-218 of [api/devices.py]. *)
Definition unbind_device (imei : string) (st : State) : State * Response :=
  match first_by_imei imei (session (world st)) with
  | None => (st, refuse 404 "设备不存在")
  | Some device =>
      let device := set_station_id None device in
      (with_world (commit (save_device device (world st))) st,
       {| code := 200; message := "解绑成功"; data := Some device |})
  end.

(** Lines 150-197 of [api/devices.py], for the body [data] of the request.
    A [station_id] that is no integer is left to the storage and is not
    modelled. *)
Definition bind_device (imei : string) (data : Json.JValue) (st : State)
  : State * outcome :=
  match first_by_imei imei (session (world st)) with
  | None => (st, Served (refuse 404 "设备不存在"))
  | Some device =>
      if negb (truth data) then (st, Served (refuse 400 "请指定加油站ID"))
      else
        match Json.contains "station_id" data with
        | Py.Raise e => (st, Failed e)
        | Py.Ok false => (st, Served (refuse 400 "请指定加油站ID"))
        | Py.Ok true =>
            match Json.getitem "station_id" data with
            | Py.Raise e => (st, Failed e)
            | Py.Ok (Json.JInt station_id) =>
                match station_get station_id st with
                | None => (st, Served (refuse 404 "加油站不存在"))
                | Some station =>
                    if Py.truthy (Device.station_id device)
                       && negb (option_Z_eqb (Device.station_id device)
                                             (Some station_id))
                    then
                      let bound_station_name :=
                        match Device.station_id device with
                        | Some sid =>
                            match station_get sid st with
                            | Some bound_station => name bound_station
                            | None => "未知加油站"
                            end
                        | None => "未知加油站"
                        end in
                      (st,
                       Served
                         (refuse 409
                            (String.append "该设备已被【"
                               (String.append bound_station_name
                                  "】绑定，无法再次绑定"))))
                    else
                      let blocked :=
                        match Device.type device with
                        | indoor =>
                            match first_by_station (Some station_id) indoor
                                    (session (world st)) with
                            | Some existing_indoor =>
                                if negb (String.eqb (Device.imei existing_indoor)
                                                    imei)
                                then Some existing_indoor
                                else None
                            | None => None
                            end
                        | outdoor => None
                        end in
                      match blocked with
                      | Some existing_indoor =>
                          (st,
                           Served
                             (refuse 409
                                (String.append "该加油站已绑定室内机 "
                                   (Device.imei existing_indoor))))
                      | None =>
                          let device :=
                            set_station_id (Some station_id) device in
                          (with_world (commit (save_device device (world st))) st,
                           Served {| code := 200; message := "绑定成功";
                                     data := Some device |})
                      end
                end
            | Py.Ok _ => (st, NotAnInteger)
            end
        end
  end.

Definition bound_to (station_id : Z) (d : Device.t) : bool :=
  option_Z_eqb (Device.station_id d) (Some station_id).

(** Lines 196-219 of [api/stations.py]; the id comes typed from the route. *)
Definition delete_station (station_id : Z) (st : State) : State * Response :=
  match station_get station_id st with
  | None => (st, refuse 404 "加油站不存在")
  | Some station =>
      let bound_devices :=
        length (List.filter (bound_to station_id)
                  (devices (session (world st)))) in
      if (0 <? Z.of_nat bound_devices)
      then (st, refuse 409 "该加油站有绑定设备，请先解绑")
      else
        ({| world := commit (world st);
            stations :=
              List.filter (fun s => negb (id s =? station_id)) (stations st) |},
         refuse 200 "删除成功")
  end.

(** What [get_station] shows of the devices of a station: the indoor
    device and the outdoor devices, each as [to_dict] renders its row. *)
Record StationView : Type := {
  indoor_device : option Device.t;
  outdoor_devices : list Device.t
}.

(** Lines 87-114 of [api/stations.py]; [None] is the 404 answer. *)
Definition get_station (station_id : Z) (st : State) : option StationView :=
  match station_get station_id st with
  | None => None
  | Some station =>
      let devices :=
        List.filter (bound_to station_id) (devices (session (world st))) in
      Some
        (fold_left
           (fun view device =>
              match Device.type device with
              | indoor =>
                  {| indoor_device := Some device;
                     outdoor_devices := outdoor_devices view |}
              | outdoor =>
                  {| indoor_device := indoor_device view;
                     outdoor_devices := outdoor_devices view ++ [device] |}
              end)
           devices
           {| indoor_device := None; outdoor_devices := [] |})
  end.

(** [data.get(key, default)], a method of a dict: [None] when [data] is
    none. *)
Definition dict_get (key : string) (default : Json.JValue)
  (data : Json.JValue) : option Json.JValue :=
  match data with
  | Json.JObj members =>
      Some (match Json.lookup key members with
            | Some v => v
            | None => default
            end)
  | _ => None
  end.

(** The class that a value names, when it is in [['indoor', 'outdoor']]. *)
Definition class_of (v : Json.JValue) : option DeviceType :=
  match v with
  | Json.JStr s =>
      if String.eqb s "indoor" then Some indoor
      else if String.eqb s "outdoor" then Some outdoor
      else None
  | _ => None
  end.

(** The placeholder name [f'手动添加-{imei}']. *)
Definition manual_name (imei : string) : string :=
  String.append "手动添加-" imei.

(** What reaches the store: requests of the administration and messages of
    the broker, in some order. *)
Inductive operation : Type :=
| Create (data : Json.JValue)
| Bind (imei : string) (data : Json.JValue)
| Unbind (imei : string)
| DeleteStation (station_id : Z)
| Inbound (msg : Relay.Message).

Section Operations.

Variable cfg : Config.t.
Variable json_loads : string -> option Json.JValue.
Variable int_of_str : string -> option Z.
Variable clock : nat -> Z.
Variable decode_utf8 : string -> option string.
Variable float_binds : Json.JValue -> bool.

(** [str.strip]. *)
Variable strip : string -> string.

(** Lines 85-122 of [api/devices.py], for the body [data] of the request.
    A [name] that is no string is left to the storage and is not
    modelled. *)
Definition create_device (data : Json.JValue) (st : State) : State * outcome :=
  if negb (truth data) then (st, Served (refuse 400 "请求数据为空"))
  else
    match dict_get "imei" (Json.JStr EmptyString) data with
    | None => (st, NoAttribute)
    | Some (Json.JStr raw) =>
        let imei := strip raw in
        match dict_get "type" (Json.JStr "indoor") data,
              dict_get "name" (Json.JStr EmptyString) data with
        | Some device_type, Some name =>
            if String.eqb imei EmptyString
            then (st, Served (refuse 400 "IMEI不能为空"))
            else
              match class_of device_type with
              | None =>
                  (st,
                   Served (refuse 400 "设备类型只能是 indoor 或 outdoor"))
              | Some ty =>
                  match first_by_imei imei (session (world st)) with
                  | Some existing =>
                      (st,
                       Served
                         (refuse 409
                            (String.append "IMEI "
                               (String.append imei " 已存在"))))
                  | None =>
                      let chosen :=
                        if truth name
                        then match name with
                             | Json.JStr text => Some text
                             | _ => None
                             end
                        else Some (manual_name imei) in
                      match chosen with
                      | None => (st, NotAString)
                      | Some text =>
                          let device :=
                            {| Device.imei := imei; Device.type := ty;
                               Device.name := text;
                               Device.station_id := None;
                               Device.last_seen := None;
                               Device.vbat := Json.JNull |} in
                          match insert_unique device
                                  (devices (session (world st))) with
                          | Py.Raise e => (st, Failed e)
                          | Py.Ok rows =>
                              (with_world
                                 (commit
                                    (with_session
                                       (with_devices rows
                                          (session (world st)))
                                       (world st))) st,
                               Served {| code := 200; message := "添加成功";
                                         data := Some device |})
                          end
                      end
                  end
              end
        | _, _ => (st, NoAttribute)
        end
    | Some _ => (st, NoAttribute)
    end.

Definition apply (op : operation) (st : State) : State :=
  match op with
  | Create data => fst (create_device data st)
  | Bind imei data => fst (bind_device imei data st)
  | Unbind imei => fst (unbind_device imei st)
  | DeleteStation station_id => fst (delete_station station_id st)
  | Inbound msg =>
      with_world
        (Relay.on_message cfg json_loads int_of_str clock decode_utf8
           float_binds msg (world st)) st
  end.

Definition run (ops : list operation) (st : State) : State :=
  fold_left (fun st op => apply op st) ops st.

End Operations.

(** The invariants of the binding store, on the tables: no two rows share
    an IMEI, a station has at most one indoor device, and the station of a
    bound device is in the [stations] table. *)
Definition unique (rows : list Device.t) : Prop :=
  NoDup (map Device.imei rows).

Definition single (rows : list Device.t) : Prop :=
  forall s, (length (List.filter (in_station (Some s) indoor) rows) <= 1)%nat.

Definition existing (stations : list Station) (rows : list Device.t) : Prop :=
  forall d s,
    In d rows -> Device.station_id d = Some s ->
    List.find (fun x => id x =? s) stations <> None.

Definition unique_imeis (st : State) : Prop :=
  unique (devices (session (world st))).

Definition single_indoor (st : State) : Prop :=
  single (devices (session (world st))).

Definition stations_exist (st : State) : Prop :=
  existing (stations st) (devices (session (world st))).

(** The three together. *)
Definition consistent (st : State) : Prop :=
  unique_imeis st /\ single_indoor st /\ stations_exist st.

(** The requests that [bind_device] and [create_device] above follow to
    their end: a [station_id] that is read from the body is an integer, and
    a [name] that is stored is a string. *)
Definition typed (op : operation) : bool :=
  match op with
  | Bind _ data =>
      match Json.getitem "station_id" data with
      | Py.Ok (Json.JInt _) => true
      | Py.Ok _ => false
      | Py.Raise _ => true
      end
  | Create data =>
      match dict_get "name" (Json.JStr EmptyString) data with
      | Some (Json.JStr _) => true
      | Some v => negb (truth v)
      | None => true
      end
  | _ => true
  end.

(** [str.strip] on ASCII text: the white space of ASCII goes from both
    ends. *)
Definition is_space (c : ascii) : bool :=
  let n := nat_of_ascii c in
  (Nat.leb 9 n && Nat.leb n 13) || (Nat.leb 28 n && Nat.leb n 32).

Fixpoint lstrip (s : string) : string :=
  match s with
  | EmptyString => EmptyString
  | String c rest => if is_space c then lstrip rest else s
  end.

Fixpoint reversed (s acc : string) : string :=
  match s with
  | EmptyString => acc
  | String c rest => reversed rest (String c acc)
  end.

Definition ascii_strip (s : string) : string :=
  reversed (lstrip (reversed (lstrip s) EmptyString)) EmptyString.

(** The body [{"station_id": n}] of a bind request. *)
Definition to_station (n : Z) : Json.JValue :=
  Json.JObj [("station_id", Json.JInt n)].

(** The installation of [Fixture] with its station 7 and a station 8 that
    has no device. *)
Definition installation : State :=
  {| world := Fixture.world0;
     stations := [ {| id := 7; name := "S7" |}; {| id := 8; name := "S8" |} ] |}.

End Admin.

(** ** The relay script ([Data_Forwarding.py])

    The script that relays between one indoor unit (the host) and one
    outdoor unit (the slave) with no store: its state is what it has handed
    to [client.publish]. *)

Module Legacy.

Import Store.

Definition HOST_PUB_PREFIX : string := "/AIR8000/PUB/".
Definition HOST_SUB_PREFIX : string := "/AIR8000/SUB/".
Definition SLAVE_PUB_PREFIX : string := "/780EHV/PUB/".
Definition SLAVE_SUB_PREFIX : string := "/780EHV/SUB/".

Definition HOST_IMEI : string := "864793080106318".
Definition SLAVE_IMEI : string := "866965083776697".

Definition BINDING_MAP : list (string * list string) :=
  [ (HOST_IMEI, [SLAVE_IMEI]); (SLAVE_IMEI, [HOST_IMEI]) ].

(** [d[key]] after [key in d] held, on a dict with string keys: [None] when
    the key is not in it. *)
Fixpoint dict_lookup (key : string) (d : list (string * list string))
  : option (list string) :=
  match d with
  | [] => None
  | (k, v) :: rest => if String.eqb key k then Some v else dict_lookup key rest
  end.

(** [s.split(sep)] for a separator that is not empty: the pieces between
    the occurrences of [sep], found from the left and not overlapping.
    [skip] counts the characters of an occurrence that are still to pass. *)
Fixpoint split_from (sep s : string) (skip : nat) : list string :=
  match s with
  | EmptyString => [EmptyString]
  | String c r =>
      match skip with
      | S k => split_from sep r k
      | O =>
          if String.prefix sep s
          then EmptyString :: split_from sep r (String.length sep - 1)
          else match split_from sep r 0 with
               | [] => [String c EmptyString]
               | h :: t => String c h :: t
               end
      end
  end.

Definition split (sep s : string) : list string := split_from sep s 0.

Section Script.

(** [bytes.decode('utf-8')]: [None] when it raises. *)
Variable decode_utf8 : string -> option string.

(** Lines 37-68: the callback, on what was published so far.  Every
    exception is caught and printed. *)
Definition on_message (msg : Relay.Message) (published : list (string * string))
  : list (string * string) :=
  let topic := Relay.topic msg in
  match decode_utf8 (Relay.payload msg) with
  | None => published
  | Some payload =>
      let route :=
        if Py.startswith topic HOST_PUB_PREFIX
        then Some (HOST_PUB_PREFIX, SLAVE_SUB_PREFIX)
        else if Py.startswith topic SLAVE_PUB_PREFIX
        then Some (SLAVE_PUB_PREFIX, HOST_SUB_PREFIX)
        else None in
      match route with
      | None => published
      | Some (pub_prefix, target_sub_prefix) =>
          match nth_error (split pub_prefix topic) 1 with
          | None => published
          | Some sender_imei =>
              match dict_lookup sender_imei BINDING_MAP with
              | Some receivers =>
                  fold_left
                    (fun published receiver =>
                       published
                       ++ [(String.append target_sub_prefix receiver,
                            payload)])
                    receivers published
              | None => published
              end
          end
      end
  end.

(** [loop_forever] of line 77 hands the received messages to [on_message]
    one after another. *)
Definition deliver (msgs : list Relay.Message)
  (published : list (string * string)) : list (string * string) :=
  fold_left (fun published msg => on_message msg published) msgs published.

(** The messages of an installation where every unit publishes on the
    prefix of its class, one level below it, the host sends JSON, and the
    slave sends no voltage that the storage of the service refuses. *)
Definition proper (json_loads : string -> option Json.JValue)
  (float_binds : Json.JValue -> bool) (msg : Relay.Message) : Prop :=
  exists ty imei,
    Relay.topic msg
    = String.append (Relay.pub_prefix Config.default ty) imei
    /\ Py.str_contains "/" imei = false
    /\ (imei = HOST_IMEI ->
        ty = indoor
        /\ forall text, decode_utf8 (Relay.payload msg) = Some text ->
                        json_loads text <> None)
    /\ (imei = SLAVE_IMEI ->
        ty = outdoor
        /\ forall text, decode_utf8 (Relay.payload msg) = Some text ->
                        Relay.vbat_binds json_loads float_binds text = true).

End Script.

(** A store that holds the installation of the script: the host is an
    indoor device and the slave an outdoor device of station [s], and no
    other device is bound. *)
Definition mirrors (s : Z) (db : DB) : Prop :=
  NoDup (map Device.imei (devices db))
  /\ (exists h,
        first_by_imei HOST_IMEI db = Some h
        /\ Device.type h = indoor /\ Device.station_id h = Some s)
  /\ (exists g,
        first_by_imei SLAVE_IMEI db = Some g
        /\ Device.type g = outdoor /\ Device.station_id g = Some s)
  /\ (forall d,
        In d (devices db) ->
        Device.imei d <> HOST_IMEI -> Device.imei d <> SLAVE_IMEI ->
        Py.truthy (Device.station_id d) = false).

(** The host and the slave in station 7, and an indoor unit that is not
    bound. *)
Definition installation : World :=
  let db :=
    {| devices :=
         [ Fixture.device HOST_IMEI indoor (Some 7);
           Fixture.device SLAVE_IMEI outdoor (Some 7);
           Fixture.device "860000000000001" indoor None ];
       comm_logs := [];
       alarm_logs := [] |} in
  {| session := db; commits := [db]; outbox := []; ticks := 0 |}.

End Legacy.

(** * Properties of the relay *)

(** ** Lists, strings and rows *)

Module Facts.

Import Store.

Lemma find_none_existsb {A : Type} (f : A -> bool) (l : list A) :
  List.find f l = None -> existsb f l = false.
Proof.
  induction l as [|a l IH]; simpl; [reflexivity|].
  destruct (f a); [discriminate | exact IH].
Qed.

(** The row that a query by IMEI finds splits the table around itself, and
    no earlier row carries that IMEI. *)
Lemma find_split (imei : string) (rows : list Device.t) (d : Device.t) :
  List.find (has_imei imei) rows = Some d ->
  exists pre post,
    rows = pre ++ d :: post
    /\ existsb (has_imei imei) pre = false
    /\ Device.imei d = imei.
Proof.
  induction rows as [|r rows IH]; simpl; [discriminate|].
  destruct (has_imei imei r) eqn:E.
  - intros H; injection H as ->. exists [], rows. repeat split.
    unfold has_imei in E. now apply String.eqb_eq in E.
  - intros H. destruct (IH H) as (pre & post & -> & Hpre & Hd).
    exists (r :: pre), post. repeat split; simpl; [now rewrite E | exact Hd].
Qed.

(** Writing an object back touches the row it came from and nothing else. *)
Lemma replace_row_split (d' : Device.t) (pre post : list Device.t) (d : Device.t) :
  existsb (has_imei (Device.imei d')) pre = false ->
  Device.imei d = Device.imei d' ->
  replace_row d' (pre ++ d :: post) = pre ++ d' :: post.
Proof.
  intros Hpre Hd. induction pre as [|r pre IH]; simpl in *.
  - unfold has_imei. rewrite Hd, String.eqb_refl. reflexivity.
  - apply orb_false_iff in Hpre as [Hr Hpre]. rewrite Hr, IH; auto.
Qed.

(** A row whose station and class are kept is selected by a station query
    exactly when the old row was, under the same IMEI. *)
Lemma filter_station_replaced (sid : option Z) (ty : DeviceType)
  (pre post : list Device.t) (d d' : Device.t) :
  Device.imei d' = Device.imei d ->
  Device.station_id d' = Device.station_id d ->
  Device.type d' = Device.type d ->
  map Device.imei (List.filter (in_station sid ty) (pre ++ d' :: post))
  = map Device.imei (List.filter (in_station sid ty) (pre ++ d :: post)).
Proof.
  intros Hi Hs Ht.
  assert (E : in_station sid ty d' = in_station sid ty d)
    by (unfold in_station; now rewrite Hs, Ht).
  rewrite !filter_app, !map_app. f_equal. simpl. rewrite E.
  destruct (in_station sid ty d); simpl; now rewrite ?Hi.
Qed.

Lemma find_station_replaced (sid : option Z) (ty : DeviceType)
  (pre post : list Device.t) (d d' : Device.t) :
  Device.imei d' = Device.imei d ->
  Device.station_id d' = Device.station_id d ->
  Device.type d' = Device.type d ->
  option_map Device.imei (List.find (in_station sid ty) (pre ++ d' :: post))
  = option_map Device.imei (List.find (in_station sid ty) (pre ++ d :: post)).
Proof.
  intros Hi Hs Ht.
  assert (E : in_station sid ty d' = in_station sid ty d)
    by (unfold in_station; now rewrite Hs, Ht).
  induction pre as [|r pre IH]; simpl.
  - rewrite E. destruct (in_station sid ty d); simpl; now rewrite ?Hi.
  - destruct (in_station sid ty r); [reflexivity | exact IH].
Qed.

Lemma prefix_append (p s : string) : String.prefix p (String.append p s) = true.
Proof.
  induction p as [|c p IH]; simpl; [now destruct s|].
  destruct (ascii_dec c c) as [_|N]; [exact IH | now elim N].
Qed.

(** A string without the separator is its own single piece. *)
Lemma split_no_sep (sep : ascii) (s : string) :
  Py.str_contains (String sep EmptyString) s = false ->
  Py.split sep s = [s].
Proof.
  induction s as [|c s IH]; simpl; [reflexivity|].
  destruct (ascii_dec sep c) as [->|N].
  - destruct s; discriminate.
  - intros H. destruct (Ascii.eqb c sep) eqn:E.
    + apply Ascii.eqb_eq in E. now elim N.
    + rewrite IH; [reflexivity|]. exact H.
Qed.

Lemma split_nonempty (sep : ascii) (s : string) : Py.split sep s <> [].
Proof.
  destruct s as [|c s]; simpl; [discriminate|].
  destruct (Ascii.eqb c sep); [discriminate|].
  destruct (Py.split sep s); discriminate.
Qed.

Lemma last_app_nonempty {A : Type} (l l' : list A) (d : A) :
  l' <> [] -> List.last (l ++ l') d = List.last l' d.
Proof.
  intros H. induction l as [|a l IH]; simpl; [reflexivity|].
  rewrite IH. destruct (l ++ l') eqn:E; [|reflexivity].
  apply app_eq_nil in E as [_ E]. contradiction.
Qed.

(** The pieces of a string that holds a separator are pieces of what comes
    before it followed by the pieces of what comes after it. *)
Lemma split_append (sep : ascii) (p s : string) :
  exists l,
    l <> [] /\ Py.split sep (String.append p (String sep s)) = l ++ Py.split sep s.
Proof.
  induction p as [|c p (l & Hl & IH)]; simpl.
  - rewrite Ascii.eqb_refl. now exists [EmptyString].
  - rewrite IH. destruct (Ascii.eqb c sep).
    + now exists (EmptyString :: l).
    + destruct l as [|h t]; [contradiction|]. now exists (String c h :: t).
Qed.

(** What comes before a separator does not reach the last piece. *)
Lemma last_split_append (sep : ascii) (p s : string) :
  Py.last_item (Py.split sep (String.append p (String sep s)))
  = Py.last_item (Py.split sep s).
Proof.
  unfold Py.last_item. destruct (split_append sep p s) as (l & _ & ->).
  apply last_app_nonempty, split_nonempty.
Qed.

Lemma append_assoc (a b c : string) :
  String.append (String.append a b) c = String.append a (String.append b c).
Proof. induction a as [|x a IH]; simpl; [reflexivity | now rewrite IH]. Qed.

End Facts.

(** ** Topic codec *)

Module Codec.

Lemma prefix_exists (a s : string) :
  String.prefix a s = true -> exists r, s = String.append a r.
Proof.
  revert s. induction a as [|x a IH]; intros s H; simpl in *.
  - now exists s.
  - destruct s as [|c s]; [discriminate|]. simpl in H.
    destruct (ascii_dec x c) as [->|]; [|discriminate].
    destruct (IH s H) as [r ->]. now exists r.
Qed.

(** A prefix of [b ++ s] either lies within [b] or reaches over all of [b]
    into [s]. *)
Lemma prefix_append_cases (a b s : string) :
  String.prefix a (String.append b s) = true ->
  String.prefix a b = true
  \/ exists s1 s2, a = String.append b s1 /\ s = String.append s1 s2.
Proof.
  revert a. induction b as [|c b IH]; intros a H; simpl in *.
  - right. destruct (prefix_exists a s H) as [r ->]. now exists a, r.
  - destruct a as [|x a]; [now left|]. simpl in H.
    destruct (ascii_dec x c) as [->|]; [|discriminate].
    destruct (IH a H) as [L|(s1 & s2 & -> & ->)].
    + left. simpl. now destruct (ascii_dec c c).
    + right. now exists s1, s2.
Qed.

Lemma tail_ends_with (c : ascii) (b s1 q : string) :
  String.append b s1 = String.append q (String c EmptyString) ->
  s1 <> EmptyString ->
  exists r, s1 = String.append r (String c EmptyString).
Proof.
  revert q. induction b as [|x b IH]; intros q H Hne; simpl in *.
  - now exists q.
  - destruct q as [|y q]; simpl in H.
    + injection H as _ H. destruct b; [simpl in H; contradiction | discriminate].
    + injection H as _ H. exact (IH q H Hne).
Qed.

Lemma prefix_empty (s : string) : String.prefix EmptyString s = true.
Proof. now destruct s. Qed.

Lemma contains_after (c : ascii) (r s2 : string) :
  Py.str_contains (String c EmptyString)
    (String.append (String.append r (String c EmptyString)) s2) = true.
Proof.
  induction r as [|x r IH]; simpl.
  - destruct (ascii_dec c c); [now rewrite prefix_empty | contradiction].
  - destruct (ascii_dec c x); [now rewrite prefix_empty | exact IH].
Qed.

Section Round_trip.

Variable cfg : Config.t.

(** A published topic of the outdoor class is not taken for an indoor one
    when the prefixes end in a slash, the outdoor prefix does not start with
    the indoor one, and the IMEI holds no slash. *)
Lemma outdoor_not_indoor (imei : string) :
  (exists q, Config.INDOOR_PUB_PREFIX cfg = String.append q "/") ->
  Py.startswith (Config.OUTDOOR_PUB_PREFIX cfg) (Config.INDOOR_PUB_PREFIX cfg) = false ->
  Py.str_contains "/" imei = false ->
  Py.startswith (String.append (Config.OUTDOOR_PUB_PREFIX cfg) imei)
                (Config.INDOOR_PUB_PREFIX cfg) = false.
Proof.
  intros [q Hq] Hno Himei. unfold Py.startswith in *.
  destruct (String.prefix (Config.INDOOR_PUB_PREFIX cfg)
              (String.append (Config.OUTDOOR_PUB_PREFIX cfg) imei)) eqn:E;
    [|reflexivity].
  apply prefix_append_cases in E as [L|(s1 & s2 & Ha & Hs)]; [congruence|].
  destruct s1 as [|x s1].
  - rewrite Ha in Hno.
    assert (P : String.prefix (String.append (Config.OUTDOOR_PUB_PREFIX cfg) "")
                  (Config.OUTDOOR_PUB_PREFIX cfg) = true).
    { clear. induction (Config.OUTDOOR_PUB_PREFIX cfg) as [|c p IH]; simpl;
        [reflexivity | now destruct (ascii_dec c c)]. }
    congruence.
  - rewrite Hq in Ha. symmetry in Ha.
    apply tail_ends_with in Ha as [r Hr]; [|discriminate].
    rewrite Hs, Hr, contains_after in Himei. discriminate.
Qed.

(** Under prefixes that end in a slash, the outdoor publish prefix not
    starting with the indoor one, building the publish topic of a class and
    an IMEI that holds no slash and parsing it back gives that class and
    that IMEI. *)
Lemma round_trip_under (ty : DeviceType) (imei : string) :
  (exists q, Config.INDOOR_PUB_PREFIX cfg = String.append q "/") ->
  (exists q, Config.OUTDOOR_PUB_PREFIX cfg = String.append q "/") ->
  Py.startswith (Config.OUTDOOR_PUB_PREFIX cfg) (Config.INDOOR_PUB_PREFIX cfg) = false ->
  Py.str_contains "/" imei = false ->
  Relay.parse_topic cfg (Relay.build_topic cfg ty imei) = Some (ty, imei).
Proof.
  intros Hin Hout Hno Himei.
  assert (L : forall q p, p = String.append q "/" ->
            Py.last_item (Py.split "/" (String.append p imei)) = imei).
  { intros q p ->. rewrite Facts.append_assoc. simpl String.append at 2.
    rewrite Facts.last_split_append, Facts.split_no_sep by exact Himei.
    reflexivity. }
  unfold Relay.parse_topic, Relay.build_topic, Relay.pub_prefix.
  destruct ty.
  - unfold Py.startswith. rewrite Facts.prefix_append.
    destruct Hin as [q Hq]. now rewrite (L q _ Hq).
  - rewrite (outdoor_not_indoor imei Hin Hno Himei).
    unfold Py.startswith. rewrite Facts.prefix_append.
    destruct Hout as [q Hq]. now rewrite (L q _ Hq).
Qed.

End Round_trip.

(** C4.  With the prefixes of [config.py], for either class and every
    IMEI, the topic built for them is the publish prefix of the class
    followed by the IMEI, and parsing it gives back that class and that
    IMEI, the whole of what follows the prefix.  An IMEI is one level of a
    topic and holds no slash: the subscriptions of lines 63-64 are to the
    publish prefixes followed by the one-level wildcard. *)
Theorem parse_build_round_trip (ty : DeviceType) (imei : string) :
  Py.str_contains "/" imei = false ->
  Relay.build_topic Config.default ty imei
  = String.append (Relay.pub_prefix Config.default ty) imei
  /\ Py.startswith (Relay.build_topic Config.default ty imei)
       (Relay.pub_prefix Config.default ty) = true
  /\ Relay.parse_topic Config.default (Relay.build_topic Config.default ty imei)
     = Some (ty, imei).
Proof.
  intros Himei. split; [reflexivity|]. split.
  - unfold Relay.build_topic, Py.startswith. apply Facts.prefix_append.
  - apply round_trip_under;
      [now exists "/AIR8000/PUB" | now exists "/780EHV/PUB"
      | reflexivity | exact Himei].
Qed.

(** The round trip for the outdoor unit 866965083776697. *)
Lemma parse_build_round_trip_default :
  Relay.parse_topic Config.default
    (Relay.build_topic Config.default outdoor "866965083776697")
  = Some (outdoor, "866965083776697").
Proof.
  apply (parse_build_round_trip outdoor "866965083776697"). reflexivity.
Defined.

End Codec.

(** ** Device registry *)

Module Registry.

Import Store.

Section Registry.

Variable clock : nat -> Z.

(** A query that finds nothing lets the insert pass the uniqueness check. *)
Lemma insert_after_miss (imei : string) (ty : DeviceType) (ts : Z)
  (rows : list Device.t) :
  List.find (has_imei imei) rows = None ->
  insert_unique (Relay.new_device imei ty ts) rows
  = Py.Ok (rows ++ [Relay.new_device imei ty ts]).
Proof.
  intros H. unfold insert_unique. simpl.
  now rewrite (Facts.find_none_existsb _ _ H).
Qed.

(** A stored device comes back from registration as it is, with the world
    as it was. *)
Lemma register_known (imei : string) (ty : DeviceType) (w : World)
  (d : Device.t) :
  first_by_imei imei (session w) = Some d ->
  Relay.auto_register_device clock imei ty w = (w, Py.Ok d).
Proof.
  intros H. unfold Relay.auto_register_device. now rewrite H.
Qed.

(** An unknown IMEI gets a new row, committed at once. *)
Lemma register_fresh (imei : string) (ty : DeviceType) (w : World) :
  first_by_imei imei (session w) = None ->
  let d := Relay.new_device imei ty (clock (ticks w)) in
  Relay.auto_register_device clock imei ty w
  = (commit
       {| session := with_devices (devices (session w) ++ [d]) (session w);
          commits := commits w;
          outbox := outbox w;
          ticks := S (ticks w) |},
     Py.Ok d).
Proof.
  intros H d. subst d. unfold Relay.auto_register_device. rewrite H.
  cbn [Relay.datetime_now session].
  unfold first_by_imei in H.
  now rewrite (insert_after_miss imei ty (clock (ticks w)) _ H).
Qed.

(** C7.  [auto_register_device] returns the stored row as it is, and leaves
    the whole store as it is, when the IMEI is known, whatever class was
    observed; otherwise it adds one row with the observed class, the
    placeholder name, no station and the current time as last-seen, and has
    committed it when it returns. *)
Theorem resolve_or_register (imei : string) (ty : DeviceType) (w : World) :
  match first_by_imei imei (session w) with
  | Some d => Relay.auto_register_device clock imei ty w = (w, Py.Ok d)
  | None =>
      exists w' d,
        Relay.auto_register_device clock imei ty w = (w', Py.Ok d)
        /\ Device.imei d = imei
        /\ Device.type d = ty
        /\ Device.name d = Relay.auto_name imei
        /\ Device.station_id d = None
        /\ Device.last_seen d = Some (clock (ticks w))
        /\ Device.vbat d = Json.JNull
        /\ devices (session w') = devices (session w) ++ [d]
        /\ comm_logs (session w') = comm_logs (session w)
        /\ alarm_logs (session w') = alarm_logs (session w)
        /\ commits w' = session w' :: commits w
        /\ outbox w' = outbox w
  end.
Proof.
  destruct (first_by_imei imei (session w)) as [d|] eqn:E.
  - now apply register_known.
  - eexists _, _. split; [exact (register_fresh imei ty w E)|].
    repeat split.
Qed.

End Registry.

(** The class of a stored row wins over the class seen on the wire. *)
Example known_device_keeps_class :
  Relay.auto_register_device Fixture.clock "864793080106318" outdoor
    Fixture.world0
  = (Fixture.world0, Py.Ok (Fixture.device "864793080106318" indoor (Some 7))).
Proof. reflexivity. Qed.

End Registry.

(** ** Relay engine *)

Module Engine.

Import Store.

Section Engine.

Variable cfg : Config.t.
Variable json_loads : string -> option Json.JValue.
Variable int_of_str : string -> option Z.
Variable clock : nat -> Z.
Variable decode_utf8 : string -> option string.
Variable float_binds : Json.JValue -> bool.

Notation auto_register_device := (Relay.auto_register_device clock).
Notation handle_indoor_message :=
  (Relay.handle_indoor_message cfg json_loads int_of_str clock).
Notation handle_outdoor_message :=
  (Relay.handle_outdoor_message cfg json_loads clock float_binds).
Notation on_message :=
  (Relay.on_message cfg json_loads int_of_str clock decode_utf8 float_binds).
Notation receive_log := (Relay.receive_log cfg).
Notation forward_log := (Relay.forward_log cfg).
Notation forward_pub := (Relay.forward_pub cfg).
Notation alarm_log := Relay.alarm_log.
Notation coerced := (Relay.coerced int_of_str).
Notation handle := (Relay.handle cfg json_loads int_of_str clock float_binds).
Notation vbat_binds := (Relay.vbat_binds json_loads float_binds).
Notation flushes := (Routing.flushes json_loads float_binds).

(** Compares two results field by field. *)
Ltac fields := cbn; rewrite <- ?app_assoc, ?app_nil_r; repeat split.

(** The loop over [outdoor_devices] publishes and logs once per device, in
    order, and touches nothing else. *)
Lemma forward_loop (imei payload : string) (sid : option Z)
  (ds : list Device.t) (w : World) (acc : list string) :
  fold_left (Relay.forward_to_outdoor cfg imei payload sid) ds (w, acc)
  = ({| session :=
          {| devices := devices (session w);
             comm_logs :=
               comm_logs (session w)
               ++ map (forward_log indoor imei payload sid) (map Device.imei ds);
             alarm_logs := alarm_logs (session w) |};
        commits := commits w;
        outbox := outbox w ++ map (forward_pub indoor payload) (map Device.imei ds);
        ticks := ticks w |},
     acc ++ map Device.imei ds).
Proof.
  revert w acc. induction ds as [|d ds IH]; intros w acc.
  - destruct w as [[dv cl al] cm ob tk]. simpl. now rewrite !app_nil_r.
  - simpl fold_left. rewrite IH. simpl. now rewrite <- !app_assoc.
Qed.

Lemma find_app_miss {A : Type} (f : A -> bool) (l : list A) (x : A) :
  List.find f l = None -> f x = true -> List.find f (l ++ [x]) = Some x.
Proof.
  intros H Hx. induction l as [|a l IH]; simpl in *; [now rewrite Hx|].
  destruct (f a); [discriminate | now apply IH].
Qed.

(** Registration never raises when nothing runs between its query and its
    insert; the object it returns is the row that a query by IMEI finds
    afterwards, and the logs and the outbox are as before. *)
Lemma register_ok (imei : string) (ty : DeviceType) (w : World) :
  exists w1 d,
    auto_register_device imei ty w = (w1, Py.Ok d)
    /\ first_by_imei imei (session w1) = Some d
    /\ outbox w1 = outbox w
    /\ comm_logs (session w1) = comm_logs (session w)
    /\ alarm_logs (session w1) = alarm_logs (session w)
    /\ match first_by_imei imei (session w) with
       | Some d0 => w1 = w /\ d = d0
       | None =>
           d = Relay.new_device imei ty (clock (ticks w))
           /\ devices (session w1) = devices (session w) ++ [d]
       end.
Proof.
  destruct (first_by_imei imei (session w)) as [d0|] eqn:E.
  - exists w, d0. rewrite (Registry.register_known clock imei ty w d0 E).
    now repeat split.
  - eexists _, _. split; [exact (Registry.register_fresh clock imei ty w E)|].
    cbn. repeat split.
    unfold first_by_imei in *. cbn. apply find_app_miss; [exact E|].
    unfold has_imei. cbn. apply String.eqb_refl.
Qed.

(** The station queries of a handler run after the source row was written
    back with a new last-seen time (and voltage); they select the same IMEIs
    as on the table before. *)
Lemma targets_after_save (imei : string) (rows : list Device.t)
  (d d' : Device.t) (sid : option Z) (ty : DeviceType) :
  List.find (has_imei imei) rows = Some d ->
  Device.imei d' = Device.imei d ->
  Device.station_id d' = Device.station_id d ->
  Device.type d' = Device.type d ->
  map Device.imei (List.filter (in_station sid ty) (replace_row d' rows))
  = map Device.imei (List.filter (in_station sid ty) rows)
  /\ option_map Device.imei (List.find (in_station sid ty) (replace_row d' rows))
     = option_map Device.imei (List.find (in_station sid ty) rows).
Proof.
  intros Hfind Hi Hs Ht.
  destruct (Facts.find_split _ _ _ Hfind) as (pre & post & -> & Hpre & Hd).
  rewrite Facts.replace_row_split; [| rewrite Hi, Hd; exact Hpre | now rewrite Hi].
  split.
  - now apply Facts.filter_station_replaced.
  - now apply Facts.find_station_replaced.
Qed.

(** What [handle_indoor_message] does, field by field, from the world [w1]
    and the device object [d] that registration leaves. *)
Lemma indoor_run (imei payload : string) (w w1 : World) (d : Device.t) :
  auto_register_device imei indoor w = (w1, Py.Ok d) ->
  first_by_imei imei (session w1) = Some d ->
  let sid := Device.station_id d in
  let tg := map Device.imei (all_by_station sid outdoor (session w1)) in
  let fw := match json_loads payload with
            | Some _ => if Py.truthy sid then tg else []
            | None => []
            end in
  let bj := match json_loads payload, fw with
            | Some data, _ :: _ => Relay.read_bj int_of_str data
            | _, _ => Py.Ok None
            end in
  let r := handle_indoor_message imei payload w in
  outbox (fst r) = outbox w1 ++ map (forward_pub indoor payload) fw
  /\ comm_logs (session (fst r))
     = comm_logs (session w1)
       ++ receive_log indoor imei payload sid
          :: map (forward_log indoor imei payload sid) fw
  /\ alarm_logs (session (fst r))
     = alarm_logs (session w1)
       ++ match bj with
          | Py.Ok (Some v) => [alarm_log sid imei v fw]
          | _ => []
          end
  /\ devices (session (fst r))
     = replace_row (Device.set_last_seen (clock (ticks w1)) d)
         (devices (session w1))
  /\ snd r = match bj with
             | Py.Raise e => Py.Raise e
             | Py.Ok _ => Py.Ok tt
             end
  /\ hd_error (commits (fst r)) = Some (session (fst r)).
Proof.
  intros Hreg Hfind sid tg fw bj r.
  destruct (targets_after_save imei (devices (session w1)) d
              (Device.set_last_seen (clock (ticks w1)) d) sid outdoor Hfind
              eq_refl eq_refl eq_refl) as [Htg _].
  fold (all_by_station sid outdoor (session w1)) in Htg. fold tg in Htg.
  clearbody tg.
  subst r. unfold Relay.handle_indoor_message. rewrite Hreg.
  cbn [Relay.datetime_now fst snd].
  subst bj fw. destruct (json_loads payload) as [data|].
  2:{ fields. }
  change (Device.station_id (Device.set_last_seen (clock (ticks w1)) d))
    with sid.
  destruct (Py.truthy sid); cbn [negb].
  2:{ fields. }
  unfold all_by_station.
  cbn [session commit add_comm_log save_device with_session with_devices devices].
  destruct (List.filter (in_station sid outdoor)
              (replace_row (Device.set_last_seen (clock (ticks w1)) d)
                 (devices (session w1)))) as [|o os] eqn:E.
  - simpl in Htg. subst tg. fields.
  - rewrite forward_loop. rewrite Htg.
    destruct tg as [|t tg']; [discriminate|].
    destruct (Relay.read_bj int_of_str data) as [[v|]|e]; fields.
Qed.

(** Taking over the voltage leaves the routing columns alone. *)
Lemma update_vbat_keeps (payload : string) (d : Device.t) :
  let d' := Relay.update_vbat json_loads payload d in
  Device.imei d' = Device.imei d
  /\ Device.station_id d' = Device.station_id d
  /\ Device.type d' = Device.type d
  /\ Device.name d' = Device.name d
  /\ Device.last_seen d' = Device.last_seen d.
Proof.
  unfold Relay.update_vbat.
  destruct (json_loads payload) as [data|]; [|now repeat split].
  destruct (Json.contains "vbat" data) as [[|]|]; try now repeat split.
  destruct (Json.getitem "vbat" data); now repeat split.
Qed.

(** The voltage is taken over when one is assigned. *)
Lemma update_vbat_assigned (payload : string) (d : Device.t) :
  Relay.update_vbat json_loads payload d
  = match Relay.assigned_vbat json_loads payload with
    | Some v => Device.set_vbat v d
    | None => d
    end.
Proof.
  unfold Relay.update_vbat, Relay.assigned_vbat.
  destruct (json_loads payload) as [data|]; [|reflexivity].
  destruct (Json.contains "vbat" data) as [[|]|]; try reflexivity.
  now destruct (Json.getitem "vbat" data).
Qed.

(** What [handle_outdoor_message] does, field by field: past the commit of
    line 208 when the voltage binds, and nothing but the reading of the
    clock when that commit raises. *)
Lemma outdoor_run (imei payload : string) (w w1 : World) (d : Device.t) :
  auto_register_device imei outdoor w = (w1, Py.Ok d) ->
  first_by_imei imei (session w1) = Some d ->
  let sid := Device.station_id d in
  let d' := Relay.update_vbat json_loads payload
              (Device.set_last_seen (clock (ticks w1)) d) in
  let fw := if Py.truthy sid
            then match first_by_station sid indoor (session w1) with
                 | Some t => [Device.imei t]
                 | None => []
                 end
            else [] in
  let r := handle_outdoor_message imei payload w in
  if vbat_binds payload
  then
    outbox (fst r) = outbox w1 ++ map (forward_pub outdoor payload) fw
    /\ comm_logs (session (fst r))
       = comm_logs (session w1)
         ++ receive_log outdoor imei payload sid
            :: map (forward_log outdoor imei payload sid) fw
    /\ alarm_logs (session (fst r)) = alarm_logs (session w1)
    /\ devices (session (fst r)) = replace_row d' (devices (session w1))
    /\ snd r = Py.Ok tt
    /\ hd_error (commits (fst r)) = Some (session (fst r))
  else
    session (fst r) = session w1
    /\ commits (fst r) = commits w1
    /\ outbox (fst r) = outbox w1
    /\ snd r = Py.Raise Py.StatementError.
Proof.
  intros Hreg Hfind sid d' fw r.
  destruct (update_vbat_keeps payload (Device.set_last_seen (clock (ticks w1)) d))
    as (Hi & Hs & Ht & _). fold d' in Hi, Hs, Ht. cbn in Hi, Hs, Ht.
  destruct (targets_after_save imei (devices (session w1)) d d' sid indoor
              Hfind Hi Hs Ht) as [_ Htg].
  subst r. unfold Relay.handle_outdoor_message. rewrite Hreg.
  cbn [Relay.datetime_now fst snd]. fold d'.
  destruct (vbat_binds payload); cbn [commit_checked fst snd];
    [|now repeat split].
  rewrite Hs.
  subst fw sid. clearbody d'. unfold first_by_station.
  destruct (Py.truthy (Device.station_id d)); cbn [negb].
  2:{ fields. }
  cbn [session commit add_comm_log save_device with_session with_devices devices].
  destruct (List.find (in_station (Device.station_id d) indoor)
              (replace_row d' (devices (session w1)))) as [t'|];
    destruct (List.find (in_station (Device.station_id d) indoor)
                (devices (session w1))) as [t|];
    try discriminate; [|fields].
  injection Htg as Htg. rewrite Htg. fields.
Qed.

(** A message that decodes, on a topic that is recognized, leaves the world
    of its handler. *)
Lemma on_message_handle (msg : Relay.Message) (w : World) (text : string)
  (ty : DeviceType) (imei : string) :
  decode_utf8 (Relay.payload msg) = Some text ->
  Relay.parse_topic cfg (Relay.topic msg) = Some (ty, imei) ->
  on_message msg w = fst (handle ty imei text w).
Proof.
  intros Hdec Hparse. unfold Relay.on_message. rewrite Hdec, Hparse.
  now destruct ty.
Qed.

Lemma vbat_binds_no_json (payload : string) :
  json_loads payload = None -> vbat_binds payload = true.
Proof.
  intros H. unfold Relay.vbat_binds, Relay.assigned_vbat. now rewrite H.
Qed.


(** X21.  A message whose source device has no station binding, already
    stored or registered by this very message, and which gets past the
    commit of the source row (an indoor message always does, an outdoor one
    when the voltage it assigns, if any, binds), ends without an error,
    publishes nothing, adds no forward row and no alarm row, and adds
    exactly one receive row, whose station id is null.  This is the state
    in which [on_message] leaves the world for such a message. *)
Theorem unbound_source_logged_once (ty : DeviceType) (imei payload : string)
  (w : World) :
  (forall d, first_by_imei imei (session w) = Some d ->
             Device.station_id d = None) ->
  flushes ty payload = true ->
  let r := handle ty imei payload w in
  snd r = Py.Ok tt
  /\ outbox (fst r) = outbox w
  /\ comm_logs (session (fst r))
     = comm_logs (session w) ++ [receive_log ty imei payload None]
  /\ CommLog.direction (receive_log ty imei payload None) = receive
  /\ CommLog.station_id (receive_log ty imei payload None) = None
  /\ alarm_logs (session (fst r)) = alarm_logs (session w)
  /\ (forall msg,
        decode_utf8 (Relay.payload msg) = Some payload ->
        Relay.parse_topic cfg (Relay.topic msg) = Some (ty, imei) ->
        on_message msg w = fst r).
Proof.
  intros Hunbound Hflush r. subst r.
  destruct (register_ok imei ty w) as (w1 & d & Hreg & Hfind & Ho & Hc & Ha & Hd).
  assert (Hs : Device.station_id d = None).
  { destruct (first_by_imei imei (session w)) as [d0|] eqn:E.
    - destruct Hd as [_ ->]. now apply Hunbound.
    - destruct Hd as [-> _]. reflexivity. }
  assert (Hmsg : forall msg,
            decode_utf8 (Relay.payload msg) = Some payload ->
            Relay.parse_topic cfg (Relay.topic msg) = Some (ty, imei) ->
            on_message msg w = fst (handle ty imei payload w))
    by (intros msg; apply on_message_handle).
  destruct ty; simpl Relay.handle in *.
  - generalize (indoor_run imei payload w w1 d Hreg Hfind). rewrite Hs. simpl.
    intros (H1 & H2 & H3 & _ & H5 & _).
    destruct (json_loads payload); simpl in *;
      rewrite H1, H2, H3, H5, Ho, Hc, Ha, ?app_nil_r; repeat split; exact Hmsg.
  - generalize (outdoor_run imei payload w w1 d Hreg Hfind). rewrite Hs.
    simpl in Hflush. rewrite Hflush. simpl.
    intros (H1 & H2 & H3 & _ & H5 & _).
    rewrite H1, H2, H3, H5, Ho, Hc, Ha, ?app_nil_r. repeat split; exact Hmsg.
Qed.

(** C1, as amended.  From a device bound to a station, a payload that does
    not decode as JSON is, on the outdoor side, still published as it is to
    the indoor device of the station and logged, the stored voltage staying
    as it was; on the indoor side it is logged as received and then dropped:
    nothing is published, no forward row and no alarm row is written, and
    the handler returns normally. *)
Theorem unparseable_payload (imei payload : string) (w : World)
  (d : Device.t) :
  json_loads payload = None ->
  first_by_imei imei (session w) = Some d ->
  Py.truthy (Device.station_id d) = true ->
  let sid := Device.station_id d in
  let out := handle_outdoor_message imei payload w in
  let ind := handle_indoor_message imei payload w in
  let target := match first_by_station sid indoor (session w) with
                | Some t => [Device.imei t]
                | None => []
                end in
  (outbox (fst out) = outbox w ++ map (forward_pub outdoor payload) target
   /\ comm_logs (session (fst out))
      = comm_logs (session w)
        ++ receive_log outdoor imei payload sid
           :: map (forward_log outdoor imei payload sid) target
   /\ devices (session (fst out))
      = replace_row (Device.set_last_seen (clock (ticks w)) d)
          (devices (session w))
   /\ snd out = Py.Ok tt)
  /\ (outbox (fst ind) = outbox w
      /\ comm_logs (session (fst ind))
         = comm_logs (session w) ++ [receive_log indoor imei payload sid]
      /\ alarm_logs (session (fst ind)) = alarm_logs (session w)
      /\ snd ind = Py.Ok tt).
Proof.
  intros Hjson Hfind Hbound sid out ind target. split.
  - generalize (outdoor_run imei payload w w d
                  (Registry.register_known clock imei outdoor w d Hfind) Hfind).
    rewrite (vbat_binds_no_json payload Hjson).
    fold sid. unfold sid at 1. rewrite Hbound.
    unfold Relay.update_vbat. rewrite Hjson.
    intros (H1 & H2 & _ & H4 & H5 & _). now repeat split.
  - generalize (indoor_run imei payload w w d
                  (Registry.register_known clock imei indoor w d Hfind) Hfind).
    rewrite Hjson. simpl. rewrite !app_nil_r.
    intros (H1 & H2 & H3 & _ & H5 & _). now repeat split.
Qed.

(** C5, as amended.  From an indoor-side device bound to a station that has
    exactly two outdoor devices, a message whose payload decodes as JSON is
    published twice, once on the subscribe topic of each outdoor device, and
    leaves three log rows: one receive row and two forward rows. *)
Theorem two_outdoor_devices (imei payload : string) (w : World)
  (d : Device.t) (data : Json.JValue) (s : Z) (a b : string) :
  first_by_imei imei (session w) = Some d ->
  Device.station_id d = Some s ->
  s <> 0 ->
  map Device.imei (all_by_station (Some s) outdoor (session w)) = [a; b] ->
  json_loads payload = Some data ->
  let r := handle_indoor_message imei payload w in
  outbox (fst r)
  = outbox w
    ++ [ (String.append (Config.OUTDOOR_SUB_PREFIX cfg) a, payload);
         (String.append (Config.OUTDOOR_SUB_PREFIX cfg) b, payload) ]
  /\ comm_logs (session (fst r))
     = comm_logs (session w)
       ++ [ receive_log indoor imei payload (Some s);
            forward_log indoor imei payload (Some s) a;
            forward_log indoor imei payload (Some s) b ]
  /\ map CommLog.direction
       [ receive_log indoor imei payload (Some s);
         forward_log indoor imei payload (Some s) a;
         forward_log indoor imei payload (Some s) b ]
     = [receive; forward; forward].
Proof.
  intros Hfind Hsid Hs Htargets Hjson r.
  generalize (indoor_run imei payload w w d
                (Registry.register_known clock imei indoor w d Hfind) Hfind).
  cbv zeta. rewrite Hjson, Hsid, Htargets. simpl Py.truthy.
  destruct (Z.eqb_spec s 0) as [|_]; [contradiction|].
  intros (H1 & H2 & _). now repeat split.
Qed.

Lemma read_bj_member (kvs : list (string * Json.JValue)) (v : Json.JValue) :
  Json.lookup "bj" kvs = Some v ->
  Relay.read_bj int_of_str (Json.JObj kvs)
  = match coerced v with
    | Some v' => Py.Ok (Some v')
    | None => Py.Raise Py.ValueError
    end.
Proof.
  intros H. unfold Relay.read_bj. simpl. rewrite H. simpl.
  destruct v; try reflexivity. simpl. now destruct (int_of_str s).
Qed.

(** C2, as amended.  From a device bound to a station that has an outdoor
    device, a payload that is a JSON object whose [bj] is not a string, or is
    a string that [int] accepts, adds exactly one alarm row.  Its type is
    alarm when the value, a string first turned into its integer, compares
    equal to 1, and cancel otherwise: two payloads whose values agree after
    that conversion get the same row.  The IMEIs in the row are those the
    message was published to, in order. *)
Theorem alarm_event_recorded (imei payload : string) (w : World)
  (d : Device.t) (kvs : list (string * Json.JValue)) (v v' : Json.JValue) :
  first_by_imei imei (session w) = Some d ->
  Py.truthy (Device.station_id d) = true ->
  all_by_station (Device.station_id d) outdoor (session w) <> [] ->
  json_loads payload = Some (Json.JObj kvs) ->
  Json.lookup "bj" kvs = Some v ->
  coerced v = Some v' ->
  let sid := Device.station_id d in
  let tg := map Device.imei (all_by_station sid outdoor (session w)) in
  let r := handle_indoor_message imei payload w in
  alarm_logs (session (fst r))
  = alarm_logs (session w) ++ [alarm_log sid imei v' tg]
  /\ AlarmLog.alarm_type (alarm_log sid imei v' tg)
     = (if Json.eq_one v' then alarm else cancel)
  /\ AlarmLog.outdoor_imeis (alarm_log sid imei v' tg) = tg
  /\ outbox (fst r) = outbox w ++ map (forward_pub indoor payload) tg
  /\ snd r = Py.Ok tt.
Proof.
  intros Hfind Hbound Htargets Hjson Hbj Hco sid tg r. subst sid r.
  generalize (indoor_run imei payload w w d
                (Registry.register_known clock imei indoor w d Hfind) Hfind).
  cbv zeta. fold tg. rewrite Hjson, Hbound.
  rewrite (read_bj_member kvs v Hbj), Hco.
  assert (Hne : tg <> []).
  { subst tg. intros E. apply map_eq_nil in E. contradiction. }
  destruct tg as [|t tg']; [contradiction|].
  intros (H1 & _ & H3 & _ & H5 & _). now repeat split.
Qed.

(** The snapshots that a message with an alarm field commits, newest first:
    the alarm row is written in a transaction of its own, after the one that
    holds the forward rows. *)
Lemma indoor_commits (imei payload : string) (w : World) (d : Device.t)
  (data v : Json.JValue) :
  first_by_imei imei (session w) = Some d ->
  Py.truthy (Device.station_id d) = true ->
  all_by_station (Device.station_id d) outdoor (session w) <> [] ->
  json_loads payload = Some data ->
  Relay.read_bj int_of_str data = Py.Ok (Some v) ->
  let sid := Device.station_id d in
  let tg := map Device.imei (all_by_station sid outdoor (session w)) in
  let rows := replace_row (Device.set_last_seen (clock (ticks w)) d)
                (devices (session w)) in
  let cl := comm_logs (session w) in
  let al := alarm_logs (session w) in
  let rcv := receive_log indoor imei payload sid in
  let fwd := map (forward_log indoor imei payload sid) tg in
  commits (fst (handle_indoor_message imei payload w))
  = {| devices := rows; comm_logs := cl ++ rcv :: fwd;
       alarm_logs := al ++ [alarm_log sid imei v tg] |}
    :: {| devices := rows; comm_logs := cl ++ rcv :: fwd; alarm_logs := al |}
    :: {| devices := rows; comm_logs := cl ++ [rcv]; alarm_logs := al |}
    :: {| devices := rows; comm_logs := cl; alarm_logs := al |}
    :: commits w.
Proof.
  intros Hfind Hbound Htargets Hjson Hbj sid tg rows cl al rcv fwd.
  subst sid.
  destruct (targets_after_save imei (devices (session w)) d
              (Device.set_last_seen (clock (ticks w)) d)
              (Device.station_id d) outdoor Hfind
              eq_refl eq_refl eq_refl) as [Htg _].
  fold (all_by_station (Device.station_id d) outdoor (session w)) in Htg.
  fold tg in Htg.
  assert (Hne : tg <> []).
  { subst tg. intros E. apply map_eq_nil in E. contradiction. }
  subst fwd rcv cl al rows. clearbody tg.
  unfold Relay.handle_indoor_message.
  rewrite (Registry.register_known clock imei indoor w d Hfind).
  cbn [Relay.datetime_now fst snd]. rewrite Hjson.
  change (Device.station_id (Device.set_last_seen (clock (ticks w)) d))
    with (Device.station_id d).
  rewrite Hbound. cbn [negb].
  unfold all_by_station.
  cbn [session commit add_comm_log save_device with_session with_devices devices].
  destruct (List.filter (in_station (Device.station_id d) outdoor)
              (replace_row (Device.set_last_seen (clock (ticks w)) d)
                 (devices (session w)))) as [|o os] eqn:E.
  - simpl in Htg. now subst tg.
  - rewrite forward_loop, Htg, Hbj. cbn. now rewrite <- !app_assoc.
Qed.

(** C3, as amended.  For a qualifying message the alarm row is written
    exactly once, in the transaction that follows the one of the forward
    rows: the newest committed state holds the forward rows and the alarm
    row, the one before it holds the forward rows without the alarm row, and
    the earlier ones hold neither. *)
Theorem alarm_after_forward_commit (imei payload : string) (w : World)
  (d : Device.t) (data v : Json.JValue) :
  first_by_imei imei (session w) = Some d ->
  Py.truthy (Device.station_id d) = true ->
  all_by_station (Device.station_id d) outdoor (session w) <> [] ->
  json_loads payload = Some data ->
  Relay.read_bj int_of_str data = Py.Ok (Some v) ->
  let sid := Device.station_id d in
  let tg := map Device.imei (all_by_station sid outdoor (session w)) in
  let fwd := map (forward_log indoor imei payload sid) tg in
  let ev := alarm_log sid imei v tg in
  exists s_alarm s_forward s_receive s_seen,
    commits (fst (handle_indoor_message imei payload w))
    = s_alarm :: s_forward :: s_receive :: s_seen :: commits w
    /\ session (fst (handle_indoor_message imei payload w)) = s_alarm
    /\ fwd <> []
    /\ alarm_logs s_alarm = alarm_logs (session w) ++ [ev]
    /\ comm_logs s_alarm
       = comm_logs (session w) ++ receive_log indoor imei payload sid :: fwd
    /\ alarm_logs s_forward = alarm_logs (session w)
    /\ comm_logs s_forward = comm_logs s_alarm
    /\ alarm_logs s_receive = alarm_logs (session w)
    /\ comm_logs s_receive
       = comm_logs (session w) ++ [receive_log indoor imei payload sid]
    /\ alarm_logs s_seen = alarm_logs (session w)
    /\ comm_logs s_seen = comm_logs (session w).
Proof.
  intros Hfind Hbound Htargets Hjson Hbj sid tg fwd ev.
  generalize (indoor_commits imei payload w d data v
                Hfind Hbound Htargets Hjson Hbj).
  generalize (indoor_run imei payload w w d
                (Registry.register_known clock imei indoor w d Hfind) Hfind).
  cbv zeta. fold sid. fold tg. fold fwd. fold ev.
  intros (_ & _ & _ & _ & _ & Hhd) Hc. rewrite Hc in Hhd |- *.
  injection Hhd as Hhd.
  eexists _, _, _, _. split; [reflexivity|]. split; [now symmetry|].
  assert (Hne : fwd <> []).
  { subst fwd tg. intros E. apply map_eq_nil in E. apply map_eq_nil in E.
    contradiction. }
  now repeat split.
Qed.

Lemma find_at_split {A : Type} (f : A -> bool) (pre post : list A) (x : A) :
  existsb f pre = false -> f x = true ->
  List.find f (pre ++ x :: post) = Some x.
Proof.
  intros Hpre Hx. induction pre as [|a pre IH]; simpl in *; [now rewrite Hx|].
  apply orb_false_iff in Hpre as [Ha Hpre]. rewrite Ha. now apply IH.
Qed.




End Engine.

(** C6.  The receive row of an unbound outdoor unit is lost when the
    voltage does not bind.  The outdoor unit 860000000000002 has no station
    and sends [{"vbat": {}}] on its publish topic: the payload is JSON, the
    commit of the source row raises, and the handler ends on that error
    with no receive row written, where a message of an unbound source is to
    leave exactly one and no error; [on_message] leaves the communication
    log empty.  The same payload on the indoor prefix leaves its one receive
    row. *)
Lemma unbound_outdoor_receive_row_lost :
  let msg := {| Relay.topic := "/780EHV/PUB/860000000000002";
                Relay.payload := Fixture.vbat_dict |} in
  let r := Fixture.handle_outdoor_message "860000000000002" Fixture.vbat_dict
             Fixture.world0 in
  option_map Device.station_id
    (first_by_imei "860000000000002" (session Fixture.world0)) = Some None
  /\ Json.loads Fixture.vbat_dict = Some (Json.JObj [("vbat", Json.JObj [])])
  /\ Relay.parse_topic Config.default (Relay.topic msg)
     = Some (outdoor, "860000000000002")
  /\ snd r = Py.Raise Py.StatementError
  /\ comm_logs (session (fst r)) = []
  /\ Fixture.on_message msg Fixture.world0 = fst r
  /\ map CommLog.direction
       (comm_logs
          (session (fst (Fixture.handle_indoor_message "860000000000002"
                           Fixture.vbat_dict Fixture.world0))))
     = [receive].
Proof.
  cbv zeta. split; [reflexivity|]. split; [reflexivity|].
  split; [reflexivity|]. split; [vm_compute; reflexivity|].
  split; [vm_compute; reflexivity|]. split; vm_compute; reflexivity.
Qed.

(** An unbound indoor unit reports an alarm: one receive row, nothing else. *)
Lemma unbound_source_logged_once_fixture :
  let r := Fixture.handle_indoor_message "860000000000001" Fixture.bj_int_1
             Fixture.world0 in
  option_map Device.station_id
    (first_by_imei "860000000000001" (session Fixture.world0)) = Some None
  /\ snd r = Py.Ok tt
  /\ outbox (fst r) = []
  /\ map CommLog.direction (comm_logs (session (fst r))) = [receive]
  /\ alarm_logs (session (fst r)) = [].
Proof.
  intros r. split; [reflexivity|].
  destruct (unbound_source_logged_once Config.default Json.loads Json.py_int
              Fixture.clock Fixture.decode_utf8 Fixture.float_binds indoor
              "860000000000001" Fixture.bj_int_1 Fixture.world0)
    as (Hr & Ho & Hc & _ & _ & Ha & _).
  - intros d H. vm_compute in H. injection H as <-. reflexivity.
  - reflexivity.
  - subst r. unfold Fixture.handle_indoor_message.
    change (Relay.handle Config.default Json.loads Json.py_int Fixture.clock
              Fixture.float_binds
              indoor "860000000000001" Fixture.bj_int_1 Fixture.world0)
      with (Relay.handle_indoor_message Config.default Json.loads Json.py_int
              Fixture.clock "860000000000001" Fixture.bj_int_1 Fixture.world0)
      in Hr, Ho, Hc, Ha.
    rewrite Hr, Ho, Hc, Ha. repeat split.
Defined.

(** The text [hello] is no JSON: from the outdoor unit 866965083776697 it
    reaches the indoor unit of station 7, from the same IMEI on the indoor
    side it is logged and dropped. *)
Lemma unparseable_payload_fixture :
  Json.loads "hello" = None
  /\ outbox (fst (Fixture.handle_outdoor_message "866965083776697" "hello"
                    Fixture.world0))
     = [("/AIR8000/SUB/864793080106318", "hello")]
  /\ outbox (fst (Fixture.handle_indoor_message "866965083776697" "hello"
                    Fixture.world0))
     = [].
Proof.
  split; [reflexivity|].
  destruct (unparseable_payload Config.default Json.loads Json.py_int
              Fixture.clock Fixture.float_binds "866965083776697" "hello"
              Fixture.world0
              (Fixture.device "866965083776697" outdoor (Some 7))
              eq_refl eq_refl eq_refl)
    as ((Ho & _) & (Hi & _)).
  split; [exact Ho | exact Hi].
Defined.

(** C1, as stated, fails on the indoor side.  The indoor unit of station 7,
    which has two outdoor units, sends [hello]: the payload is not JSON, and
    it is published to neither outdoor unit. *)
Lemma unparseable_indoor_not_forwarded :
  let w := Fixture.world0 in
  let r := Fixture.handle_indoor_message "864793080106318" "hello" w in
  Json.loads "hello" = None
  /\ option_map Device.station_id
       (first_by_imei "864793080106318" (session w)) = Some (Some 7)
  /\ map Device.imei (all_by_station (Some 7) outdoor (session w))
     = ["866965083776697"; "866965083776698"]
  /\ outbox (fst r) = []
  /\ outbox (fst r)
     <> [("/780EHV/SUB/866965083776697", "hello");
         ("/780EHV/SUB/866965083776698", "hello")].
Proof. repeat split. discriminate. Qed.

(** Station 7 has two outdoor units; its indoor unit reports an alarm. *)
Lemma two_outdoor_devices_fixture :
  let r := Fixture.handle_indoor_message "864793080106318" Fixture.bj_int_1
             Fixture.world0 in
  outbox (fst r)
  = [("/780EHV/SUB/866965083776697", Fixture.bj_int_1);
     ("/780EHV/SUB/866965083776698", Fixture.bj_int_1)]
  /\ map CommLog.direction (comm_logs (session (fst r)))
     = [receive; forward; forward].
Proof.
  intros r.
  destruct (two_outdoor_devices Config.default Json.loads Json.py_int
              Fixture.clock "864793080106318" Fixture.bj_int_1 Fixture.world0
              (Fixture.device "864793080106318" indoor (Some 7))
              (Json.JObj [("bj", Json.JInt 1)]) 7
              "866965083776697" "866965083776698"
              eq_refl eq_refl ltac:(discriminate) eq_refl eq_refl)
    as (Ho & Hc & Hd).
  split; [exact Ho|]. subst r. unfold Fixture.handle_indoor_message.
  rewrite Hc. exact Hd.
Defined.

(** C5, as stated, fails on a payload that is not JSON: the indoor unit of
    station 7, with its two outdoor units, sends [ping]; nothing is
    published and the receive row is the only log row. *)
Lemma two_outdoor_devices_need_json :
  let w := Fixture.world0 in
  let r := Fixture.handle_indoor_message "864793080106318" "ping" w in
  map Device.imei (all_by_station (Some 7) outdoor (session w))
  = ["866965083776697"; "866965083776698"]
  /\ Json.loads "ping" = None
  /\ length (outbox (fst r)) = 0%nat
  /\ map CommLog.direction (comm_logs (session (fst r))) = [receive].
Proof. repeat split. Qed.

(** The alarm of the indoor unit of station 7, with the string ["1"] as
    value: one alarm row of type alarm that names both outdoor units, the
    same row as for the integer 1. *)
Lemma alarm_event_recorded_fixture :
  let r := Fixture.handle_indoor_message "864793080106318" Fixture.bj_str_1
             Fixture.world0 in
  alarm_logs (session (fst r))
  = [ {| AlarmLog.station_id := Some 7;
         AlarmLog.indoor_imei := "864793080106318";
         AlarmLog.alarm_type := alarm;
         AlarmLog.outdoor_imeis := ["866965083776697"; "866965083776698"];
         AlarmLog.forward_status := 1 |} ]
  /\ alarm_logs (session (fst r))
     = alarm_logs (session (fst (Fixture.handle_indoor_message
                                   "864793080106318" Fixture.bj_int_1
                                   Fixture.world0))).
Proof.
  intros r.
  destruct (alarm_event_recorded Config.default Json.loads Json.py_int
              Fixture.clock "864793080106318" Fixture.bj_str_1 Fixture.world0
              (Fixture.device "864793080106318" indoor (Some 7))
              [("bj", Json.JStr "1")] (Json.JStr "1") (Json.JInt 1)
              eq_refl eq_refl ltac:(discriminate) eq_refl eq_refl eq_refl)
    as (Ha & _).
  subst r. unfold Fixture.handle_indoor_message at 1 2. rewrite Ha.
  split; reflexivity.
Defined.

(** C2, as stated, fails.  On the indoor unit of station 7 the value [true]
    and the string ["01"] are neither the integer 1 nor the string ["1"],
    and both give an alarm row of type alarm, not cancel; and the unbound
    indoor unit 860000000000001 sends [{"bj": 1}] and gets no alarm row. *)
Lemma alarm_type_by_comparison :
  let types (imei payload : string) :=
    map AlarmLog.alarm_type
      (alarm_logs (session (fst (Fixture.handle_indoor_message imei payload
                                   Fixture.world0)))) in
  Json.loads (Fixture.object "bj" "true")
  = Some (Json.JObj [("bj", Json.JBool true)])
  /\ types "864793080106318" (Fixture.object "bj" "true") = [alarm]
  /\ Json.loads (Fixture.object "bj" (Json.quote "01"))
     = Some (Json.JObj [("bj", Json.JStr "01")])
  /\ types "864793080106318" (Fixture.object "bj" (Json.quote "01")) = [alarm]
  /\ Json.loads Fixture.bj_int_1 = Some (Json.JObj [("bj", Json.JInt 1)])
  /\ types "860000000000001" Fixture.bj_int_1 = [].
Proof. repeat split. Qed.

(** The four commits of an alarm of the indoor unit of station 7. *)
Lemma alarm_after_forward_commit_fixture :
  exists s_alarm s_forward s_receive s_seen,
    commits (fst (Fixture.handle_indoor_message "864793080106318"
                    Fixture.bj_int_1 Fixture.world0))
    = [s_alarm; s_forward; s_receive; s_seen; Fixture.db0]
    /\ length (alarm_logs s_alarm) = 1%nat
    /\ map CommLog.direction (comm_logs s_alarm) = [receive; forward; forward]
    /\ alarm_logs s_forward = []
    /\ comm_logs s_forward = comm_logs s_alarm.
Proof.
  destruct (alarm_after_forward_commit Config.default Json.loads Json.py_int
              Fixture.clock "864793080106318" Fixture.bj_int_1 Fixture.world0
              (Fixture.device "864793080106318" indoor (Some 7))
              (Json.JObj [("bj", Json.JInt 1)]) (Json.JInt 1)
              eq_refl eq_refl ltac:(discriminate) eq_refl eq_refl)
    as (s4 & s3 & s2 & s1 & Hc & _ & _ & Ha4 & Hc4 & Ha3 & Hc3 & _).
  exists s4, s3, s2, s1. split; [exact Hc|].
  rewrite Ha4, Hc4, Ha3, Hc3, Hc4. repeat split.
Defined.

(** C3, as stated, fails.  After the alarm of the indoor unit of station 7
    the second newest committed state holds the two forward rows of the
    message and no alarm row; the alarm row is in the newest one only. *)
Lemma forward_rows_committed_before_alarm :
  let r := Fixture.handle_indoor_message "864793080106318" Fixture.bj_int_1
             Fixture.world0 in
  exists newest before earlier,
    commits (fst r) = newest :: before :: earlier
    /\ map CommLog.direction (comm_logs before) = [receive; forward; forward]
    /\ alarm_logs before = []
    /\ length (alarm_logs newest) = 1%nat.
Proof. cbv zeta. eexists _, _, _. repeat split. Qed.





End Engine.

(** ** What every handled message does and does not do *)

Module Relaying.

Import Store.

Section Relaying.

Variable cfg : Config.t.
Variable json_loads : string -> option Json.JValue.
Variable int_of_str : string -> option Z.
Variable clock : nat -> Z.
Variable decode_utf8 : string -> option string.
Variable float_binds : Json.JValue -> bool.

Notation auto_register_device := (Relay.auto_register_device clock).
Notation handle := (Relay.handle cfg json_loads int_of_str clock float_binds).
Notation on_message :=
  (Relay.on_message cfg json_loads int_of_str clock decode_utf8 float_binds).
Notation receive_log := (Relay.receive_log cfg).
Notation forward_log := (Relay.forward_log cfg).
Notation forward_pub := (Relay.forward_pub cfg).
Notation targets := (Routing.targets json_loads float_binds).
Notation flushes := (Routing.flushes json_loads float_binds).
Notation vbat_binds := (Relay.vbat_binds json_loads float_binds).
Notation deliver :=
  (Routing.deliver cfg json_loads int_of_str clock decode_utf8 float_binds).

(** Writing a row back as it is changes nothing. *)
Lemma replace_row_same (imei : string) (rows : list Device.t) (d : Device.t) :
  List.find (has_imei imei) rows = Some d ->
  replace_row d rows = rows.
Proof.
  intros Hfind.
  destruct (Facts.find_split _ _ _ Hfind) as (pre & post & -> & Hpre & Hi).
  apply Facts.replace_row_split; [now rewrite Hi | reflexivity].
Qed.

(** Both handlers, from the world [w1] and the object [d] that registration
    leaves: the publishes and forward rows follow the targets, at most one
    alarm row is added, and the source row is written back with its routing
    columns kept.  When the commit of the source row raises, the row stays
    as registration left it and nothing is logged. *)
Lemma handle_summary (ty : DeviceType) (imei payload : string) (w : World) :
  exists w1 d d' al,
    auto_register_device imei ty w = (w1, Py.Ok d)
    /\ first_by_imei imei (session w1) = Some d
    /\ match first_by_imei imei (session w) with
       | Some d0 => w1 = w /\ d = d0
       | None =>
           d = Relay.new_device imei ty (clock (ticks w))
           /\ devices (session w1) = devices (session w) ++ [d]
       end
    /\ outbox (fst (handle ty imei payload w))
       = outbox w
         ++ map (forward_pub ty payload)
                (map Device.imei (targets ty payload d (session w1)))
    /\ comm_logs (session (fst (handle ty imei payload w)))
       = comm_logs (session w)
         ++ (if flushes ty payload
             then receive_log ty imei payload (Device.station_id d)
                  :: map (forward_log ty imei payload (Device.station_id d))
                         (map Device.imei (targets ty payload d (session w1)))
             else [])
    /\ alarm_logs (session (fst (handle ty imei payload w)))
       = alarm_logs (session w) ++ al
    /\ (length al <= 1)%nat
    /\ (ty = outdoor -> al = [])
    /\ (al <> [] -> targets ty payload d (session w1) <> [])
    /\ devices (session (fst (handle ty imei payload w)))
       = replace_row d' (devices (session w1))
    /\ Routing.route d' = Routing.route d
    /\ Device.last_seen d'
       = (if flushes ty payload then Some (clock (ticks w1))
          else Device.last_seen d)
    /\ (flushes ty payload = false ->
        snd (handle ty imei payload w) = Py.Raise Py.StatementError
        /\ commits (fst (handle ty imei payload w)) = commits w1)
    /\ (flushes ty payload = true ->
        hd_error (commits (fst (handle ty imei payload w)))
        = Some (session (fst (handle ty imei payload w)))).
Proof.
  destruct (Engine.register_ok clock imei ty w)
    as (w1 & d & Hreg & Hfind & Ho & Hc & Ha & Hd).
  destruct ty; simpl Relay.handle; cbn [Routing.flushes].
  - generalize (Engine.indoor_run cfg json_loads int_of_str clock imei payload
                  w w1 d Hreg Hfind).
    cbv zeta. intros (H1 & H2 & H3 & H4 & _ & H6).
    exists w1, d, (Device.set_last_seen (clock (ticks w1)) d).
    rewrite H1, H2, H3, H4, Ho, Hc, Ha. unfold Routing.targets.
    clear H1 H2 H3 H4.
    destruct (json_loads payload) as [data|];
      destruct (Py.truthy (Device.station_id d)); simpl;
      try (exists []; rewrite app_nil_r; repeat split; simpl; auto; congruence).
    destruct (all_by_station (Device.station_id d) outdoor (session w1)) as [|t ts];
      simpl;
      [exists []; rewrite app_nil_r; repeat split; simpl; auto; congruence|].
    destruct (Relay.read_bj int_of_str data) as [[v|]|e].
    + exists [Relay.alarm_log (Device.station_id d) imei v
                (Device.imei t :: map Device.imei ts)].
      repeat split; simpl; auto; congruence.
    + exists []. rewrite app_nil_r. repeat split; simpl; auto; congruence.
    + exists []. rewrite app_nil_r. repeat split; simpl; auto; congruence.
  - generalize (Engine.outdoor_run cfg json_loads clock float_binds imei
                  payload w w1 d Hreg Hfind).
    cbv zeta. unfold Routing.targets.
    destruct (vbat_binds payload) eqn:Hb.
    + intros (H1 & H2 & H3 & H4 & _ & H6).
      destruct (Engine.update_vbat_keeps json_loads payload
                  (Device.set_last_seen (clock (ticks w1)) d))
        as (Ki & Ks & Kt & Kn & Kl).
      exists w1, d,
        (Relay.update_vbat json_loads payload
           (Device.set_last_seen (clock (ticks w1)) d)), [].
      split; [exact Hreg|]. split; [exact Hfind|]. split; [exact Hd|].
      rewrite H1, H2, H3, H4, Ho, Hc, Ha, app_nil_r.
      assert (Hroute : Routing.route (Relay.update_vbat json_loads payload
                                (Device.set_last_seen (clock (ticks w1)) d))
                       = Routing.route d)
        by (unfold Routing.route; now rewrite Ki, Ks, Kt, Kn).
      destruct (Py.truthy (Device.station_id d));
        [destruct (first_by_station (Device.station_id d) indoor (session w1))|];
        repeat split; simpl; auto; congruence.
    + intros (H1 & H2 & H3 & H4).
      exists w1, d, d, [].
      split; [exact Hreg|]. split; [exact Hfind|]. split; [exact Hd|].
      rewrite H1, H3, H4, Ho, Hc, Ha, !app_nil_r.
      unfold first_by_imei in Hfind. rewrite (replace_row_same imei _ d Hfind).
      destruct (Py.truthy (Device.station_id d));
        simpl; rewrite ?app_nil_r; repeat split; auto; congruence.
Qed.

Lemma in_station_true (sid : option Z) (ty : DeviceType) (x : Device.t) :
  in_station sid ty x = true ->
  Device.station_id x = sid /\ Device.type x = ty.
Proof.
  unfold in_station. intros H. apply andb_true_iff in H as [Hs Ht]. split.
  - destruct (Device.station_id x) as [a|], sid as [b|]; simpl in Hs;
      try discriminate; [|reflexivity].
    apply Z.eqb_eq in Hs. now subst.
  - destruct (Device.type x), ty; simpl in Ht; try discriminate; reflexivity.
Qed.

(** The targets are rows of the table, of the opposite class, with the
    station of the source, which then is a station the code counts as one. *)
Lemma targets_in_station (ty : DeviceType) (payload : string) (d : Device.t)
  (db : DB) :
  Forall (fun x => In x (devices db)
                   /\ Device.station_id x = Device.station_id d
                   /\ Device.type x = Relay.opposite ty
                   /\ Py.truthy (Device.station_id d) = true)
         (targets ty payload d db).
Proof.
  unfold Routing.targets.
  destruct (Py.truthy (Device.station_id d)) eqn:Hb; [|constructor].
  destruct ty; simpl.
  - destruct (json_loads payload); [|constructor].
    apply Forall_forall. intros x Hx. unfold all_by_station in Hx.
    apply filter_In in Hx as [Hin Hst].
    apply in_station_true in Hst as [Hs Ht]. now repeat split.
  - destruct (vbat_binds payload); [|constructor].
    destruct (first_by_station (Device.station_id d) indoor db) as [t|] eqn:E;
      [|constructor].
    unfold first_by_station in E. apply find_some in E as [Hin Hst].
    apply in_station_true in Hst as [Hs Ht]. constructor; [|constructor].
    now repeat split.
Qed.

(** A message that does not get past the commit of its source row has no
    targets. *)
Lemma targets_unflushed (ty : DeviceType) (payload : string) (d : Device.t)
  (db : DB) :
  flushes ty payload = false -> targets ty payload d db = [].
Proof.
  destruct ty; [discriminate|]. cbn [Routing.flushes]. intros H.
  unfold Routing.targets. rewrite H.
  now destruct (Py.truthy (Device.station_id d)).
Qed.

(** X1.  Whatever the topic, the message and the state of the store: every
    publish of a handler goes to the subscribe topic of a stored device of
    the opposite class that is bound to the same station as the source, a
    station with a non-zero id, and carries the payload as it came in.  The
    relay never publishes across stations and never for an unknown or
    unbound source. *)
Theorem publishes_stay_in_station (ty : DeviceType) (imei payload : string)
  (w : World) :
  exists tgs : list Device.t,
    outbox (fst (handle ty imei payload w))
    = outbox w
      ++ map (fun x =>
                (String.append (Relay.sub_prefix cfg (Relay.opposite ty))
                               (Device.imei x),
                 payload)) tgs
    /\ Forall (fun x =>
                 In x (devices (session w))
                 /\ Device.type x = Relay.opposite ty
                 /\ exists d s,
                      first_by_imei imei (session w) = Some d
                      /\ Device.station_id d = Some s
                      /\ s <> 0
                      /\ Device.station_id x = Some s) tgs.
Proof.
  destruct (handle_summary ty imei payload w)
    as (w1 & d & d' & al & _ & _ & Hd & Ho & _).
  exists (targets ty payload d (session w1)). split.
  - rewrite Ho, map_map. reflexivity.
  - generalize (targets_in_station ty payload d (session w1)).
    destruct (first_by_imei imei (session w)) as [d0|] eqn:E.
    + destruct Hd as [-> ->]. apply Forall_impl.
      intros x (Hin & Hs & Ht & Hb). repeat split; try assumption.
      destruct (Device.station_id d0) as [s|] eqn:Es; [|discriminate].
      exists d0, s. repeat split; try assumption.
      simpl in Hb. intros ->. discriminate.
    + destruct Hd as [-> _]. unfold Routing.targets. simpl. constructor.
Qed.

(** X2.  A handled message that gets past the commit of its source row
    (an indoor message always does, an outdoor one when the voltage it
    assigns, if any, binds) leaves exactly one receive row, and one forward
    row for each publish, in the order of the publishes and with the topic
    and the payload of the publish; nothing else is added to the
    communication log and no earlier row is touched.  An outdoor message
    that does not get past that commit ends on the error of the commit,
    with no row added and nothing published. *)
Theorem one_row_per_message_and_publish (ty : DeviceType)
  (imei payload : string) (w : World) :
  if flushes ty payload then
    exists rcv fwds,
      comm_logs (session (fst (handle ty imei payload w)))
      = comm_logs (session w) ++ rcv :: fwds
      /\ CommLog.direction rcv = receive
      /\ CommLog.source_type rcv = ty
      /\ CommLog.source_imei rcv = imei
      /\ CommLog.payload rcv = payload
      /\ Forall (fun l => CommLog.direction l = forward
                          /\ CommLog.source_type l = ty
                          /\ CommLog.source_imei l = imei
                          /\ CommLog.target_type l = Some (Relay.opposite ty)
                          /\ CommLog.station_id l = CommLog.station_id rcv)
           fwds
      /\ outbox (fst (handle ty imei payload w))
         = outbox w ++ map (fun l => (CommLog.topic l, CommLog.payload l)) fwds
  else
    ty = outdoor
    /\ snd (handle ty imei payload w) = Py.Raise Py.StatementError
    /\ comm_logs (session (fst (handle ty imei payload w)))
       = comm_logs (session w)
    /\ outbox (fst (handle ty imei payload w)) = outbox w.
Proof.
  destruct (handle_summary ty imei payload w)
    as (w1 & d & d' & al & _ & _ & _ & Ho & Hc & _ & _ & _ & _ & _ & _ & _
        & Hraise & _).
  destruct (flushes ty payload) eqn:Hflush.
  - eexists _, _. split; [exact Hc|]. repeat split.
    + apply Forall_forall. intros l Hl. apply in_map_iff in Hl as (t & <- & _).
      now repeat split.
    + rewrite Ho, !map_map. reflexivity.
  - destruct ty; [discriminate Hflush|]. cbn [Routing.flushes] in Hflush.
    split; [reflexivity|]. split; [exact (proj1 (Hraise eq_refl))|].
    split; [now rewrite Hc, app_nil_r|].
    rewrite Ho. unfold Routing.targets. rewrite Hflush.
    destruct (Py.truthy (Device.station_id d)); apply app_nil_r.
Qed.

(** Writing back an object with the routing columns of its row keeps the
    routing columns of the table. *)
Lemma replace_row_route (imei : string) (rows : list Device.t)
  (d d' : Device.t) :
  List.find (has_imei imei) rows = Some d ->
  Routing.route d' = Routing.route d ->
  map Routing.route (replace_row d' rows) = map Routing.route rows.
Proof.
  intros Hfind Hr.
  destruct (Facts.find_split _ _ _ Hfind) as (pre & post & -> & Hpre & Hi).
  assert (Hi' : Device.imei d' = Device.imei d) by (unfold Routing.route in Hr; congruence).
  rewrite Facts.replace_row_split;
    [| rewrite Hi', Hi; exact Hpre | now rewrite Hi'].
  rewrite !map_app. simpl. now rewrite Hr.
Qed.

Lemma handle_routes (ty : DeviceType) (imei payload : string) (w : World) :
  map Routing.route (devices (session (fst (handle ty imei payload w))))
  = map Routing.route (devices (session w))
    ++ match first_by_imei imei (session w) with
       | Some _ => []
       | None => [(imei, ty, Relay.auto_name imei, None)]
       end.
Proof.
  destruct (handle_summary ty imei payload w)
    as (w1 & d & d' & al & _ & Hfind & Hd & _ & _ & _ & _ & _ & _ & Hrows
        & Hroute & _).
  rewrite Hrows, (replace_row_route imei _ d d' Hfind Hroute).
  destruct (first_by_imei imei (session w)) as [d0|].
  - destruct Hd as [-> _]. now rewrite app_nil_r.
  - destruct Hd as [-> ->]. rewrite map_app. reflexivity.
Qed.

(** X3.  [on_message] never changes the IMEI, the class, the name or the
    station binding of a stored device, never removes or reorders a row, and
    adds at most one row: the unbound one for an IMEI it had not seen, with
    the class of the topic and the placeholder name.  A payload that does
    not decode and a topic that is not recognized add nothing. *)
Theorem bindings_untouched (msg : Relay.Message) (w : World) :
  map Routing.route (devices (session (on_message msg w)))
  = map Routing.route (devices (session w))
    ++ match decode_utf8 (Relay.payload msg),
             Relay.parse_topic cfg (Relay.topic msg) with
       | Some _, Some (ty, imei) =>
           match first_by_imei imei (session w) with
           | Some _ => []
           | None => [(imei, ty, Relay.auto_name imei, None)]
           end
       | _, _ => []
       end.
Proof.
  destruct (decode_utf8 (Relay.payload msg)) as [text|] eqn:Hdec.
  - destruct (Relay.parse_topic cfg (Relay.topic msg)) as [[ty imei]|] eqn:Hp.
    + rewrite (Engine.on_message_handle cfg json_loads int_of_str clock
                 decode_utf8 float_binds msg w text ty imei Hdec Hp).
      apply handle_routes.
    + unfold Relay.on_message. now rewrite Hdec, Hp, app_nil_r.
  - unfold Relay.on_message. now rewrite Hdec, app_nil_r.
Qed.

Lemma find_none_not_in (imei : string) (rows : list Device.t) :
  List.find (has_imei imei) rows = None ->
  ~ In imei (map Device.imei rows).
Proof.
  induction rows as [|r rows IH]; simpl; [intros _ []|].
  destruct (has_imei imei r) eqn:E; [discriminate|].
  intros H [Hr|Hin]; [|now apply IH].
  unfold has_imei in E. rewrite Hr, String.eqb_refl in E. discriminate.
Qed.

Lemma handle_keeps_unique (ty : DeviceType) (imei payload : string)
  (w : World) :
  NoDup (map Device.imei (devices (session w))) ->
  NoDup (map Device.imei
           (devices (session (fst (handle ty imei payload w))))).
Proof.
  intros H.
  assert (R : forall l, map Device.imei l
                        = map (fun r : string * DeviceType * string * option Z =>
                                 fst (fst (fst r))) (map Routing.route l))
    by (intros l; rewrite map_map; reflexivity).
  rewrite R, (handle_routes ty imei payload w), map_app, <- R.
  destruct (first_by_imei imei (session w)) eqn:E; simpl.
  - now rewrite app_nil_r.
  - apply NoDup_app; [exact H | repeat constructor; auto |].
    intros x Hx [<-|[]]. revert Hx. now apply find_none_not_in.
Qed.

(** X4.  No sequence of messages, whatever their topics and payloads, makes
    two rows share an IMEI: a table with one row per IMEI stays so under the
    message loop. *)
Theorem imei_stays_unique (msgs : list Relay.Message) (w : World) :
  NoDup (map Device.imei (devices (session w))) ->
  NoDup (map Device.imei (devices (session (deliver msgs w)))).
Proof.
  revert w. induction msgs as [|msg msgs IH]; intros w H; [exact H|].
  simpl. apply IH. clear IH.
  destruct (decode_utf8 (Relay.payload msg)) as [text|] eqn:Hdec.
  - destruct (Relay.parse_topic cfg (Relay.topic msg)) as [[ty imei]|] eqn:Hp.
    + rewrite (Engine.on_message_handle cfg json_loads int_of_str clock
                 decode_utf8 float_binds msg w text ty imei Hdec Hp).
      now apply handle_keeps_unique.
    + unfold Relay.on_message. now rewrite Hdec, Hp.
  - unfold Relay.on_message. now rewrite Hdec.
Qed.

(** After a message the row of its source is in the table. *)
Lemma last_seen_known (ty : DeviceType) (imei payload : string) (w : World) :
  exists d',
    first_by_imei imei (session (fst (handle ty imei payload w))) = Some d'.
Proof.
  destruct (handle_summary ty imei payload w)
    as (w1 & d & d' & al & _ & Hfind & _ & _ & _ & _ & _ & _ & _ & Hrows
        & Hroute & _).
  exists d'. unfold first_by_imei in *. rewrite Hrows.
  destruct (Facts.find_split _ _ _ Hfind) as (pre & post & Hsplit & Hpre & Hi).
  assert (Hi' : Device.imei d' = imei) by (unfold Routing.route in Hroute; congruence).
  rewrite Hsplit, Facts.replace_row_split;
    [| now rewrite Hi' | now rewrite Hi, Hi'].
  apply Engine.find_at_split; [exact Hpre|].
  unfold has_imei. rewrite Hi'. apply String.eqb_refl.
Qed.

(** X5.  Every handled message that gets past the commit of its source
    row (an indoor message always does, an outdoor one when the voltage it
    assigns, if any, binds) stamps that row with the time read for it,
    whether or not the payload parses, the source is bound or anything is
    forwarded: the time of the handler when the IMEI was known, the second
    reading of the clock when the message registered it.  When the commit
    raises, the row keeps the time it had: the one stored before, or that
    of the registration by this message. *)
Theorem last_seen_stamped (ty : DeviceType) (imei payload : string)
  (w : World) :
  exists d',
    first_by_imei imei (session (fst (handle ty imei payload w))) = Some d'
    /\ Device.last_seen d'
       = if flushes ty payload
         then Some (clock (match first_by_imei imei (session w) with
                           | Some _ => ticks w
                           | None => S (ticks w)
                           end))
         else match first_by_imei imei (session w) with
              | Some d => Device.last_seen d
              | None => Some (clock (ticks w))
              end.
Proof.
  destruct (handle_summary ty imei payload w)
    as (w1 & d & d' & al & Hreg & Hfind & Hd & _ & _ & _ & _ & _ & _ & Hrows
        & Hroute & Hseen & _).
  exists d'. split.
  - unfold first_by_imei in *. rewrite Hrows.
    destruct (Facts.find_split _ _ _ Hfind) as (pre & post & Hsplit & Hpre & Hi).
    assert (Hi' : Device.imei d' = imei) by (unfold Routing.route in Hroute; congruence).
    rewrite Hsplit, Facts.replace_row_split;
      [| now rewrite Hi' | now rewrite Hi, Hi'].
    apply Engine.find_at_split; [exact Hpre|].
    unfold has_imei. rewrite Hi'. apply String.eqb_refl.
  - rewrite Hseen. destruct (first_by_imei imei (session w)) eqn:E.
    + now destruct Hd as [-> ->].
    + rewrite (Registry.register_fresh clock imei ty w E) in Hreg.
      injection Hreg as <- <-. reflexivity.
Qed.

(** X6.  Two messages of one IMEI that was not known, handled one after the
    other on whatever prefixes, leave one new row: the first message makes
    it, with the class of its topic and no station, and the second one finds
    it and adds none, even when its topic is of the other class. *)
Theorem second_contact_adds_no_row (ty1 ty2 : DeviceType)
  (imei p1 p2 : string) (w : World) :
  first_by_imei imei (session w) = None ->
  let w1 := fst (handle ty1 imei p1 w) in
  let w2 := fst (handle ty2 imei p2 w1) in
  map Routing.route (devices (session w1))
  = map Routing.route (devices (session w)) ++ [(imei, ty1, Relay.auto_name imei, None)]
  /\ map Routing.route (devices (session w2)) = map Routing.route (devices (session w1)).
Proof.
  intros Hnew w1 w2. subst w2 w1.
  rewrite (handle_routes ty2 imei p2), (handle_routes ty1 imei p1), Hnew.
  split; [reflexivity|].
  destruct (last_seen_known ty1 imei p1 w) as [d' ->]. now rewrite app_nil_r.
Qed.


(** What reading [bj] can raise: a [TypeError] on a payload that is no
    object, a [ValueError] on a string that is no integer. *)
Lemma read_bj_errors (data : Json.JValue) (e : Py.exn) :
  Relay.read_bj int_of_str data = Py.Raise e ->
  e = Py.TypeError \/ e = Py.ValueError.
Proof.
  unfold Relay.read_bj. destruct data; simpl;
    try (intros H; injection H as <-; now left).
  - destruct (Py.str_contains "bj" s); simpl; [|discriminate].
    intros H; injection H as <-; now left.
  - destruct (existsb (Json.is_str "bj") items); simpl; [|discriminate].
    intros H; injection H as <-; now left.
  - destruct (Json.lookup "bj" members) as [v|]; simpl; [|discriminate].
    destruct v; try discriminate.
    destruct (int_of_str s); [discriminate|].
    intros H; injection H as <-; now right.
Qed.

(** X8.  An error of the alarm detection comes after the forwarding.
    From a device bound to a station that has an outdoor device, a payload
    that is JSON and on which reading [bj] raises, which is a [TypeError]
    on a value that is no object and a [ValueError] on a string that is no
    integer, makes the indoor handler end on that error once the message
    is published to every outdoor device of the station and the forward
    rows are written and committed; no alarm row is written. *)
Theorem alarm_errors_after_forwarding (imei payload : string) (w : World)
  (d : Device.t) (data : Json.JValue) (e : Py.exn) :
  first_by_imei imei (session w) = Some d ->
  Py.truthy (Device.station_id d) = true ->
  all_by_station (Device.station_id d) outdoor (session w) <> [] ->
  json_loads payload = Some data ->
  Relay.read_bj int_of_str data = Py.Raise e ->
  let r := Relay.handle_indoor_message cfg json_loads int_of_str clock
             imei payload w in
  let tg := map Device.imei
              (all_by_station (Device.station_id d) outdoor (session w)) in
  snd r = Py.Raise e
  /\ (e = Py.TypeError \/ e = Py.ValueError)
  /\ outbox (fst r) = outbox w ++ map (forward_pub indoor payload) tg
  /\ comm_logs (session (fst r))
     = comm_logs (session w)
       ++ receive_log indoor imei payload (Device.station_id d)
          :: map (forward_log indoor imei payload (Device.station_id d)) tg
  /\ alarm_logs (session (fst r)) = alarm_logs (session w)
  /\ hd_error (commits (fst r)) = Some (session (fst r)).
Proof.
  intros Hfind Hbound Htargets Hjson Hbj r tg. subst r.
  generalize (Engine.indoor_run cfg json_loads int_of_str clock imei payload
                w w d (Registry.register_known clock imei indoor w d Hfind)
                Hfind).
  cbv zeta. fold tg. rewrite Hjson, Hbound.
  assert (Hne : tg <> []).
  { subst tg. intros E. apply map_eq_nil in E. contradiction. }
  destruct tg as [|t tg']; [contradiction|]. rewrite Hbj.
  intros (H1 & H2 & H3 & _ & H5 & H6).
  split; [exact H5|]. split; [exact (read_bj_errors data e Hbj)|].
  split; [exact H1|]. split; [exact H2|]. split; [|exact H6].
  now rewrite H3, app_nil_r.
Qed.

(** X9.  A station id of zero counts as no binding: the test of lines 131
    and 223 is on the truth of the id.  A message of such a device that
    gets past the commit of the source row (an indoor message always does,
    an outdoor one when the voltage it assigns, if any, binds) is logged
    with that id and goes nowhere. *)
Theorem station_zero_counts_as_unbound (ty : DeviceType)
  (imei payload : string) (w : World) (d : Device.t) :
  first_by_imei imei (session w) = Some d ->
  Device.station_id d = Some 0 ->
  flushes ty payload = true ->
  let r := handle ty imei payload w in
  snd r = Py.Ok tt
  /\ outbox (fst r) = outbox w
  /\ comm_logs (session (fst r))
     = comm_logs (session w) ++ [receive_log ty imei payload (Some 0)]
  /\ alarm_logs (session (fst r)) = alarm_logs (session w).
Proof.
  intros Hfind Hzero Hflush r. subst r.
  destruct ty; simpl Relay.handle.
  - destruct (Engine.indoor_run cfg json_loads int_of_str clock imei payload
                w w d (Registry.register_known clock imei indoor w d Hfind)
                Hfind) as (H1 & H2 & H3 & _ & H5 & _).
    rewrite H1, H2, H3, H5, Hzero. simpl.
    destruct (json_loads payload); simpl; now rewrite !app_nil_r.
  - generalize (Engine.outdoor_run cfg json_loads clock float_binds imei
                  payload w w d
                  (Registry.register_known clock imei outdoor w d Hfind)
                  Hfind).
    cbv zeta. cbn [Routing.flushes] in Hflush. rewrite Hflush.
    intros (H1 & H2 & H3 & _ & H5 & _).
    rewrite H1, H2, H3, H5, Hzero. simpl. now rewrite !app_nil_r.
Qed.

(** A single piece is the whole string, which then holds no separator. *)
Lemma split_single (sep : ascii) (s h : string) :
  Py.split sep s = [h] ->
  h = s /\ Py.str_contains (String sep EmptyString) s = false.
Proof.
  revert h. induction s as [|c s IH]; intros h; simpl.
  - intros H; injection H as <-. now split.
  - destruct (Ascii.eqb c sep) eqn:E.
    + intros H. injection H as _ H. now apply Facts.split_nonempty in H.
    + destruct (Py.split sep s) as [|h' t'] eqn:Es;
        [now apply Facts.split_nonempty in Es|].
      intros H. injection H as <- ->.
      destruct (IH h' eq_refl) as [-> Hno]. split; [reflexivity|].
      destruct (ascii_dec sep c) as [->|_]; [|exact Hno].
      now rewrite Ascii.eqb_refl in E.
Qed.

(** The last piece of a string ends the string and holds no separator. *)
Lemma split_last_suffix (sep : ascii) (s : string) :
  exists pre,
    s = String.append pre (Py.last_item (Py.split sep s))
    /\ Py.str_contains (String sep EmptyString)
         (Py.last_item (Py.split sep s)) = false.
Proof.
  unfold Py.last_item.
  induction s as [|c s (pre & Hs & Hno)]; [now exists EmptyString|].
  cbn [Py.split].
  destruct (Py.split sep s) as [|h t] eqn:Es;
    [now apply Facts.split_nonempty in Es|].
  destruct (Ascii.eqb c sep) eqn:E.
  - exists (String c pre).
    change (List.last (EmptyString :: h :: t) EmptyString)
      with (List.last (h :: t) EmptyString).
    split; [cbn [String.append]; now f_equal | exact Hno].
  - destruct t as [|h2 t].
    + destruct (split_single sep s h Es) as [-> Hn].
      exists EmptyString. split; [reflexivity|].
      cbn [List.last]. cbn [Py.str_contains String.prefix].
      destruct (ascii_dec sep c) as [->|_]; [|exact Hn].
      now rewrite Ascii.eqb_refl in E.
    + exists (String c pre).
      change (List.last (String c h :: h2 :: t) EmptyString)
        with (List.last (h :: h2 :: t) EmptyString).
      split; [cbn [String.append]; now f_equal | exact Hno].
Qed.

(** X10.  The IMEI that [on_message] reads off a recognized topic holds no
    slash and is the end of the topic: for a topic with further levels after
    the prefix it is the last level only. *)
Theorem parsed_imei_has_no_slash (topic : string) (ty : DeviceType)
  (imei : string) :
  Relay.parse_topic cfg topic = Some (ty, imei) ->
  Py.str_contains "/" imei = false
  /\ exists pre, topic = String.append pre imei.
Proof.
  unfold Relay.parse_topic.
  destruct (split_last_suffix "/" topic) as (pre & Hs & Hno).
  destruct (Py.startswith topic (Config.INDOOR_PUB_PREFIX cfg));
    [|destruct (Py.startswith topic (Config.OUTDOOR_PUB_PREFIX cfg))];
    intros H; try discriminate; injection H as _ <-;
    (split; [exact Hno | now exists pre]).
Qed.

End Relaying.

(** X11.  Under the prefixes of [config.py] the relay does not take up what
    it publishes: a message on the subscribe topic of any device, of either
    class and with any payload, is not recognized and changes nothing. *)
Theorem own_publishes_ignored (json_loads : string -> option Json.JValue)
  (int_of_str : string -> option Z) (clock : nat -> Z)
  (decode_utf8 : string -> option string)
  (float_binds : Json.JValue -> bool)
  (ty : DeviceType) (imei payload : string) (w : World) :
  Relay.on_message Config.default json_loads int_of_str clock decode_utf8
    float_binds
    {| Relay.topic := String.append (Relay.sub_prefix Config.default ty) imei;
       Relay.payload := payload |} w
  = w.
Proof.
  unfold Relay.on_message. cbn [Relay.payload Relay.topic].
  destruct (decode_utf8 payload); [|reflexivity].
  assert (H : Relay.parse_topic Config.default
                (String.append (Relay.sub_prefix Config.default ty) imei)
              = None) by (destruct ty; reflexivity).
  now rewrite H.
Qed.

(** Three messages to the installation: a known device, a new IMEI, and the
    new IMEI again on the other prefix. *)
Lemma imei_stays_unique_fixture :
  NoDup
    (map Device.imei
       (devices
          (session
             (Routing.deliver Config.default Json.loads Json.py_int
                Fixture.clock Fixture.decode_utf8 Fixture.float_binds
                [ {| Relay.topic := "/AIR8000/PUB/864793080106318";
                     Relay.payload := Fixture.bj_int_1 |};
                  {| Relay.topic := "/780EHV/PUB/869999999999999";
                     Relay.payload := Fixture.vbat_3_1 |};
                  {| Relay.topic := "/AIR8000/PUB/869999999999999";
                     Relay.payload := "hello" |} ]
                Fixture.world0)))).
Proof.
  apply imei_stays_unique.
  simpl. repeat constructor; simpl; intuition discriminate.
Defined.

(** The IMEI 869999999999999 first on the outdoor prefix, then on the
    indoor one: one row, of class outdoor. *)
Lemma second_contact_adds_no_row_fixture :
  let w1 := fst (Fixture.handle_outdoor_message "869999999999999"
                   Fixture.vbat_3_1 Fixture.world0) in
  let w2 := fst (Fixture.handle_indoor_message "869999999999999"
                   Fixture.bj_int_1 w1) in
  length (devices (session w2)) = 6%nat
  /\ map Routing.route (List.filter (has_imei "869999999999999") (devices (session w2)))
     = [("869999999999999", outdoor,
         Relay.auto_name "869999999999999", None)].
Proof.
  intros w1 w2.
  destruct (second_contact_adds_no_row Config.default Json.loads Json.py_int
              Fixture.clock Fixture.float_binds outdoor indoor
              "869999999999999"
              Fixture.vbat_3_1 Fixture.bj_int_1 Fixture.world0 eq_refl)
    as (H1 & H2).
  split; [|reflexivity].
  change (length (devices (session w2)))
    with (length (devices (session
            (fst (Relay.handle Config.default Json.loads Json.py_int
                    Fixture.clock Fixture.float_binds indoor
                    "869999999999999" Fixture.bj_int_1
                    (fst (Relay.handle Config.default Json.loads Json.py_int
                            Fixture.clock Fixture.float_binds outdoor
                            "869999999999999"
                            Fixture.vbat_3_1 Fixture.world0))))))).
  rewrite <- (length_map Routing.route), H2, H1, length_app, length_map. reflexivity.
Defined.

(** The payload [12] is JSON and no container: the indoor unit of station 7
    gets it forwarded, then the alarm detection raises. *)
Lemma alarm_errors_after_forwarding_fixture :
  let r := Fixture.handle_indoor_message "864793080106318" "12"
             Fixture.world0 in
  snd r = Py.Raise Py.TypeError
  /\ outbox (fst r)
     = [("/780EHV/SUB/866965083776697", "12");
        ("/780EHV/SUB/866965083776698", "12")]
  /\ map CommLog.direction (comm_logs (session (fst r)))
     = [receive; forward; forward]
  /\ alarm_logs (session (fst r)) = [].
Proof.
  intros r.
  destruct (alarm_errors_after_forwarding Config.default Json.loads
              Json.py_int Fixture.clock "864793080106318" "12"
              Fixture.world0
              (Fixture.device "864793080106318" indoor (Some 7))
              (Json.JInt 12) Py.TypeError
              eq_refl eq_refl ltac:(discriminate) eq_refl eq_refl)
    as (Hr & _ & Ho & Hc & Ha & _).
  subst r. unfold Fixture.handle_indoor_message.
  rewrite Hr, Ho, Hc, Ha. repeat split.
Defined.

(** A device whose station id is 0. *)
Lemma station_zero_counts_as_unbound_fixture :
  let d := Fixture.device "860000000000003" indoor (Some 0) in
  let w := {| session := {| devices := [d; Fixture.device "860000000000004"
                                             outdoor (Some 0)];
                            comm_logs := []; alarm_logs := [] |};
              commits := []; outbox := []; ticks := 0 |} in
  outbox (fst (Fixture.handle_indoor_message "860000000000003"
                 Fixture.bj_int_1 w)) = [].
Proof.
  intros d w.
  destruct (station_zero_counts_as_unbound Config.default Json.loads
              Json.py_int Fixture.clock Fixture.float_binds indoor
              "860000000000003" Fixture.bj_int_1 w d eq_refl eq_refl eq_refl)
    as (_ & Ho & _).
  exact Ho.
Defined.

(** The topic [/AIR8000/PUB/12/34] gives the IMEI [34]. *)
Lemma parsed_imei_has_no_slash_fixture :
  Relay.parse_topic Config.default "/AIR8000/PUB/12/34" = Some (indoor, "34")
  /\ Py.str_contains "/" "34" = false.
Proof.
  split; [reflexivity|].
  exact (proj1 (parsed_imei_has_no_slash Config.default "/AIR8000/PUB/12/34"
                  indoor "34" eq_refl)).
Defined.

End Relaying.

(** ** First contact of an IMEI *)

Module FirstContact.

Import Store.

Section First_contact.

Variable cfg : Config.t.
Variable json_loads : string -> option Json.JValue.
Variable int_of_str : string -> option Z.
Variable clock : nat -> Z.
Variable decode_utf8 : string -> option string.
Variable float_binds : Json.JValue -> bool.

Notation auto_register_device := (Relay.auto_register_device clock).
Notation handle := (Relay.handle cfg json_loads int_of_str clock float_binds).
Notation on_message :=
  (Relay.on_message cfg json_loads int_of_str clock decode_utf8 float_binds).
Notation deliver :=
  (Routing.deliver cfg json_loads int_of_str clock decode_utf8 float_binds).






End First_contact.


End FirstContact.

(** ** Bindings under administration and traffic *)

Module Binding.

Import Store.

(** The row of an IMEI after its object was written back. *)
Lemma find_replaced (imei : string) (rows : list Device.t) (d d' : Device.t) :
  List.find (has_imei imei) rows = Some d ->
  Device.imei d' = Device.imei d ->
  exists pre post,
    rows = pre ++ d :: post
    /\ replace_row d' rows = pre ++ d' :: post
    /\ existsb (has_imei imei) pre = false
    /\ Device.imei d = imei
    /\ List.find (has_imei imei) (replace_row d' rows) = Some d'.
Proof.
  intros Hfind Hi.
  destruct (Facts.find_split _ _ _ Hfind) as (pre & post & -> & Hpre & Hd).
  exists pre, post.
  assert (R : replace_row d' (pre ++ d :: post) = pre ++ d' :: post)
    by (apply Facts.replace_row_split; [now rewrite Hi, Hd | now rewrite Hi]).
  rewrite R. repeat split; try assumption.
  apply Engine.find_at_split; [exact Hpre|].
  unfold has_imei. rewrite Hi, Hd. apply String.eqb_refl.
Qed.

(** How many rows a station query selects, around one row. *)
Lemma count_around (sid : option Z) (ty : DeviceType)
  (pre post : list Device.t) (d : Device.t) :
  length (List.filter (in_station sid ty) (pre ++ d :: post))
  = (length (List.filter (in_station sid ty) pre)
     + (if in_station sid ty d then 1 else 0)
     + length (List.filter (in_station sid ty) post))%nat.
Proof.
  rewrite filter_app, length_app. simpl.
  destruct (in_station sid ty d); simpl; lia.
Qed.

Lemma in_station_unbound (s : Z) (ty : DeviceType) (d : Device.t) :
  Device.station_id d = None -> in_station (Some s) ty d = false.
Proof. unfold in_station. now intros ->. Qed.

(** A row whose IMEI occurs once in the table is the row found for it. *)
Lemma unique_row (imei : string) (pre post : list Device.t) (d x : Device.t) :
  NoDup (map Device.imei (pre ++ d :: post)) ->
  Device.imei d = imei ->
  Device.imei x = imei ->
  In x (pre ++ d :: post) ->
  x = d.
Proof.
  intros Hnd Hd Hx Hin. rewrite map_app in Hnd. simpl in Hnd.
  apply NoDup_remove_2 in Hnd.
  apply in_app_or in Hin as [Hin|[<-|Hin]]; [|reflexivity|]; exfalso;
    apply Hnd, in_or_app; [left|right]; rewrite Hd, <- Hx; now apply in_map.
Qed.

(** Tables with the same routing columns agree on the invariants. *)
Lemma same_routes_count (sid : option Z) (ty : DeviceType)
  (a b : list Device.t) :
  map Routing.route a = map Routing.route b ->
  length (List.filter (in_station sid ty) a)
  = length (List.filter (in_station sid ty) b).
Proof.
  revert b. induction a as [|x a IH]; intros [|y b] H; try discriminate;
    [reflexivity|].
  simpl in H. unfold Routing.route at 1 3 in H.
  injection H as Hi Ht Hn Hs Hrest. simpl.
  assert (E : in_station sid ty x = in_station sid ty y)
    by (unfold in_station; now rewrite Hs, Ht).
  rewrite E. destruct (in_station sid ty y); simpl; now rewrite (IH b Hrest).
Qed.

Lemma same_routes_imeis (a b : list Device.t) :
  map Routing.route a = map Routing.route b ->
  map Device.imei a = map Device.imei b.
Proof.
  intros H.
  assert (R : forall l, map Device.imei l
                        = map (fun r : string * DeviceType * string * option Z =>
                                 fst (fst (fst r))) (map Routing.route l))
    by (intros l; rewrite map_map; reflexivity).
  now rewrite (R a), (R b), H.
Qed.

Lemma same_routes_stations (a b : list Device.t) :
  map Routing.route a = map Routing.route b ->
  map Device.station_id a = map Device.station_id b.
Proof.
  intros H.
  assert (R : forall l, map Device.station_id l
                        = map (fun r : string * DeviceType * string * option Z =>
                                 snd r) (map Routing.route l))
    by (intros l; rewrite map_map; reflexivity).
  now rewrite (R a), (R b), H.
Qed.

Lemma existing_by_stations (stations : list Admin.Station)
  (rows : list Device.t) :
  Admin.existing stations rows
  <-> forall s, In (Some s) (map Device.station_id rows) ->
                List.find (fun x => Admin.id x =? s) stations <> None.
Proof.
  split.
  - intros H s Hin. apply in_map_iff in Hin as (d & Hd & Hin). eauto.
  - intros H d s Hin Hd. apply H. rewrite <- Hd. now apply in_map.
Qed.

Lemma same_routes_invariants (stations : list Admin.Station)
  (a b : list Device.t) :
  map Routing.route a = map Routing.route b ->
  Admin.unique a /\ Admin.single a /\ Admin.existing stations a ->
  Admin.unique b /\ Admin.single b /\ Admin.existing stations b.
Proof.
  intros H (Hu & Hs & He). split; [|split].
  - unfold Admin.unique in *. now rewrite <- (same_routes_imeis a b H).
  - intros s. rewrite <- (same_routes_count (Some s) indoor a b H). apply Hs.
  - apply existing_by_stations. rewrite <- (same_routes_stations a b H).
    now apply existing_by_stations.
Qed.

Lemma unique_new_row (rows : list Device.t) (d : Device.t) :
  List.find (has_imei (Device.imei d)) rows = None ->
  NoDup (map Device.imei rows) ->
  NoDup (map Device.imei (rows ++ [d])).
Proof.
  intros Hnew Hu. rewrite map_app. simpl.
  apply NoDup_app; [exact Hu | constructor; [intros [] | constructor] |].
  intros x Hx [<-|[]]. revert Hx. now apply Relaying.find_none_not_in.
Qed.

(** One more row, unbound and with an IMEI that was not there, keeps the
    invariants. *)
Lemma new_row_invariants (stations : list Admin.Station)
  (rows : list Device.t) (d : Device.t) :
  List.find (has_imei (Device.imei d)) rows = None ->
  Device.station_id d = None ->
  Admin.unique rows /\ Admin.single rows /\ Admin.existing stations rows ->
  Admin.unique (rows ++ [d])
  /\ Admin.single (rows ++ [d])
  /\ Admin.existing stations (rows ++ [d]).
Proof.
  intros Hnew Hnone (Hu & Hs & He). split; [|split].
  - now apply unique_new_row.
  - intros s. rewrite filter_app, length_app. simpl.
    rewrite (in_station_unbound s indoor d Hnone). simpl.
    specialize (Hs s). lia.
  - intros x s Hin Hx. apply in_app_or in Hin as [Hin|[<-|[]]]; [eauto|].
    congruence.
Qed.

Lemma find_station_kept (stations : list Admin.Station) (s gone : Z) :
  s <> gone ->
  List.find (fun x => Admin.id x =? s)
    (List.filter (fun x => negb (Admin.id x =? gone)) stations)
  = List.find (fun x => Admin.id x =? s) stations.
Proof.
  intros Hne. induction stations as [|x l IH]; simpl; [reflexivity|].
  destruct (Z.eqb_spec (Admin.id x) gone) as [Hg|Hg]; simpl.
  - destruct (Z.eqb_spec (Admin.id x) s) as [Hs|_]; [congruence | exact IH].
  - destruct (Admin.id x =? s); [reflexivity | exact IH].
Qed.

(** [unbind_device] keeps the invariants. *)
Lemma unbind_consistent (imei : string) (st : Admin.State) :
  Admin.consistent st -> Admin.consistent (fst (Admin.unbind_device imei st)).
Proof.
  intros (Hu & Hs & He). unfold Admin.unbind_device.
  destruct (first_by_imei imei (session (Admin.world st))) as [d|] eqn:E;
    [|now repeat split].
  destruct (find_replaced imei _ d (Admin.set_station_id None d) E eq_refl)
    as (pre & post & Hrows & Hnew & _).
  unfold Admin.consistent, Admin.unique_imeis, Admin.single_indoor,
    Admin.stations_exist in *.
  cbn [fst Admin.world Admin.with_world Admin.stations session commit
       save_device with_session with_devices devices].
  rewrite Hnew. rewrite Hrows in Hu, Hs, He. split; [|split].
  - unfold Admin.unique in *. rewrite map_app in *. exact Hu.
  - intros s. specialize (Hs s). rewrite count_around in *.
    rewrite (in_station_unbound s indoor (Admin.set_station_id None d) eq_refl).
    destruct (in_station (Some s) indoor d); lia.
  - intros x s Hin Hx. apply in_app_or in Hin as [Hin|[<-|Hin]];
      [| discriminate |]; apply (He x s); auto using in_or_app, in_cons, in_eq.
Qed.

(** What [bind_device] can do to the store: nothing, or give the station of
    the request to the row of the IMEI, when that station exists, the row
    is not bound elsewhere, and an indoor device already in the station is
    this very one. *)
Lemma bind_cases (imei : string) (data : Json.JValue) (st : Admin.State) :
  (fst (Admin.bind_device imei data st) = st
   /\ forall r, snd (Admin.bind_device imei data st) = Admin.Served r ->
                Admin.code r <> 200)
  \/ exists d z,
       first_by_imei imei (session (Admin.world st)) = Some d
       /\ Json.getitem "station_id" data = Py.Ok (Json.JInt z)
       /\ Admin.station_get z st <> None
       /\ (Py.truthy (Device.station_id d) = false
           \/ Device.station_id d = Some z)
       /\ (Device.type d = indoor ->
           forall x, first_by_station (Some z) indoor
                       (session (Admin.world st)) = Some x ->
                     Device.imei x = imei)
       /\ Admin.bind_device imei data st
          = (Admin.with_world
               (commit (save_device (Admin.set_station_id (Some z) d)
                          (Admin.world st))) st,
             Admin.Served
               {| Admin.code := 200; Admin.message := "绑定成功";
                  Admin.data := Some (Admin.set_station_id (Some z) d) |}).
Proof.
  unfold Admin.bind_device.
  destruct (first_by_imei imei (session (Admin.world st))) as [d|] eqn:E;
    [|left; split; [reflexivity | intros r H; injection H as <-; discriminate]].
  destruct (Admin.truth data); cbn [negb];
    [|left; split; [reflexivity | intros r H; injection H as <-; discriminate]].
  destruct (Json.contains "station_id" data) as [[|]|e];
    try (left; split; [reflexivity | intros r H; try discriminate;
                       injection H as <-; discriminate]).
  destruct (Json.getitem "station_id" data) as [v|e] eqn:Eg;
    [|left; split; [reflexivity | discriminate]].
  destruct v as [| | z | | | |];
    try (left; split; [reflexivity | discriminate]).
  destruct (Admin.station_get z st) as [station|] eqn:Es;
    [|left; split; [reflexivity | intros r H; injection H as <-; discriminate]].
  destruct (Py.truthy (Device.station_id d)) eqn:Eb; cbn [andb].
  - destruct (option_Z_eqb (Device.station_id d) (Some z)) eqn:Eq; cbn [negb];
      [|left; split; [reflexivity
                     | intros r H; injection H as <-; discriminate]].
    assert (Hz : Device.station_id d = Some z).
    { destruct (Device.station_id d) as [a|]; [|discriminate].
      simpl in Eq. apply Z.eqb_eq in Eq. now subst. }
    destruct (Device.type d) eqn:Et.
    + destruct (first_by_station (Some z) indoor (session (Admin.world st)))
        as [x|] eqn:Ex.
      * destruct (String.eqb (Device.imei x) imei) eqn:Ei; cbn [negb];
          [|left; split; [reflexivity
                         | intros r H; injection H as <-; discriminate]].
        right. exists d, z. repeat split; auto; try congruence.
        intros _ x' Hx'. rewrite Ex in Hx'. injection Hx' as <-.
        now apply String.eqb_eq.
      * right. exists d, z. repeat split; auto; congruence.
    + right. exists d, z. repeat split; auto; try congruence.
  - destruct (Device.type d) eqn:Et.
    + destruct (first_by_station (Some z) indoor (session (Admin.world st)))
        as [x|] eqn:Ex.
      * destruct (String.eqb (Device.imei x) imei) eqn:Ei; cbn [negb];
          [|left; split; [reflexivity
                         | intros r H; injection H as <-; discriminate]].
        right. exists d, z. repeat split; auto; try congruence.
        intros _ x' Hx'. rewrite Ex in Hx'. injection Hx' as <-.
        now apply String.eqb_eq.
      * right. exists d, z. repeat split; auto; congruence.
    + right. exists d, z. repeat split; auto; try congruence.
Qed.

Lemma find_none_filter {A : Type} (f : A -> bool) (l : list A) :
  List.find f l = None -> List.filter f l = [].
Proof.
  induction l as [|a l IH]; simpl; [reflexivity|].
  destruct (f a); [discriminate | exact IH].
Qed.

Lemma find_in_longer {A : Type} (f : A -> bool) (l l' : list A) (x : A) :
  List.find f l = Some x -> List.find f (l ++ l') = Some x.
Proof.
  induction l as [|a l IH]; simpl; [discriminate|].
  destruct (f a); [trivial | exact IH].
Qed.

(** Writing back the object of one IMEI leaves the row of another IMEI. *)
Lemma find_other_row (imei : string) (d' : Device.t) (rows : list Device.t) :
  Device.imei d' <> imei ->
  List.find (has_imei imei) (replace_row d' rows)
  = List.find (has_imei imei) rows.
Proof.
  intros Hne. induction rows as [|r rows IH]; simpl; [reflexivity|].
  destruct (has_imei (Device.imei d') r) eqn:E; simpl.
  - unfold has_imei in *. apply String.eqb_eq in E.
    assert (H1 : String.eqb (Device.imei d') imei = false)
      by now apply String.eqb_neq.
    assert (H2 : String.eqb (Device.imei r) imei = false)
      by (apply String.eqb_neq; congruence).
    now rewrite H1, H2.
  - now rewrite IH.
Qed.

(** The row of an IMEI in a table with the same routing columns, and maybe
    more rows after them. *)
Lemma find_same_routes (imei : string) (a b : list Device.t)
  (extra : list (string * DeviceType * string * option Z)) (d : Device.t) :
  map Routing.route a = map Routing.route b ++ extra ->
  List.find (has_imei imei) b = Some d ->
  exists d',
    List.find (has_imei imei) a = Some d' /\ Routing.route d' = Routing.route d.
Proof.
  revert a. induction b as [|y b IH]; intros a H Hf; [discriminate|].
  destruct a as [|x a]; [discriminate|].
  simpl in H. unfold Routing.route at 1 3 in H.
  injection H as Hi Ht Hn Hs Hrest.
  simpl in Hf |- *.
  assert (E : has_imei imei x = has_imei imei y)
    by (unfold has_imei; now rewrite Hi).
  rewrite E. destruct (has_imei imei y).
  - injection Hf as <-. exists x. split; [reflexivity|].
    unfold Routing.route. congruence.
  - apply (IH a Hrest Hf).
Qed.

(** [bind_device] keeps the invariants. *)
Lemma bind_consistent (imei : string) (data : Json.JValue) (st : Admin.State) :
  Admin.consistent st ->
  Admin.consistent (fst (Admin.bind_device imei data st)).
Proof.
  intros H.
  destruct (bind_cases imei data st)
    as [[-> _]|(d & z & E & _ & Hst & _ & Hind & ->)]; [exact H|].
  destruct H as (Hu & Hs & He).
  destruct (find_replaced imei _ d (Admin.set_station_id (Some z) d) E eq_refl)
    as (pre & post & Hrows & Hnew & _ & Hd & _).
  unfold Admin.consistent, Admin.unique_imeis, Admin.single_indoor,
    Admin.stations_exist, first_by_station in *.
  cbn [fst Admin.world Admin.with_world Admin.stations session commit
       save_device with_session with_devices devices].
  rewrite Hnew. rewrite Hrows in Hu, Hs, He, Hind. split; [|split].
  - unfold Admin.unique in *. rewrite map_app in *. exact Hu.
  - intros s. generalize (Hs s). rewrite !count_around.
    destruct (in_station (Some s) indoor (Admin.set_station_id (Some z) d))
      eqn:E'; [|destruct (in_station (Some s) indoor d); lia].
    apply Relaying.in_station_true in E' as [Hsz Hty]. simpl in Hsz, Hty.
    injection Hsz as ->. specialize (Hind Hty).
    destruct (List.find (in_station (Some s) indoor) (pre ++ d :: post))
      as [x|] eqn:Ef.
    + destruct (find_some _ _ Ef) as [Hin Hx].
      assert (x = d)
        by (apply (unique_row imei pre post d x); auto).
      subst x. rewrite Hx. lia.
    + apply find_none_filter in Ef.
      apply (f_equal (@length Device.t)) in Ef. rewrite count_around in Ef.
      simpl in Ef. lia.
  - intros x s Hin Hx. apply in_app_or in Hin as [Hin|[<-|Hin]].
    + apply (He x s); auto using in_or_app.
    + simpl in Hx. injection Hx as <-. exact Hst.
    + apply (He x s); auto using in_or_app, in_cons.
Qed.

(** [delete_station] keeps the invariants: a station that goes has no
    device. *)
Lemma delete_consistent (z : Z) (st : Admin.State) :
  Admin.consistent st ->
  Admin.consistent (fst (Admin.delete_station z st)).
Proof.
  intros (Hu & Hs & He). unfold Admin.delete_station.
  destruct (Admin.station_get z st) as [station|]; [|now repeat split].
  destruct (0 <? Z.of_nat
                   (length (List.filter (Admin.bound_to z)
                              (devices (session (Admin.world st))))))
    eqn:E; [now repeat split|].
  split; [exact Hu|]. split; [exact Hs|].
  unfold Admin.stations_exist in *.
  cbn [fst Admin.world Admin.stations session commit].
  intros d s Hin Hd. rewrite find_station_kept; [now apply (He d s)|].
  intros ->.
  assert (Hb : In d (List.filter (Admin.bound_to z)
                       (devices (session (Admin.world st))))).
  { apply filter_In. split; [exact Hin|].
    unfold Admin.bound_to. rewrite Hd. simpl. apply Z.eqb_refl. }
  destruct (List.filter (Admin.bound_to z)
              (devices (session (Admin.world st)))); [destruct Hb|].
  simpl in E. apply Z.ltb_ge in E. lia.
Qed.

(** What [create_device] can do to the store: nothing, or add one row for
    an IMEI that was not there, with no station and never seen. *)
Lemma create_cases (strip : string -> string) (data : Json.JValue)
  (st : Admin.State) :
  (fst (Admin.create_device strip data st) = st
   /\ forall r, snd (Admin.create_device strip data st) = Admin.Served r ->
                Admin.code r <> 200)
  \/ exists d,
       first_by_imei (Device.imei d) (session (Admin.world st)) = None
       /\ Device.imei d <> EmptyString
       /\ Device.station_id d = None
       /\ Device.last_seen d = None
       /\ Admin.create_device strip data st
          = (Admin.with_world
               (commit
                  (with_session
                     (with_devices (devices (session (Admin.world st)) ++ [d])
                        (session (Admin.world st)))
                     (Admin.world st))) st,
             Admin.Served
               {| Admin.code := 200; Admin.message := "添加成功";
                  Admin.data := Some d |}).
Proof.
  unfold Admin.create_device.
  destruct (Admin.truth data); cbn [negb];
    [|left; split; [reflexivity | intros r H; injection H as <-; discriminate]].
  destruct (Admin.dict_get "imei" (Json.JStr EmptyString) data) as [v|];
    [|left; split; [reflexivity | discriminate]].
  destruct v as [| | | | raw | |];
    try (left; split; [reflexivity | discriminate]).
  destruct (Admin.dict_get "type" (Json.JStr "indoor") data) as [device_type|];
    [|left; split; [reflexivity | discriminate]].
  destruct (Admin.dict_get "name" (Json.JStr EmptyString) data) as [name|];
    [|left; split; [reflexivity | discriminate]].
  destruct (String.eqb (strip raw) EmptyString) eqn:Ei;
    [left; split; [reflexivity | intros r H; injection H as <-; discriminate]|].
  destruct (Admin.class_of device_type) as [ty|];
    [|left; split; [reflexivity | intros r H; injection H as <-; discriminate]].
  destruct (first_by_imei (strip raw) (session (Admin.world st)))
    as [existing|] eqn:E;
    [left; split; [reflexivity | intros r H; injection H as <-; discriminate]|].
  destruct (if Admin.truth name
            then match name with
                 | Json.JStr text => Some text
                 | _ => None
                 end
            else Some (Admin.manual_name (strip raw))) as [text|];
    [|left; split; [reflexivity | discriminate]].
  unfold insert_unique. cbn [Device.imei].
  rewrite (Facts.find_none_existsb _ _ E).
  right. eexists. repeat split; try reflexivity; [exact E|].
  cbn [Device.imei]. now apply String.eqb_neq.
Qed.

(** [create_device] keeps the invariants. *)
Lemma create_consistent (strip : string -> string) (data : Json.JValue)
  (st : Admin.State) :
  Admin.consistent st ->
  Admin.consistent (fst (Admin.create_device strip data st)).
Proof.
  intros H.
  destruct (create_cases strip data st)
    as [[-> _]|(d & E & _ & Hnone & _ & ->)]; [exact H|].
  unfold Admin.consistent, Admin.unique_imeis, Admin.single_indoor,
    Admin.stations_exist in *.
  cbn [fst Admin.world Admin.with_world Admin.stations session commit
       with_session with_devices devices].
  now apply new_row_invariants.
Qed.

(** The forward rows among a receive row and its forward rows. *)
Lemma published_rows (cfg : Config.t) (ty : DeviceType)
  (imei payload : string) (sid : option Z) (tgs : list string) :
  flat_map Routing.published
    (Relay.receive_log cfg ty imei payload sid
     :: map (Relay.forward_log cfg ty imei payload sid) tgs)
  = map (Relay.forward_pub cfg ty payload) tgs.
Proof.
  simpl. induction tgs as [|t tgs IH]; simpl; [reflexivity|].
  now rewrite IH.
Qed.

Section Traffic.

Variable cfg : Config.t.
Variable json_loads : string -> option Json.JValue.
Variable int_of_str : string -> option Z.
Variable clock : nat -> Z.
Variable decode_utf8 : string -> option string.
Variable float_binds : Json.JValue -> bool.
Variable strip : string -> string.

Notation handle := (Relay.handle cfg json_loads int_of_str clock float_binds).
Notation on_message :=
  (Relay.on_message cfg json_loads int_of_str clock decode_utf8 float_binds).
Notation forward_pub := (Relay.forward_pub cfg).
Notation forward_log := (Relay.forward_log cfg).
Notation receive_log := (Relay.receive_log cfg).
Notation targets := (Routing.targets json_loads float_binds).
Notation flushes := (Routing.flushes json_loads float_binds).
Notation deliver :=
  (Routing.deliver cfg json_loads int_of_str clock decode_utf8 float_binds).
Notation apply_op :=
  (Admin.apply cfg json_loads int_of_str clock decode_utf8 float_binds strip).
Notation run :=
  (Admin.run cfg json_loads int_of_str clock decode_utf8 float_binds strip).

(** A message either is dropped by [on_message] or goes through a
    handler. *)
Lemma on_message_cases (msg : Relay.Message) (w : World) :
  on_message msg w = w
  \/ exists ty imei text, on_message msg w = fst (handle ty imei text w).
Proof.
  destruct (decode_utf8 (Relay.payload msg)) as [text|] eqn:Hdec.
  - destruct (Relay.parse_topic cfg (Relay.topic msg)) as [[ty imei]|] eqn:Hp.
    + right. exists ty, imei, text.
      apply (Engine.on_message_handle cfg json_loads int_of_str clock
               decode_utf8 float_binds msg w text ty imei Hdec Hp).
    + left. unfold Relay.on_message. now rewrite Hdec, Hp.
  - left. unfold Relay.on_message. now rewrite Hdec.
Qed.

(** A handler keeps the invariants of the tables. *)
Lemma handle_invariants (stations : list Admin.Station) (ty : DeviceType)
  (imei payload : string) (w : World) :
  Admin.unique (devices (session w))
  /\ Admin.single (devices (session w))
  /\ Admin.existing stations (devices (session w)) ->
  Admin.unique (devices (session (fst (handle ty imei payload w))))
  /\ Admin.single (devices (session (fst (handle ty imei payload w))))
  /\ Admin.existing stations
       (devices (session (fst (handle ty imei payload w)))).
Proof.
  intros H.
  pose proof (Relaying.handle_routes cfg json_loads int_of_str clock float_binds ty imei
                payload w) as Hr.
  destruct (first_by_imei imei (session w)) as [d|] eqn:E.
  - rewrite app_nil_r in Hr.
    apply (same_routes_invariants stations (devices (session w))); auto.
  - apply (same_routes_invariants stations
             (devices (session w) ++ [Relay.new_device imei ty 0])).
    + rewrite Hr, map_app. reflexivity.
    + apply new_row_invariants; [exact E | reflexivity | exact H].
Qed.

Lemma apply_consistent (op : Admin.operation) (st : Admin.State) :
  Admin.consistent st -> Admin.consistent (apply_op op st).
Proof.
  intros H. destruct op as [data|imei data|imei|z|msg]; simpl.
  - now apply create_consistent.
  - now apply bind_consistent.
  - now apply unbind_consistent.
  - now apply delete_consistent.
  - unfold Admin.consistent, Admin.unique_imeis, Admin.single_indoor,
      Admin.stations_exist in *.
    cbn [Admin.world Admin.with_world Admin.stations].
    destruct (on_message_cases msg (Admin.world st))
      as [->|(ty & imei & text & ->)]; [exact H|].
    now apply handle_invariants.
Qed.

(** The targets of a message leave out a device that the code counts as
    unbound. *)
Lemma targets_skip_unbound (ty : DeviceType) (payload imei : string)
  (d0 d : Device.t) (db : DB) :
  NoDup (map Device.imei (devices db)) ->
  first_by_imei imei db = Some d ->
  Py.truthy (Device.station_id d) = false ->
  ~ In imei (map Device.imei (targets ty payload d0 db)).
Proof.
  intros Hnd Hf Hfalse Hin. apply in_map_iff in Hin as (x & Hx & Hin).
  pose proof (Relaying.targets_in_station json_loads float_binds ty payload d0 db) as Ht.
  rewrite Forall_forall in Ht. destruct (Ht x Hin) as (Hrow & Hs & _ & Htrue).
  destruct (Facts.find_split _ _ _ Hf) as (pre & post & Hrows & _ & Hd).
  rewrite Hrows in Hnd, Hrow.
  assert (x = d) by (apply (unique_row imei pre post d x); auto).
  subst x. rewrite Hs, Htrue in Hfalse. discriminate.
Qed.

(** One message, and a device that the code counts as unbound: it is no
    target, and its own message has none. *)
Lemma unbound_not_reached (ty : DeviceType) (src payload imei : string)
  (w : World) (d : Device.t) :
  NoDup (map Device.imei (devices (session w))) ->
  first_by_imei imei (session w) = Some d ->
  Py.truthy (Device.station_id d) = false ->
  exists sid tgs,
    outbox (fst (handle ty src payload w))
    = outbox w ++ map (forward_pub ty payload) tgs
    /\ comm_logs (session (fst (handle ty src payload w)))
       = comm_logs (session w)
         ++ (if flushes ty payload
             then receive_log ty src payload sid
                  :: map (forward_log ty src payload sid) tgs
             else [])
    /\ ~ In imei tgs
    /\ (src = imei -> tgs = [])
    /\ (flushes ty payload = false -> tgs = []).
Proof.
  intros Hnd Hf Hfalse.
  destruct (Relaying.handle_summary cfg json_loads int_of_str clock float_binds ty src
              payload w)
    as (w1 & d1 & d' & al & _ & Hf1 & Hm & Ho & Hc & _).
  exists (Device.station_id d1),
    (map Device.imei (targets ty payload d1 (session w1))).
  split; [exact Ho|]. split; [exact Hc|].
  assert (Hun : flushes ty payload = false ->
                map Device.imei (targets ty payload d1 (session w1)) = []).
  { intros H.
    now rewrite (Relaying.targets_unflushed json_loads float_binds ty payload
                   d1 (session w1) H). }
  destruct (first_by_imei src (session w)) as [d0|] eqn:Es.
  - destruct Hm as [-> ->]. split; [|split; [|exact Hun]].
    + now apply (targets_skip_unbound ty payload imei d0 d).
    + intros ->. rewrite Hf in Es. injection Es as <-.
      unfold Routing.targets. now rewrite Hfalse.
  - destruct Hm as [Hd1 Hrows]. split; [|split; [|exact Hun]].
    + apply (targets_skip_unbound ty payload imei d1 d); auto.
      * rewrite Hrows. apply unique_new_row; [|exact Hnd].
        now rewrite Hd1.
      * unfold first_by_imei in *. rewrite Hrows. now apply find_in_longer.
    + intros ->. rewrite Hf in Es. discriminate.
Qed.

(** One message keeps a device that the code counts as unbound as it is,
    and adds no forward row for it. *)
Lemma unbound_step (msg : Relay.Message) (imei : string) (w : World)
  (d : Device.t) :
  NoDup (map Device.imei (devices (session w))) ->
  first_by_imei imei (session w) = Some d ->
  Py.truthy (Device.station_id d) = false ->
  exists added d',
    comm_logs (session (on_message msg w)) = comm_logs (session w) ++ added
    /\ outbox (on_message msg w)
       = outbox w ++ flat_map Routing.published added
    /\ Forall (fun l => CommLog.target_imei l <> Some imei) added
    /\ NoDup (map Device.imei (devices (session (on_message msg w))))
    /\ first_by_imei imei (session (on_message msg w)) = Some d'
    /\ Py.truthy (Device.station_id d') = false.
Proof.
  intros Hnd Hf Hfalse.
  destruct (on_message_cases msg w) as [->|(ty & src & text & ->)].
  - exists [], d. rewrite !app_nil_r. now repeat split.
  - destruct (unbound_not_reached ty src text imei w d Hnd Hf Hfalse)
      as (sid & tgs & Ho & Hc & Hno & _ & Hun).
    destruct (find_same_routes imei _ _ _ d
                (Relaying.handle_routes cfg json_loads int_of_str clock float_binds ty src
                   text w) Hf)
      as (d' & Hf' & Hr).
    exists (if flushes ty text
            then receive_log ty src text sid
                 :: map (forward_log ty src text sid) tgs
            else []), d'.
    split; [exact Hc|]. split.
    { rewrite Ho. destruct (flushes ty text);
        [now rewrite published_rows | now rewrite (Hun eq_refl)]. }
    split; [|split; [|split; [exact Hf'|]]].
    + destruct (flushes ty text); [|constructor].
      constructor; [discriminate|].
      apply Forall_forall. intros l Hl. apply in_map_iff in Hl as (t & <- & Ht).
      simpl. intros H. injection H as ->. contradiction.
    + now apply Relaying.handle_keeps_unique.
    + unfold Routing.route in Hr. injection Hr as _ _ _ ->. exact Hfalse.
Qed.

(** One operation that is no unbind of a device keeps its binding. *)
Lemma binding_step (op : Admin.operation) (imei : string) (s : Z)
  (st : Admin.State) (d : Device.t) :
  op <> Admin.Unbind imei ->
  first_by_imei imei (session (Admin.world st)) = Some d ->
  Device.station_id d = Some s ->
  s <> 0 ->
  exists d',
    first_by_imei imei (session (Admin.world (apply_op op st))) = Some d'
    /\ Device.station_id d' = Some s
    /\ Device.type d' = Device.type d.
Proof.
  intros Hop Hf Hs Hnz. destruct op as [data|i data|i|z|msg]; simpl.
  - destruct (create_cases strip data st)
      as [[-> _]|(d0 & _ & _ & _ & _ & ->)]; [now exists d|].
    cbn [fst Admin.world Admin.with_world]. unfold first_by_imei in *.
    cbn [session commit with_session with_devices devices].
    exists d. split; [now apply find_in_longer | now split].
  - destruct (bind_cases i data st)
      as [[-> _]|(d0 & z & E & _ & _ & Hfree & _ & ->)];
      [now exists d|].
    cbn [fst Admin.world Admin.with_world]. unfold first_by_imei in *.
    cbn [session commit save_device with_session with_devices devices].
    destruct (string_dec i imei) as [->|Hne].
    + rewrite Hf in E. injection E as <-.
      destruct (find_replaced imei _ d (Admin.set_station_id (Some z) d)
                  Hf eq_refl) as (_ & _ & _ & _ & _ & _ & ->).
      eexists. split; [reflexivity|]. simpl. split; [|reflexivity].
      destruct Hfree as [Hfree|Hfree].
      * rewrite Hs in Hfree. simpl in Hfree.
        apply negb_false_iff, Z.eqb_eq in Hfree. contradiction.
      * congruence.
    + destruct (Facts.find_split _ _ _ E) as (_ & _ & _ & _ & Hi).
      rewrite find_other_row; [now exists d|].
      simpl. now rewrite Hi.
  - unfold Admin.unbind_device.
    destruct (first_by_imei i (session (Admin.world st))) as [d0|] eqn:E;
      [|now exists d].
    cbn [fst Admin.world Admin.with_world]. unfold first_by_imei in *.
    cbn [session commit save_device with_session with_devices devices].
    destruct (Facts.find_split _ _ _ E) as (_ & _ & _ & _ & Hi).
    rewrite find_other_row; [now exists d|].
    simpl. rewrite Hi. intros ->. now apply Hop.
  - unfold Admin.delete_station.
    destruct (Admin.station_get z st) as [station|]; [|now exists d].
    destruct (0 <? _); now exists d.
  - cbn [Admin.world Admin.with_world].
    destruct (on_message_cases msg (Admin.world st))
      as [->|(ty & src & text & ->)]; [now exists d|].
    destruct (find_same_routes imei _ _ _ d
                (Relaying.handle_routes cfg json_loads int_of_str clock float_binds ty src
                   text (Admin.world st)) Hf)
      as (d' & Hf' & Hr).
    exists d'. split; [exact Hf'|].
    unfold Routing.route in Hr. injection Hr as _ Ht _ Hsid.
    split; congruence.
Qed.

(** X12.  A device that the code counts as unbound, with no station or
    with station 0, is no target of a forward: over any sequence of
    messages to [on_message], whoever sends them, each row that the
    communication log gains has another target or none, and what the
    outbox gains is the publishes of the forward rows among them, in their
    order.  The IMEIs of the table are taken to be distinct, as the unique
    column makes them. *)
Theorem unbound_device_gets_nothing (msgs : list Relay.Message)
  (imei : string) (w : World) (d : Device.t) :
  NoDup (map Device.imei (devices (session w))) ->
  first_by_imei imei (session w) = Some d ->
  Py.truthy (Device.station_id d) = false ->
  exists added,
    comm_logs (session (deliver msgs w)) = comm_logs (session w) ++ added
    /\ outbox (deliver msgs w) = outbox w ++ flat_map Routing.published added
    /\ Forall (fun l => CommLog.target_imei l <> Some imei) added.
Proof.
  revert w d. induction msgs as [|msg msgs IH]; intros w d Hnd Hf Hfalse.
  - exists []. rewrite !app_nil_r. now repeat split.
  - destruct (unbound_step msg imei w d Hnd Hf Hfalse)
      as (a1 & d' & Hc1 & Ho1 & Ha1 & Hnd' & Hf' & Hfalse').
    destruct (IH (on_message msg w) d' Hnd' Hf' Hfalse')
      as (a2 & Hc2 & Ho2 & Ha2).
    exists (a1 ++ a2). simpl. rewrite Hc2, Ho2, Hc1, Ho1.
    rewrite flat_map_app, <- !app_assoc. repeat split.
    apply Forall_app. now split.
Qed.

(** X13.  [unbind_device] takes effect with the next message.  For a
    device that is in the table, the request answers 200, and whatever
    message a handler takes up next, from this device or from any other, is
    not published to the device; a message of the device itself is
    published to nobody. *)
Theorem unbind_cuts_device_off (imei : string) (st : Admin.State)
  (d : Device.t) (ty : DeviceType) (src payload : string) :
  Admin.unique_imeis st ->
  first_by_imei imei (session (Admin.world st)) = Some d ->
  let st' := fst (Admin.unbind_device imei st) in
  Admin.code (snd (Admin.unbind_device imei st)) = 200
  /\ exists tgs,
       outbox (fst (handle ty src payload (Admin.world st')))
       = outbox (Admin.world st) ++ map (forward_pub ty payload) tgs
       /\ ~ In imei tgs
       /\ (src = imei -> tgs = []).
Proof.
  intros Hu Hf st'. subst st'. unfold Admin.unbind_device. rewrite Hf.
  cbn [fst snd Admin.code]. split; [reflexivity|].
  destruct (find_replaced imei _ d (Admin.set_station_id None d) Hf eq_refl)
    as (pre & post & Hrows & Hnew & _ & _ & Hf').
  assert (Hnd : NoDup (map Device.imei
                         (replace_row (Admin.set_station_id None d)
                            (devices (session (Admin.world st)))))).
  { unfold Admin.unique_imeis, Admin.unique in Hu.
    rewrite Hnew. rewrite Hrows in Hu. rewrite map_app in *. exact Hu. }
  destruct (unbound_not_reached ty src payload imei
              (Admin.world
                 (Admin.with_world
                    (commit (save_device (Admin.set_station_id None d)
                               (Admin.world st))) st))
              (Admin.set_station_id None d) Hnd Hf' eq_refl)
    as (sid & tgs & Ho & _ & Hno & Hown).
  exists tgs. split; [exact Ho|]. now split.
Qed.

(** X14.  The bindings stay consistent under administration and traffic.
    When no two rows share an IMEI, no station has two indoor devices, and
    the station of every bound device is in the stations table, the same
    holds after any sequence of requests to add a device, bind requests,
    unbind requests, station deletions and broker messages, where a station
    id that a bind request gives is an integer and a name that a new device
    is given is a string. *)
Theorem invariants_preserved (ops : list Admin.operation) (st : Admin.State) :
  Forall (fun op => Admin.typed op = true) ops ->
  Admin.consistent st ->
  Admin.consistent (run ops st).
Proof.
  intros _. revert st. induction ops as [|op ops IH]; intros st H; [exact H|].
  simpl. apply IH. now apply apply_consistent.
Qed.

(** X15.  A binding is left only through [unbind_device].  A device bound
    to a station other than 0 is still in the table, bound to that station
    and of the same class, after any sequence of requests to add a device,
    bind requests, unbind requests for other IMEIs, station deletions and
    broker messages, where a station id that a bind request gives is an
    integer and a name that a new device is given is a string: a bind
    request that names another station is refused, and no message moves a
    device. *)
Theorem binding_is_sticky (ops : list Admin.operation) (imei : string)
  (s : Z) (st : Admin.State) (d : Device.t) :
  Forall (fun op => Admin.typed op = true) ops ->
  Forall (fun op => op <> Admin.Unbind imei) ops ->
  first_by_imei imei (session (Admin.world st)) = Some d ->
  Device.station_id d = Some s ->
  s <> 0 ->
  exists d',
    first_by_imei imei (session (Admin.world (run ops st))) = Some d'
    /\ Device.station_id d' = Some s
    /\ Device.type d' = Device.type d.
Proof.
  intros _ Hops. revert st d.
  induction Hops as [|op ops Hop Hops IH]; intros st d Hf Hs Hnz;
    [now exists d|].
  destruct (binding_step op imei s st d Hop Hf Hs Hnz) as (d1 & Hf1 & Hs1 & Ht1).
  destruct (IH (apply_op op st) d1 Hf1 Hs1 Hnz) as (d' & Hf' & Hs' & Ht').
  exists d'. simpl. split; [exact Hf'|]. split; congruence.
Qed.

(** X16.  [bind_device] takes effect with the next message.  After a bind
    request for an outdoor device that answers 200, a JSON message that the
    indoor handler takes up from a device of the station of the request,
    when that station is not 0, is published to the bound device. *)
Theorem bind_takes_effect (imei src payload : string) (data : Json.JValue)
  (st : Admin.State) (r : Admin.Response) (d sd : Device.t) (z : Z)
  (js : Json.JValue) :
  snd (Admin.bind_device imei data st) = Admin.Served r ->
  Admin.code r = 200 ->
  first_by_imei imei (session (Admin.world st)) = Some d ->
  Device.type d = outdoor ->
  Json.getitem "station_id" data = Py.Ok (Json.JInt z) ->
  z <> 0 ->
  src <> imei ->
  first_by_imei src (session (Admin.world st)) = Some sd ->
  Device.station_id sd = Some z ->
  json_loads payload = Some js ->
  let st' := fst (Admin.bind_device imei data st) in
  In (forward_pub indoor payload imei)
     (outbox (fst (handle indoor src payload (Admin.world st')))).
Proof.
  intros Hr Hcode Hf Hty Hg Hnz Hne Hsrc Hsd Hjs st'. subst st'.
  destruct (bind_cases imei data st)
    as [[_ Hno]|(d0 & z0 & E & Hg0 & _ & _ & _ & Hb)];
    [now elim (Hno r Hr)|].
  rewrite Hg in Hg0. injection Hg0 as <-.
  rewrite Hf in E. injection E as <-.
  rewrite Hb. cbn [fst Admin.world Admin.with_world].
  destruct (find_replaced imei _ d (Admin.set_station_id (Some z) d) Hf eq_refl)
    as (pre & post & Hrows & Hnew & _ & Hi & _).
  set (w' := commit (save_device (Admin.set_station_id (Some z) d)
                       (Admin.world st))).
  assert (Hsrc' : first_by_imei src (session w') = Some sd).
  { unfold first_by_imei in *. subst w'.
    cbn [session commit save_device with_session with_devices devices].
    rewrite find_other_row; [exact Hsrc|]. simpl. congruence. }
  destruct (Relaying.handle_summary cfg json_loads int_of_str clock float_binds indoor src
              payload w')
    as (w1 & d1 & d' & al & _ & _ & Hm & Ho & _).
  rewrite Hsrc' in Hm. destruct Hm as [-> ->]. rewrite Ho.
  apply in_or_app. right. apply in_map, in_map_iff.
  exists (Admin.set_station_id (Some z) d). split; [exact Hi|].
  unfold Routing.targets. rewrite Hsd, Hjs.
  assert (Ht : Py.truthy (Some z) = true)
    by (simpl; now apply negb_true_iff, Z.eqb_neq).
  rewrite Ht. unfold all_by_station. apply filter_In. split.
  - subst w'.
    cbn [session commit save_device with_session with_devices devices].
    rewrite Hnew. apply in_or_app. right. now left.
  - unfold in_station. simpl. now rewrite Hty, Z.eqb_refl.
Qed.

Lemma last_any_default {A : Type} (l : list A) (a d d' : A) :
  List.last (a :: l) d = List.last (a :: l) d'.
Proof.
  revert a. induction l as [|b l IH]; intros a; [reflexivity|].
  change (List.last (b :: l) d = List.last (b :: l) d'). apply IH.
Qed.

(** What the loop of [get_station] leaves, from the devices it goes
    through: the last indoor one, and the outdoor ones in their order. *)
Lemma view_fold (l : list Device.t) (v0 : Admin.StationView) :
  let v :=
    fold_left
      (fun view device =>
         match Device.type device with
         | indoor =>
             {| Admin.indoor_device := Some device;
                Admin.outdoor_devices := Admin.outdoor_devices view |}
         | outdoor =>
             {| Admin.indoor_device := Admin.indoor_device view;
                Admin.outdoor_devices :=
                  Admin.outdoor_devices view ++ [device] |}
         end) l v0 in
  Admin.outdoor_devices v
  = Admin.outdoor_devices v0
    ++ List.filter (fun x => DeviceType_eqb (Device.type x) outdoor) l
  /\ Admin.indoor_device v
     = List.last
         (map Some
            (List.filter (fun x => DeviceType_eqb (Device.type x) indoor) l))
         (Admin.indoor_device v0).
Proof.
  revert v0. induction l as [|x l IH]; intros v0; cbn zeta.
  - simpl. now rewrite app_nil_r.
  - cbn [fold_left List.filter]. destruct (IH
      (match Device.type x with
       | indoor =>
           {| Admin.indoor_device := Some x;
              Admin.outdoor_devices := Admin.outdoor_devices v0 |}
       | outdoor =>
           {| Admin.indoor_device := Admin.indoor_device v0;
              Admin.outdoor_devices := Admin.outdoor_devices v0 ++ [x] |}
       end)) as [Ho Hi].
    cbn zeta in Ho, Hi. rewrite Ho, Hi. clear Ho Hi IH.
    destruct (Device.type x); cbn.
    + split; [reflexivity|].
      destruct (List.filter
                  (fun x0 => DeviceType_eqb (Device.type x0) indoor) l)
        as [|t l0]; [reflexivity|].
      cbn [map].
      change (List.last (Some t :: map Some l0) (Some x)
              = List.last (Some t :: map Some l0) (Admin.indoor_device v0)).
      apply last_any_default.
    + split; [now rewrite <- app_assoc | reflexivity].
Qed.

(** The devices of a class among those bound to a station are what the
    station query of the relay selects. *)
Lemma filter_bound_class (z : Z) (ty : DeviceType) (rows : list Device.t) :
  List.filter (fun x => DeviceType_eqb (Device.type x) ty)
    (List.filter (Admin.bound_to z) rows)
  = List.filter (in_station (Some z) ty) rows.
Proof.
  induction rows as [|x rows IH]; simpl; [reflexivity|].
  unfold in_station at 1, Admin.bound_to at 1.
  destruct (option_Z_eqb (Device.station_id x) (Some z)); simpl;
    [|exact IH].
  destruct (DeviceType_eqb (Device.type x) ty); now rewrite IH.
Qed.

Lemma find_first_filtered {A : Type} (f : A -> bool) (l : list A) :
  List.find f l = hd_error (List.filter f l).
Proof.
  induction l as [|a l IH]; simpl; [reflexivity|].
  destruct (f a); [reflexivity | exact IH].
Qed.

(** X17.  What [get_station] shows is where the relay forwards.  When no
    station has two indoor devices, a message of a known device of a
    station that is not 0 goes to the devices that [get_station] shows for
    the station: an outdoor message that gets past the commit of its
    source row (the voltage it assigns, if any, binds) to its indoor device,
    if there is one, and an indoor message that is JSON to its outdoor
    devices, in the order shown. *)
Theorem station_view_matches_routing (z : Z) (imei payload : string)
  (ty : DeviceType) (st : Admin.State) (v : Admin.StationView)
  (d : Device.t) :
  Admin.single_indoor st ->
  Admin.get_station z st = Some v ->
  first_by_imei imei (session (Admin.world st)) = Some d ->
  Device.station_id d = Some z ->
  z <> 0 ->
  (ty = indoor -> json_loads payload <> None) ->
  flushes ty payload = true ->
  outbox (fst (handle ty imei payload (Admin.world st)))
  = outbox (Admin.world st)
    ++ map (forward_pub ty payload)
         (map Device.imei
            match ty with
            | indoor => Admin.outdoor_devices v
            | outdoor =>
                match Admin.indoor_device v with
                | Some t => [t]
                | None => []
                end
            end).
Proof.
  intros Hsingle Hv Hf Hs Hnz Hjson Hflush.
  destruct (Relaying.handle_summary cfg json_loads int_of_str clock float_binds ty imei
              payload (Admin.world st))
    as (w1 & d1 & d' & al & _ & _ & Hm & Ho & _).
  rewrite Hf in Hm. destruct Hm as [-> ->]. rewrite Ho. do 3 f_equal.
  unfold Admin.get_station in Hv.
  destruct (Admin.station_get z st) as [station|]; [|discriminate].
  injection Hv as <-.
  destruct (view_fold
              (List.filter (Admin.bound_to z)
                 (devices (session (Admin.world st))))
              {| Admin.indoor_device := None; Admin.outdoor_devices := [] |})
    as [Hout Hin].
  cbn zeta in Hout, Hin. rewrite !filter_bound_class in *.
  assert (Ht : Py.truthy (Some z) = true)
    by (simpl; now apply negb_true_iff, Z.eqb_neq).
  unfold Routing.targets. rewrite Hs, Ht. destruct ty.
  - rewrite Hout. destruct (json_loads payload); [reflexivity|].
    now elim (Hjson eq_refl).
  - cbn [Routing.flushes] in Hflush. rewrite Hflush, Hin.
    unfold first_by_station. rewrite find_first_filtered.
    specialize (Hsingle z). unfold Admin.single in Hsingle.
    destruct (List.filter (in_station (Some z) indoor)
                (devices (session (Admin.world st)))) as [|a [|b l]];
      [reflexivity | reflexivity | simpl in Hsingle; lia].
Qed.

(** X18.  A device added by hand is known to the relay.  When
    [create_device] answers 200, the table has one more row, for an IMEI
    that was not there, with no station and never seen; a message that a
    handler takes up from that IMEI afterwards, on either prefix, adds no
    row, leaves the class and the name of the new row, and is published to
    nobody. *)
Theorem created_device_is_known (data : Json.JValue) (st : Admin.State)
  (r : Admin.Response) (ty : DeviceType) (payload : string) :
  snd (Admin.create_device strip data st) = Admin.Served r ->
  Admin.code r = 200 ->
  let st' := fst (Admin.create_device strip data st) in
  exists d,
    Admin.data r = Some d
    /\ first_by_imei (Device.imei d) (session (Admin.world st)) = None
    /\ Device.station_id d = None
    /\ Device.last_seen d = None
    /\ devices (session (Admin.world st'))
       = devices (session (Admin.world st)) ++ [d]
    /\ map Routing.route
         (devices
            (session (fst (handle ty (Device.imei d) payload
                             (Admin.world st')))))
       = map Routing.route (devices (session (Admin.world st')))
    /\ outbox (fst (handle ty (Device.imei d) payload (Admin.world st')))
       = outbox (Admin.world st).
Proof.
  intros Hr Hcode st'. subst st'.
  destruct (create_cases strip data st)
    as [[_ Hno]|(d & E & _ & Hnone & Hseen & Hc)];
    [now elim (Hno r Hr)|].
  rewrite Hc in Hr |- *. cbn [snd] in Hr. injection Hr as <-.
  cbn [fst Admin.world Admin.with_world Admin.data].
  set (w' := commit
               (with_session
                  (with_devices (devices (session (Admin.world st)) ++ [d])
                     (session (Admin.world st)))
                  (Admin.world st))).
  assert (Hf : first_by_imei (Device.imei d) (session w') = Some d).
  { unfold first_by_imei in *. subst w'.
    cbn [session commit with_session with_devices devices].
    apply Engine.find_app_miss; [exact E|].
    unfold has_imei. apply String.eqb_refl. }
  exists d. repeat split; try assumption.
  - rewrite (Relaying.handle_routes cfg json_loads int_of_str clock float_binds ty
               (Device.imei d) payload w'), Hf.
    apply app_nil_r.
  - destruct (Relaying.handle_summary cfg json_loads int_of_str clock float_binds ty
                (Device.imei d) payload w')
      as (w1 & d1 & d' & al & _ & _ & Hm & Ho & _).
    rewrite Hf in Hm. destruct Hm as [-> ->]. rewrite Ho.
    unfold Routing.targets. rewrite Hnone. simpl. apply app_nil_r.
Qed.

End Traffic.

(** The tables of the installation meet the three invariants. *)
Ltac installation_consistent :=
  split; [|split];
  [ unfold Admin.unique_imeis, Admin.unique; simpl;
    repeat constructor; simpl; intuition discriminate
  | intros s; cbn -[Z.eqb]; unfold in_station; cbn -[Z.eqb];
    destruct (7 =? s); cbn; lia
  | intros d s Hin Hd; simpl in Hin;
    repeat (destruct Hin as [<-|Hin];
            [simpl in Hd; try discriminate; injection Hd as <-;
             simpl; discriminate|]);
    destruct Hin ].

(** The unbound outdoor unit 860000000000002, an alarm of station 7 and a
    message of the unit itself. *)
Lemma unbound_device_gets_nothing_fixture :
  exists added,
    comm_logs
      (session
         (Routing.deliver Config.default Json.loads Json.py_int Fixture.clock
            Fixture.decode_utf8 Fixture.float_binds
            [ {| Relay.topic := "/AIR8000/PUB/864793080106318";
                 Relay.payload := Fixture.bj_int_1 |};
              {| Relay.topic := "/780EHV/PUB/860000000000002";
                 Relay.payload := Fixture.vbat_3_1 |} ]
            Fixture.world0))
    = comm_logs (session Fixture.world0) ++ added
    /\ outbox
         (Routing.deliver Config.default Json.loads Json.py_int Fixture.clock
            Fixture.decode_utf8 Fixture.float_binds
            [ {| Relay.topic := "/AIR8000/PUB/864793080106318";
                 Relay.payload := Fixture.bj_int_1 |};
              {| Relay.topic := "/780EHV/PUB/860000000000002";
                 Relay.payload := Fixture.vbat_3_1 |} ]
            Fixture.world0)
       = outbox Fixture.world0 ++ flat_map Routing.published added
    /\ Forall (fun l => CommLog.target_imei l <> Some "860000000000002")
         added.
Proof.
  apply (unbound_device_gets_nothing Config.default Json.loads Json.py_int
           Fixture.clock Fixture.decode_utf8 Fixture.float_binds _
           "860000000000002" Fixture.world0 (Fixture.device "860000000000002" outdoor None)).
  - simpl. repeat constructor; simpl; intuition discriminate.
  - reflexivity.
  - reflexivity.
Defined.

(** The outdoor unit 866965083776697 of station 7 is unbound; the next
    alarm of the station does not go to it. *)
Lemma unbind_cuts_device_off_fixture :
  Admin.code (snd (Admin.unbind_device "866965083776697" Admin.installation))
  = 200
  /\ exists tgs,
       outbox
         (fst (Relay.handle Config.default Json.loads Json.py_int
                 Fixture.clock Fixture.float_binds indoor "864793080106318"
                 Fixture.bj_int_1
                 (Admin.world
                    (fst (Admin.unbind_device "866965083776697"
                            Admin.installation)))))
       = outbox (Admin.world Admin.installation)
         ++ map (Relay.forward_pub Config.default indoor Fixture.bj_int_1) tgs
       /\ ~ In "866965083776697" tgs
       /\ ("864793080106318" = "866965083776697" -> tgs = []).
Proof.
  apply (unbind_cuts_device_off Config.default Json.loads Json.py_int
           Fixture.clock Fixture.float_binds "866965083776697"
           Admin.installation
           (Fixture.device "866965083776697" outdoor (Some 7))).
  - unfold Admin.unique_imeis, Admin.unique. simpl.
    repeat constructor; simpl; intuition discriminate.
  - reflexivity.
Defined.

(** A device added by hand, a bind, an alarm, an unbind and the deletion
    of the empty station 8. *)
Lemma invariants_preserved_fixture :
  Admin.consistent
    (Admin.run Config.default Json.loads Json.py_int Fixture.clock
       Fixture.decode_utf8 Fixture.float_binds Admin.ascii_strip
       [ Admin.Create
           (Json.JObj [("imei", Json.JStr " 860000000000009 ");
                       ("type", Json.JStr "outdoor")]);
         Admin.Bind "860000000000002" (Admin.to_station 7);
         Admin.Inbound {| Relay.topic := "/AIR8000/PUB/864793080106318";
                          Relay.payload := Fixture.bj_int_1 |};
         Admin.Unbind "866965083776697";
         Admin.DeleteStation 8 ]
       Admin.installation).
Proof.
  apply invariants_preserved.
  - repeat constructor.
  - installation_consistent.
Defined.

(** The outdoor unit 866965083776697 of station 7 stays there when it is
    bound to station 8, when a message comes and when another unit is
    unbound. *)
Lemma binding_is_sticky_fixture :
  exists d',
    first_by_imei "866965083776697"
      (session
         (Admin.world
            (Admin.run Config.default Json.loads Json.py_int Fixture.clock
               Fixture.decode_utf8 Fixture.float_binds Admin.ascii_strip
               [ Admin.Bind "866965083776697" (Admin.to_station 8);
                 Admin.Inbound {| Relay.topic := "/780EHV/PUB/866965083776697";
                                  Relay.payload := Fixture.vbat_3_1 |};
                 Admin.Unbind "866965083776698" ]
               Admin.installation)))
    = Some d'
    /\ Device.station_id d' = Some 7
    /\ Device.type d' = outdoor.
Proof.
  apply (binding_is_sticky Config.default Json.loads Json.py_int Fixture.clock
           Fixture.decode_utf8 Fixture.float_binds Admin.ascii_strip _
           "866965083776697" 7 Admin.installation
           (Fixture.device "866965083776697" outdoor (Some 7))).
  - repeat constructor.
  - repeat constructor; discriminate.
  - reflexivity.
  - reflexivity.
  - lia.
Defined.

(** The unbound outdoor unit 860000000000002 is bound to station 7; the
    next alarm of the station goes to it. *)
Lemma bind_takes_effect_fixture :
  In (Relay.forward_pub Config.default indoor Fixture.bj_int_1
        "860000000000002")
     (outbox
        (fst (Relay.handle Config.default Json.loads Json.py_int
                Fixture.clock Fixture.float_binds indoor "864793080106318"
                Fixture.bj_int_1
                (Admin.world
                   (fst (Admin.bind_device "860000000000002"
                           (Admin.to_station 7) Admin.installation)))))).
Proof.
  apply (bind_takes_effect Config.default Json.loads Json.py_int Fixture.clock
           Fixture.float_binds
           "860000000000002" "864793080106318" Fixture.bj_int_1
           (Admin.to_station 7) Admin.installation
           {| Admin.code := 200; Admin.message := "绑定成功";
              Admin.data :=
                Some (Fixture.device "860000000000002" outdoor (Some 7)) |}
           (Fixture.device "860000000000002" outdoor None)
           (Fixture.device "864793080106318" indoor (Some 7))
           7 (Json.JObj [("bj", Json.JInt 1)])).
  - reflexivity.
  - reflexivity.
  - reflexivity.
  - reflexivity.
  - reflexivity.
  - lia.
  - discriminate.
  - reflexivity.
  - reflexivity.
  - vm_compute. reflexivity.
Defined.

(** A message of the outdoor unit 866965083776697 goes to the indoor unit
    that [get_station] shows for station 7. *)
Lemma station_view_matches_routing_fixture :
  outbox
    (fst (Relay.handle Config.default Json.loads Json.py_int Fixture.clock
            Fixture.float_binds outdoor "866965083776697" Fixture.vbat_3_1
            (Admin.world Admin.installation)))
  = outbox (Admin.world Admin.installation)
    ++ map (Relay.forward_pub Config.default outdoor Fixture.vbat_3_1)
         (map Device.imei
            [Fixture.device "864793080106318" indoor (Some 7)]).
Proof.
  apply (station_view_matches_routing Config.default Json.loads Json.py_int
           Fixture.clock Fixture.float_binds 7 "866965083776697"
           Fixture.vbat_3_1 outdoor
           Admin.installation
           {| Admin.indoor_device :=
                Some (Fixture.device "864793080106318" indoor (Some 7));
              Admin.outdoor_devices :=
                [ Fixture.device "866965083776697" outdoor (Some 7);
                  Fixture.device "866965083776698" outdoor (Some 7) ] |}
           (Fixture.device "866965083776697" outdoor (Some 7))).
  - intros s; cbn -[Z.eqb]; unfold in_station; cbn -[Z.eqb].
    destruct (7 =? s); cbn; lia.
  - reflexivity.
  - reflexivity.
  - reflexivity.
  - lia.
  - discriminate.
  - reflexivity.
Defined.

(** The outdoor unit 860000000000009 is added by hand, its IMEI between
    blanks; a message on the indoor prefix from it goes nowhere. *)
Lemma created_device_is_known_fixture :
  outbox
    (fst (Relay.handle Config.default Json.loads Json.py_int Fixture.clock
            Fixture.float_binds indoor "860000000000009" "hello"
            (Admin.world
               (fst (Admin.create_device Admin.ascii_strip
                       (Json.JObj [("imei", Json.JStr " 860000000000009 ");
                                   ("type", Json.JStr "outdoor")])
                       Admin.installation)))))
  = [].
Proof.
  destruct (created_device_is_known Config.default Json.loads Json.py_int
              Fixture.clock Fixture.float_binds Admin.ascii_strip
              (Json.JObj [("imei", Json.JStr " 860000000000009 ");
                          ("type", Json.JStr "outdoor")])
              Admin.installation
              {| Admin.code := 200; Admin.message := "添加成功";
                 Admin.data :=
                   Some {| Device.imei := "860000000000009";
                           Device.type := outdoor;
                           Device.name :=
                             Admin.manual_name "860000000000009";
                           Device.station_id := None;
                           Device.last_seen := None;
                           Device.vbat := Json.JNull |} |}
              indoor "hello" eq_refl eq_refl)
    as (d & Hd & _ & _ & _ & _ & _ & Ho).
  cbn [Admin.data] in Hd. injection Hd as <-. exact Ho.
Defined.

End Binding.

(** ** The service against the script it replaces *)

Module Migration.

Import Store.

(** Passing the rest of an occurrence of the separator. *)
Lemma split_skip (sep p s : string) :
  Legacy.split_from sep (String.append p s) (String.length p)
  = Legacy.split_from sep s 0.
Proof. induction p as [|c p IH]; simpl; [reflexivity | exact IH]. Qed.

(** A string that starts with the separator. *)
Lemma split_prefixed (a : ascii) (sep' s : string) :
  Legacy.split (String a sep') (String.append (String a sep') s)
  = EmptyString :: Legacy.split (String a sep') s.
Proof.
  unfold Legacy.split.
  change (String.append (String a sep') s)
    with (String a (String.append sep' s)).
  cbn [Legacy.split_from].
  change (String a (String.append sep' s))
    with (String.append (String a sep') s).
  rewrite Facts.prefix_append. cbn [String.length].
  rewrite Nat.sub_1_r. cbn [Nat.pred]. now rewrite split_skip.
Qed.

(** A string without the first character of the separator is its own
    single piece. *)
Lemma split_none (a : ascii) (sep' s : string) :
  Py.str_contains (String a EmptyString) s = false ->
  Legacy.split (String a sep') s = [s].
Proof.
  unfold Legacy.split. induction s as [|c s IH]; [reflexivity|].
  cbn [Py.str_contains Legacy.split_from String.prefix].
  destruct (ascii_dec a c) as [->|N].
  - now rewrite Codec.prefix_empty.
  - intros H. now rewrite (IH H).
Qed.

(** The sender that the script reads from a topic one level below a
    prefix. *)
Lemma sender_read (a : ascii) (sep' imei : string) :
  Py.str_contains (String a EmptyString) imei = false ->
  nth_error
    (Legacy.split (String a sep') (String.append (String a sep') imei)) 1
  = Some imei.
Proof.
  intros H. now rewrite split_prefixed, (split_none a sep' imei H).
Qed.

(** The script on a topic one level below the prefix of a class. *)
Lemma script_run (decode_utf8 : string -> option string) (ty : DeviceType)
  (imei : string) (msg : Relay.Message) (published : list (string * string)) :
  Relay.topic msg = String.append (Relay.pub_prefix Config.default ty) imei ->
  Py.str_contains "/" imei = false ->
  Legacy.on_message decode_utf8 msg published
  = match decode_utf8 (Relay.payload msg) with
    | None => published
    | Some text =>
        match Legacy.dict_lookup imei Legacy.BINDING_MAP with
        | Some receivers =>
            fold_left
              (fun published receiver =>
                 published
                 ++ [Relay.forward_pub Config.default ty text receiver])
              receivers published
        | None => published
        end
    end.
Proof.
  intros Ht Hno. unfold Legacy.on_message. rewrite Ht.
  destruct (decode_utf8 (Relay.payload msg)) as [text|]; [|reflexivity].
  destruct ty.
  - assert (P : Py.startswith
                  (String.append (Relay.pub_prefix Config.default indoor) imei)
                  Legacy.HOST_PUB_PREFIX = true)
      by apply Facts.prefix_append.
    rewrite P.
    rewrite (sender_read "/" "AIR8000/PUB/" imei Hno : nth_error
               (Legacy.split Legacy.HOST_PUB_PREFIX
                  (String.append (Relay.pub_prefix Config.default indoor)
                     imei)) 1 = Some imei).
    reflexivity.
  - assert (P : Py.startswith
                  (String.append (Relay.pub_prefix Config.default outdoor) imei)
                  Legacy.HOST_PUB_PREFIX = false)
      by reflexivity.
    assert (Q : Py.startswith
                  (String.append (Relay.pub_prefix Config.default outdoor) imei)
                  Legacy.SLAVE_PUB_PREFIX = true)
      by apply Facts.prefix_append.
    rewrite P, Q.
    rewrite (sender_read "/" "780EHV/PUB/" imei Hno : nth_error
               (Legacy.split Legacy.SLAVE_PUB_PREFIX
                  (String.append (Relay.pub_prefix Config.default outdoor)
                     imei)) 1 = Some imei).
    reflexivity.
Qed.

(** The topic of a class, one level below its prefix, is read back by the
    service. *)
Lemma topic_read (ty : DeviceType) (imei : string) :
  Py.str_contains "/" imei = false ->
  Relay.parse_topic Config.default
    (String.append (Relay.pub_prefix Config.default ty) imei)
  = Some (ty, imei).
Proof.
  intros Hno.
  assert (L : forall q,
            Py.last_item
              (Py.split "/" (String.append (String.append q "/") imei))
            = imei).
  { intros q. rewrite Facts.append_assoc. simpl String.append at 2.
    rewrite Facts.last_split_append, Facts.split_no_sep by exact Hno.
    reflexivity. }
  unfold Relay.parse_topic. destruct ty.
  - assert (P : Py.startswith
                  (String.append (Relay.pub_prefix Config.default indoor) imei)
                  (Config.INDOOR_PUB_PREFIX Config.default) = true)
      by apply Facts.prefix_append.
    rewrite P.
    change (String.append (Relay.pub_prefix Config.default indoor) imei)
      with (String.append (String.append "/AIR8000/PUB" "/") imei).
    now rewrite L.
  - assert (P : Py.startswith
                  (String.append (Relay.pub_prefix Config.default outdoor) imei)
                  (Config.INDOOR_PUB_PREFIX Config.default) = false)
      by reflexivity.
    assert (Q : Py.startswith
                  (String.append (Relay.pub_prefix Config.default outdoor) imei)
                  (Config.OUTDOOR_PUB_PREFIX Config.default) = true)
      by apply Facts.prefix_append.
    rewrite P, Q.
    change (String.append (Relay.pub_prefix Config.default outdoor) imei)
      with (String.append (String.append "/780EHV/PUB" "/") imei).
    now rewrite L.
Qed.

Lemma filter_none {A : Type} (f : A -> bool) (l : list A) :
  (forall x, In x l -> f x = false) -> List.filter f l = [].
Proof.
  induction l as [|a l IH]; intros H; simpl; [reflexivity|].
  rewrite (H a (or_introl eq_refl)). apply IH. intros x Hx. apply H. now right.
Qed.

(** A query that only one row of the table can match selects it alone. *)
Lemma filter_only {A : Type} (f : A -> bool) (l : list A) (g : A) :
  NoDup l -> In g l -> f g = true ->
  (forall x, In x l -> f x = true -> x = g) ->
  List.filter f l = [g].
Proof.
  induction l as [|a l IH]; intros Hnd Hin Hg Honly; [destruct Hin|].
  inversion Hnd as [|? ? Hna Hnd']; subst. simpl.
  destruct (f a) eqn:Ea.
  - assert (a = g) by (apply Honly; [now left | exact Ea]). subst a.
    f_equal. apply filter_none. intros x Hx.
    destruct (f x) eqn:Ex; [|reflexivity].
    assert (x = g) by (apply Honly; [now right | exact Ex]).
    subst x. contradiction.
  - destruct Hin as [->|Hin]; [congruence|].
    apply IH; auto. intros x Hx. apply Honly. now right.
Qed.

Lemma rows_distinct (rows : list Device.t) :
  NoDup (map Device.imei rows) -> NoDup rows.
Proof.
  induction rows as [|a l IH]; intros H; [constructor|].
  simpl in H. inversion H as [|? ? Hna Hnd]; subst.
  constructor; [|now apply IH].
  intros Hin. apply Hna. now apply in_map.
Qed.

(** The row of an IMEI is the only row with that IMEI. *)
Lemma row_of_imei (imei : string) (db : DB) (d x : Device.t) :
  NoDup (map Device.imei (devices db)) ->
  first_by_imei imei db = Some d ->
  In x (devices db) -> Device.imei x = imei -> x = d.
Proof.
  intros Hnd Hf Hin Hx. unfold first_by_imei in Hf.
  destruct (Facts.find_split _ _ _ Hf) as (pre & post & Hrows & _ & Hd).
  rewrite Hrows in Hnd, Hin.
  now apply (Binding.unique_row imei pre post d x).
Qed.

Lemma row_found (imei : string) (db : DB) (d : Device.t) :
  first_by_imei imei db = Some d -> In d (devices db) /\ Device.imei d = imei.
Proof.
  unfold first_by_imei. intros Hf.
  destruct (find_some _ _ Hf) as [Hin Hi]. split; [exact Hin|].
  unfold has_imei in Hi. now apply String.eqb_eq.
Qed.

(** In a store that holds the installation of the script, the station
    queries of the handlers find the slave, and the host. *)
Lemma mirror_queries (s : Z) (db : DB) :
  Legacy.mirrors s db -> s <> 0 ->
  exists h g,
    first_by_imei Legacy.HOST_IMEI db = Some h
    /\ first_by_imei Legacy.SLAVE_IMEI db = Some g
    /\ Device.station_id h = Some s
    /\ Device.station_id g = Some s
    /\ all_by_station (Some s) outdoor db = [g]
    /\ first_by_station (Some s) indoor db = Some h.
Proof.
  intros (Hnd & (h & Hh & Hht & Hhs) & (g & Hg & Hgt & Hgs) & Hrest) Hnz.
  exists h, g.
  destruct (row_found _ _ _ Hh) as [Hhin Hhi].
  destruct (row_found _ _ _ Hg) as [Hgin Hgi].
  assert (Ht : Py.truthy (Some s) = true)
    by (simpl; now apply negb_true_iff, Z.eqb_neq).
  assert (Hwho : forall x ty,
            In x (devices db) -> in_station (Some s) ty x = true ->
            (x = h /\ ty = indoor) \/ (x = g /\ ty = outdoor)).
  { intros x ty Hin Hx.
    apply Relaying.in_station_true in Hx as [Hxs Hxt].
    destruct (string_dec (Device.imei x) Legacy.HOST_IMEI) as [Ei|Ni].
    - left. assert (x = h) by now apply (row_of_imei Legacy.HOST_IMEI db).
      subst x. split; [reflexivity | congruence].
    - destruct (string_dec (Device.imei x) Legacy.SLAVE_IMEI) as [Ej|Nj].
      + right. assert (x = g) by now apply (row_of_imei Legacy.SLAVE_IMEI db).
        subst x. split; [reflexivity | congruence].
      + specialize (Hrest x Hin Ni Nj). rewrite Hxs, Ht in Hrest.
        discriminate. }
  repeat split; try assumption.
  - unfold all_by_station. apply filter_only.
    + now apply rows_distinct.
    + exact Hgin.
    + unfold in_station. rewrite Hgs, Hgt. simpl. now rewrite Z.eqb_refl.
    + intros x Hin Hx. destruct (Hwho x outdoor Hin Hx) as [[_ E]|[E _]];
        [discriminate | exact E].
  - unfold first_by_station.
    destruct (List.find (in_station (Some s) indoor) (devices db))
      as [x|] eqn:Ef.
    + destruct (find_some _ _ Ef) as [Hin Hx].
      destruct (Hwho x indoor Hin Hx) as [[E _]|[_ E]];
        [now subst x | discriminate].
    + assert (in_station (Some s) indoor h = false)
        by exact (find_none _ _ Ef h Hhin).
      unfold in_station in *. rewrite Hhs, Hht in *. simpl in *.
      rewrite Z.eqb_refl in *. discriminate.
Qed.

Section Migration.

Variable json_loads : string -> option Json.JValue.
Variable int_of_str : string -> option Z.
Variable clock : nat -> Z.
Variable decode_utf8 : string -> option string.
Variable float_binds : Json.JValue -> bool.

Notation handle :=
  (Relay.handle Config.default json_loads int_of_str clock float_binds).
Notation on_message :=
  (Relay.on_message Config.default json_loads int_of_str clock decode_utf8
     float_binds).
Notation deliver :=
  (Routing.deliver Config.default json_loads int_of_str clock decode_utf8
     float_binds).
Notation forward_pub := (Relay.forward_pub Config.default).
Notation targets := (Routing.targets json_loads float_binds).

(** A handler keeps a store that holds the installation of the script so:
    it moves no device and registers only unbound ones. *)
Lemma handle_mirrors (s : Z) (ty : DeviceType) (imei text : string)
  (w : World) :
  Legacy.mirrors s (session w) ->
  Legacy.mirrors s (session (fst (handle ty imei text w))).
Proof.
  intros (Hnd & (h & Hh & Hht & Hhs) & (g & Hg & Hgt & Hgs) & Hrest).
  pose proof (Relaying.handle_routes Config.default json_loads int_of_str
                clock float_binds ty imei text w) as Hr.
  split; [|split; [|split]].
  - now apply Relaying.handle_keeps_unique.
  - destruct (Binding.find_same_routes Legacy.HOST_IMEI _ _ _ h Hr Hh)
      as (h' & Hh' & E).
    exists h'. unfold Routing.route in E. injection E as _ Et _ Es.
    split; [exact Hh'|]. split; congruence.
  - destruct (Binding.find_same_routes Legacy.SLAVE_IMEI _ _ _ g Hr Hg)
      as (g' & Hg' & E).
    exists g'. unfold Routing.route in E. injection E as _ Et _ Es.
    split; [exact Hg'|]. split; congruence.
  - intros d Hin Nh Ng.
    apply (in_map Routing.route) in Hin. rewrite Hr in Hin.
    apply in_app_or in Hin as [Hin|Hin].
    + apply in_map_iff in Hin as (d0 & E & Hin0).
      unfold Routing.route in E. injection E as Ei _ _ Es.
      rewrite <- Es. apply Hrest; [exact Hin0 | congruence | congruence].
    + destruct (first_by_imei imei (session w)); [destruct Hin|].
      destruct Hin as [E|[]]. unfold Routing.route in E.
      injection E as _ _ _ Es. now rewrite <- Es.
Qed.

(** One message: the service publishes what the script does. *)
Lemma message_agrees (s : Z) (msg : Relay.Message) (w : World) :
  Legacy.mirrors s (session w) -> s <> 0 ->
  Legacy.proper decode_utf8 json_loads float_binds msg ->
  outbox (on_message msg w)
  = Legacy.on_message decode_utf8 msg (outbox w)
  /\ Legacy.mirrors s (session (on_message msg w)).
Proof.
  intros Hm Hnz (ty & imei & Ht & Hno & Hhost & Hslave).
  rewrite (script_run decode_utf8 ty imei msg (outbox w) Ht Hno).
  destruct (decode_utf8 (Relay.payload msg)) as [text|] eqn:Hdec;
    [|unfold Relay.on_message; rewrite Hdec; now split].
  assert (Hp : Relay.parse_topic Config.default (Relay.topic msg)
               = Some (ty, imei))
    by (rewrite Ht; now apply topic_read).
  rewrite (Engine.on_message_handle Config.default json_loads int_of_str
             clock decode_utf8 float_binds msg w text ty imei Hdec Hp).
  split; [|now apply handle_mirrors].
  destruct (mirror_queries s (session w) Hm Hnz)
    as (h & g & Hh & Hg & Hhs & Hgs & Hall & Hfirst).
  destruct (row_found _ _ _ Hh) as [_ Hhi].
  destruct (row_found _ _ _ Hg) as [_ Hgi].
  assert (Htrue : Py.truthy (Some s) = true)
    by (simpl; now apply negb_true_iff, Z.eqb_neq).
  destruct (Relaying.handle_summary Config.default json_loads int_of_str
              clock float_binds ty imei text w)
    as (w1 & d1 & d' & al & _ & _ & Hreg & Ho & _).
  rewrite Ho. clear Ho.
  destruct (string_dec imei Legacy.HOST_IMEI) as [Ei|Ni].
  - subst imei. destruct (Hhost eq_refl) as [-> Hjson].
    rewrite Hh in Hreg. destruct Hreg as [-> ->].
    unfold Routing.targets. rewrite Hhs, Htrue, Hall.
    destruct (json_loads text) eqn:Ej; [|now elim (Hjson text eq_refl)].
    simpl. now rewrite Hgi.
  - destruct (string_dec imei Legacy.SLAVE_IMEI) as [Ej|Nj].
    + subst imei. destruct (Hslave eq_refl) as [-> Hbinds].
      rewrite Hg in Hreg. destruct Hreg as [-> ->].
      unfold Routing.targets.
      rewrite Hgs, Htrue, Hfirst, (Hbinds text eq_refl).
      simpl. now rewrite Hhi.
    + assert (L : Legacy.dict_lookup imei Legacy.BINDING_MAP = None).
      { simpl. apply String.eqb_neq in Ni, Nj. now rewrite Ni, Nj. }
      rewrite L.
      assert (Hfalse : Py.truthy (Device.station_id d1) = false).
      { destruct Hm as (_ & _ & _ & Hrest).
        destruct (first_by_imei imei (session w)) as [d0|] eqn:E.
        - destruct Hreg as [_ ->].
          destruct (row_found _ _ _ E) as [Hin Hi].
          apply Hrest; [exact Hin | congruence | congruence].
        - destruct Hreg as [-> _]. reflexivity. }
      unfold Routing.targets. rewrite Hfalse. simpl. apply app_nil_r.
Qed.

(** X19.  The service publishes what the script it replaces did.  On a
    store that holds the installation of the script, its host an indoor
    device and its slave an outdoor device of one station that is not 0
    and no other device bound, the service and the script publish the same
    messages, in the same order, over any sequence of messages in which
    every unit publishes one level below the prefix of its class, the host
    sends JSON and the slave sends no voltage that does not bind; units
    that neither knows get nothing from either. *)
Theorem service_forwards_as_script (s : Z) (msgs : list Relay.Message)
  (w : World) :
  Legacy.mirrors s (session w) ->
  s <> 0 ->
  Forall (Legacy.proper decode_utf8 json_loads float_binds) msgs ->
  outbox (deliver msgs w) = Legacy.deliver decode_utf8 msgs (outbox w).
Proof.
  intros Hm Hnz Hall. revert w Hm.
  induction Hall as [|msg msgs Hp Hall IH]; intros w Hm; [reflexivity|].
  destruct (message_agrees s msg w Hm Hnz Hp) as [Ho Hm'].
  simpl. rewrite <- Ho. now apply IH.
Qed.

(** X20.  Where the service parts from the script: an indoor payload that
    is not JSON.  The script publishes whatever the host sends to the slave
    as it came; the service, for the same message and on any store,
    publishes nothing. *)
Theorem script_forwards_unparsed (msg : Relay.Message) (w : World)
  (text : string) :
  Relay.topic msg
  = String.append Legacy.HOST_PUB_PREFIX Legacy.HOST_IMEI ->
  decode_utf8 (Relay.payload msg) = Some text ->
  json_loads text = None ->
  Legacy.on_message decode_utf8 msg (outbox w)
  = outbox w
    ++ [(String.append Legacy.SLAVE_SUB_PREFIX Legacy.SLAVE_IMEI, text)]
  /\ outbox (on_message msg w) = outbox w.
Proof.
  intros Ht Hdec Hjson. split.
  - rewrite (script_run decode_utf8 indoor Legacy.HOST_IMEI msg (outbox w)
               Ht eq_refl), Hdec.
    reflexivity.
  - assert (Hp : Relay.parse_topic Config.default (Relay.topic msg)
                 = Some (indoor, Legacy.HOST_IMEI))
      by (rewrite Ht; reflexivity).
    rewrite (Engine.on_message_handle Config.default json_loads int_of_str
               clock decode_utf8 float_binds msg w text indoor Legacy.HOST_IMEI Hdec Hp).
    destruct (Relaying.handle_summary Config.default json_loads int_of_str
                clock float_binds indoor Legacy.HOST_IMEI text w)
      as (w1 & d1 & d' & al & _ & _ & _ & Ho & _).
    rewrite Ho. unfold Routing.targets. rewrite Hjson.
    destruct (Py.truthy (Device.station_id d1)); apply app_nil_r.
Qed.

End Migration.

(** An alarm of the host, a voltage of the slave, and a unit that neither
    relay knows. *)
Lemma service_forwards_as_script_fixture :
  outbox
    (Routing.deliver Config.default Json.loads Json.py_int Fixture.clock
       Fixture.decode_utf8 Fixture.float_binds
       [ {| Relay.topic := "/AIR8000/PUB/864793080106318";
            Relay.payload := Fixture.bj_int_1 |};
         {| Relay.topic := "/780EHV/PUB/866965083776697";
            Relay.payload := Fixture.vbat_3_1 |};
         {| Relay.topic := "/780EHV/PUB/869999999999999";
            Relay.payload := "hello" |} ]
       Legacy.installation)
  = Legacy.deliver Fixture.decode_utf8
      [ {| Relay.topic := "/AIR8000/PUB/864793080106318";
           Relay.payload := Fixture.bj_int_1 |};
        {| Relay.topic := "/780EHV/PUB/866965083776697";
           Relay.payload := Fixture.vbat_3_1 |};
        {| Relay.topic := "/780EHV/PUB/869999999999999";
           Relay.payload := "hello" |} ]
      (outbox Legacy.installation).
Proof.
  apply (service_forwards_as_script Json.loads Json.py_int Fixture.clock
           Fixture.decode_utf8 Fixture.float_binds 7).
  - split; [|split; [|split]].
    + simpl. repeat constructor; simpl; intuition discriminate.
    + eexists. repeat split; reflexivity.
    + eexists. repeat split; reflexivity.
    + intros d [<-|[<-|[<-|[]]]] Nh Ng;
        [now elim Nh | now elim Ng | reflexivity].
  - lia.
  - repeat constructor.
    + exists indoor, "864793080106318".
      split; [reflexivity|]. split; [reflexivity|]. split.
      * intros _. split; [reflexivity|].
        intros text Ht. injection Ht as <-. vm_compute. discriminate.
      * intros Hx. discriminate Hx.
    + exists outdoor, "866965083776697".
      split; [reflexivity|]. split; [reflexivity|].
      split; [intros Hx; discriminate Hx|].
      intros _. split; [reflexivity|].
      intros text Ht. injection Ht as <-. vm_compute. reflexivity.
    + exists outdoor, "869999999999999".
      split; [reflexivity|]. split; [reflexivity|].
      split; intros Hx; discriminate Hx.
Defined.

(** The host sends [hello]. *)
Lemma script_forwards_unparsed_fixture :
  Legacy.on_message Fixture.decode_utf8
    {| Relay.topic := "/AIR8000/PUB/864793080106318";
       Relay.payload := "hello" |} []
  = [("/780EHV/SUB/866965083776697", "hello")]
  /\ outbox
       (Relay.on_message Config.default Json.loads Json.py_int Fixture.clock
          Fixture.decode_utf8 Fixture.float_binds
          {| Relay.topic := "/AIR8000/PUB/864793080106318";
             Relay.payload := "hello" |} Legacy.installation)
     = [].
Proof.
  apply (script_forwards_unparsed Json.loads Json.py_int Fixture.clock
           Fixture.decode_utf8 Fixture.float_binds
           {| Relay.topic := "/AIR8000/PUB/864793080106318";
              Relay.payload := "hello" |} Legacy.installation "hello").
  - reflexivity.
  - reflexivity.
  - vm_compute. reflexivity.
Defined.

End Migration.
